(** * LRC video generator: the asynchronous render-job pipeline of [main_ui.py]

    A shallow embedding of the job pipeline of [main_ui.py]: the progress
    relay [QtProglogLogger], the three worker threads ([AudioInfoWorker],
    [VideoWorker], [PreviewWorker]) and the [MainWindow] methods that compile
    job parameters, react to finished jobs and save or load project files.

    Python code that can raise is written in a small state-and-exception
    monad; [try_except] is Python's [try: ... except Exception as e: ...].
    Text is kept as the UTF-8 bytes of the source literals: a byte-level
    substring test on well-formed UTF-8 agrees with Python's [in] on code
    points, because no encoded character is a proper infix of another
    sequence of encoded characters at a misaligned position. *)

From Stdlib Require Import Ascii String QArith Qcanon.
From stdpp Require Import base numbers strings list gmap pretty.

Open Scope string_scope.
Open Scope list_scope.
Open Scope Z_scope.

(** ** Python values, exceptions and the execution monad *)

(** The exception classes the code raises or names in a handler.  All of
    them derive from [Exception]; [FileNotFoundError] and [PermissionError]
    derive from [OSError]. *)
Inductive exn_class :=
| Exception
| AttributeError
| KeyError
| ValueError
| OSError
| FileNotFoundError
| PermissionError
| OverflowError
| CalledProcessError.

Record exn := Raise { exn_type : exn_class; exn_str : string }.

Definition issubclass_OSError (c : exn_class) : bool :=
  match c with
  | OSError | FileNotFoundError | PermissionError => true
  | _ => false
  end.

Inductive outcome (A : Type) :=
| Ok (a : A)
| Exc (e : exn).
Arguments Ok {A} a.
Arguments Exc {A} e.

Definition M (W A : Type) : Type := W → outcome A * W.

#[global] Instance M_ret {W} : MRet (M W) := λ A a w, (Ok a, w).

#[global] Instance M_bind {W} : MBind (M W) := λ A B f m w,
  match m w with
  | (Ok a, w') => f a w'
  | (Exc e, w') => (Exc e, w')
  end.

Definition raise {W A} (e : exn) : M W A := λ w, (Exc e, w).

Definition get {W} : M W W := λ w, (Ok w, w).

Definition modify {W} (f : W → W) : M W unit := λ w, (Ok tt, f w).

(** [try: body except Exception as e: handler e] *)
Definition try_except {W A} (body : M W A) (handler : exn → M W A) : M W A :=
  λ w, match body w with
       | (Ok a, w') => (Ok a, w')
       | (Exc e, w') => handler e w'
       end.

(** [try: body except OSError: pass] *)
Definition try_except_OSError_pass {W} (body : M W unit) : M W unit :=
  λ w, match body w with
       | (Ok a, w') => (Ok a, w')
       | (Exc e, w') =>
           if issubclass_OSError (exn_type e) then (Ok tt, w') else (Exc e, w')
       end.

(** Python's [needle in hay] on [str]. *)
Fixpoint contains (needle hay : string) : bool :=
  String.prefix needle hay ||
  match hay with
  | EmptyString => false
  | String _ rest => contains needle rest
  end.

(** Truthiness of a [str]: the empty string is falsy. *)
Definition truthy (s : string) : bool :=
  match s with
  | EmptyString => false
  | String _ _ => true
  end.

(** Truthiness of [d.get(key)]: [None] and the empty string are falsy. *)
Definition truthy_opt (o : option string) : bool :=
  match o with
  | Some s => truthy s
  | None => false
  end.

Definition newline : string := String "010"%char EmptyString.

(** A Python number, as an engine hands one to [progress_update]: an
    [int], or a finite [float] given by the rational it denotes. *)
Inductive number :=
| Int (n : Z)
| Float (x : Qc).

(** Python compares an [int] with a [float] by value. *)
Definition rational (v : number) : Qc :=
  match v with
  | Int n => Qc_of_Z n
  | Float x => x
  end.

(** Python's [a > b] on numbers *)
Definition gt (a b : number) : bool := bool_decide (rational b < rational a)%Qc.

(** The integers a C [int] holds *)
Definition fits_c_int (n : Z) : Prop := -2147483648 ≤ n ≤ 2147483647.

(** Running outside code that either returns or raises. *)
Definition call {W A} (r : outcome A) : M W A :=
  match r with
  | Ok a => mret a
  | Exc e => raise e
  end.

(** ** Files on disk *)

(** A file as far as this program looks at it: its size in bytes, the image
    it decodes to (if it is a loadable image) and whether the operating
    system refuses to remove it ([os.remove] then raises an [OSError]). *)
Record file := File { size : Z; picture : option nat; locked : bool }.

(** [QPixmap]: [None] is the null pixmap. *)
Definition QPixmap : Type := option nat.

Definition isNull (p : QPixmap) : bool :=
  match p with
  | None => true
  | Some _ => false
  end.

(** ** Signals and worker threads *)

(** A signal as the worker emits it.  [progress] is declared [Signal(int)]
    and is emitted with whatever number the relay was handed; what the slot
    receives for it is a C [int], see [delivered] below. *)
Inductive signal :=
| Progress (percent : number)
| Status (message : string)
| Finished (message : string)
| PreviewFinished (pixmap : QPixmap) (message : string).

(** The two job workers.  [VideoWorker] declares the signals [progress],
    [status] and [finished]; [PreviewWorker] declares [finished] and
    [status] only. *)
Inductive worker_class :=
| VideoWorker
| PreviewWorker.

Definition class_name (c : worker_class) : string :=
  match c with
  | VideoWorker => "VideoWorker"
  | PreviewWorker => "PreviewWorker"
  end.

Definition has_progress (c : worker_class) : bool :=
  match c with
  | VideoWorker => true
  | PreviewWorker => false
  end.

Record QtProglogLogger := Logger { qt_emitter : worker_class; _last_percent : number }.

(** [QtProglogLogger.__init__] *)
Definition QtProglogLogger_init (qt_emitter : worker_class) : QtProglogLogger :=
  {| qt_emitter := qt_emitter; _last_percent := Int (-1) |}.

(** What a running worker thread can touch: the signals it has emitted so
    far (oldest first), the [logger] entry of its [params] dict, the disk,
    and the tracebacks printed by [traceback.print_exc]. *)
Record thread := Thread {
  emitted : list signal;
  logger : option QtProglogLogger;
  disk : gmap string file;
  printed : list exn
}.

Definition emit (s : signal) : M thread unit :=
  modify (λ t, Thread (emitted t ++ [s]) (logger t) (disk t) (printed t)).

Definition set_logger (l : QtProglogLogger) : M thread unit :=
  modify (λ t, Thread (emitted t) (Some l) (disk t) (printed t)).

Definition set_disk (d : gmap string file) : M thread unit :=
  modify (λ t, Thread (emitted t) (logger t) d (printed t)).

Definition print_exc (e : exn) : M thread unit :=
  modify (λ t, Thread (emitted t) (logger t) (disk t) (printed t ++ [e])).

(** [params['logger']] *)
Definition params_logger : M thread QtProglogLogger :=
  t ← get;
  match logger t with
  | Some l => mret l
  | None => raise (Raise KeyError "'logger'")
  end.

(** [self.qt_emitter.progress.emit(percent)]: looking up [progress] on a
    worker that declares no such signal raises [AttributeError]. *)
Definition qt_emitter_progress_emit (c : worker_class) (percent : number) : M thread unit :=
  if has_progress c then emit (Progress percent)
  else raise (Raise AttributeError
                ("'" +:+ class_name c +:+ "' object has no attribute 'progress'")).

(** [QtProglogLogger.status_update] *)
Definition status_update (message : string) : M thread unit :=
  _ ← params_logger;
  emit (Status message).

(** [QtProglogLogger.progress_update] *)
Definition progress_update (percent : number) : M thread unit :=
  self ← params_logger;
  if gt percent (_last_percent self) then
    qt_emitter_progress_emit (qt_emitter self) percent ;;
    set_logger (Logger (qt_emitter self) percent)
  else mret tt.

(** ** The rendering engine

    [create_karaoke_video] and [create_preview_frame] live in
    [video_processor], outside this file.  An engine call is taken as a
    parameter: the calls it makes on the logger it was handed and the files
    it writes, in order, and whether it finally returns or raises.  An
    exception raised by a logger call is not handled by the engine and
    ends the call. *)
Inductive engine_step :=
| LogStatus (message : string)
| LogProgress (percent : number)
| WriteFile (path : string) (f : file).

Record engine := Engine { steps : list engine_step; raises : option exn }.

Definition engine_step_run (s : engine_step) : M thread unit :=
  match s with
  | LogStatus message => status_update message
  | LogProgress percent => progress_update percent
  | WriteFile path f => t ← get; set_disk (<[path := f]> (disk t))
  end.

Fixpoint engine_steps_run (l : list engine_step) : M thread unit :=
  match l with
  | [] => mret tt
  | s :: rest => engine_step_run s ;; engine_steps_run rest
  end.

Definition engine_call (e : engine) : M thread unit :=
  engine_steps_run (steps e) ;;
  match raises e with
  | None => mret tt
  | Some x => raise x
  end.

(** [VideoWorker.run] *)
Definition VideoWorker_run (create_karaoke_video : engine) : M thread unit :=
  try_except
    (set_logger (QtProglogLogger_init VideoWorker) ;;
     engine_call create_karaoke_video ;;
     emit (Finished "成功！视频已生成。"))
    (λ e,
     print_exc e ;;
     emit (Finished ("发生错误: " +:+ exn_str e))).

Definition os_path_exists (d : gmap string file) (path : string) : bool :=
  bool_decide (is_Some (d !! path)).

(** [os.path.getsize]: raises [OSError] for a path that does not exist. *)
Definition os_path_getsize (path : string) : M thread Z :=
  t ← get;
  match disk t !! path with
  | Some f => mret (size f)
  | None => raise (Raise FileNotFoundError ("[Errno 2] No such file or directory: '" +:+ path +:+ "'"))
  end.

(** [QPixmap(path)]: the null pixmap when the file is missing or is not a
    loadable image. *)
Definition QPixmap_load (d : gmap string file) (path : string) : QPixmap :=
  match d !! path with
  | Some f => picture f
  | None => None
  end.

(** [PreviewWorker.run]; [output_path] is [self.params["output_image_path"]]. *)
Definition PreviewWorker_run (output_path : string) (create_preview_frame : engine) : M thread unit :=
  try_except
    (set_logger (QtProglogLogger_init PreviewWorker) ;;
     engine_call create_preview_frame ;;
     t ← get;
     missing ← (if negb (os_path_exists (disk t) output_path) then mret true
                else sz ← os_path_getsize output_path; mret (bool_decide (sz = 0)));
     (if missing : bool then raise (Raise FileNotFoundError "FFmpeg未能成功创建预览图片。")
      else mret tt) ;;
     let pixmap := QPixmap_load (disk t) output_path in
     if isNull pixmap then emit (PreviewFinished None "生成的预览图片无效或无法加载。")
     else emit (PreviewFinished pixmap ""))
    (λ e,
     print_exc e ;;
     emit (PreviewFinished None ("生成预览时发生错误: " +:+ exn_str e))).

(** A thread about to run a worker: nothing emitted yet.  [params] may
    already hold a logger left by earlier code. *)
Definition thread_start (l : option QtProglogLogger) (d : gmap string file) : thread :=
  Thread [] l d [].

(** The numbers the [progress] signal was emitted with, in order. *)
Fixpoint progress_args (l : list signal) : list number :=
  match l with
  | [] => []
  | Progress p :: rest => p :: progress_args rest
  | _ :: rest => progress_args rest
  end.

(** The progress values the slot receives, in order: Qt's binding converts
    each emitted number to the C [int] of the signal's signature;
    [signal_int] is that conversion. *)
Definition delivered (signal_int : number → Z) (l : list signal) : list Z :=
  signal_int <$> progress_args l.

(** The terminal ([finished]) signals among the emitted ones, in order. *)
Definition is_finished (s : signal) : bool :=
  match s with
  | Finished _ | PreviewFinished _ _ => true
  | _ => false
  end.

(** The progress reports an engine makes, in order. *)
Fixpoint reported (l : list engine_step) : list number :=
  match l with
  | [] => []
  | LogProgress p :: rest => p :: reported rest
  | _ :: rest => reported rest
  end.

(** What the relay lets through when it starts from [last]: the reports
    that exceed every earlier forwarded one. *)
Fixpoint forwarded (last : number) (l : list number) : list number :=
  match l with
  | [] => []
  | p :: rest =>
      if gt p last then p :: forwarded p rest else forwarded last rest
  end.



(** [signal_int] hands an [int] that fits a C [int] to the slot as it is. *)
Definition faithful (signal_int : number → Z) : Prop :=
  ∀ n, fits_c_int n → signal_int (Int n) = n.


Fixpoint terminal (l : list signal) : list signal :=
  match l with
  | [] => []
  | s :: rest => if is_finished s then s :: terminal rest else terminal rest
  end.

(** The signals a render job's relay emits for the engine's logger calls,
    when its [_last_percent] is [last] at the first of them. *)
Fixpoint video_signals (last : number) (l : list engine_step) : list signal :=
  match l with
  | [] => []
  | LogStatus message :: rest => Status message :: video_signals last rest
  | LogProgress p :: rest =>
      if gt p last then Progress p :: video_signals p rest
      else video_signals last rest
  | WriteFile _ _ :: rest => video_signals last rest
  end.

(** The thread right after the worker has stored its new relay in
    [params['logger']]. *)
Definition job_entry (c : worker_class) (d : gmap string file) : thread :=
  Thread [] (Some (QtProglogLogger_init c)) d [].

(** The terminal signal of a preview job whose engine call returned, read
    off the disk the engine left behind. *)
Definition preview_verdict (d : gmap string file) (output_path : string) : signal :=
  match d !! output_path with
  | None => PreviewFinished None "生成预览时发生错误: FFmpeg未能成功创建预览图片。"
  | Some f =>
      if bool_decide (size f = 0)
      then PreviewFinished None "生成预览时发生错误: FFmpeg未能成功创建预览图片。"
      else match picture f with
           | None => PreviewFinished None "生成的预览图片无效或无法加载。"
           | Some img => PreviewFinished (Some img) ""
           end
  end.

(** ** Widgets of the main window *)

(** A non-editable [QComboBox]: its item texts and the text of the current
    item (empty when the box has no items). *)
Record QComboBox := Combo { items : list string; currentText : string }.

(** [QComboBox()] followed by [addItems(items)]: the first item added to an
    empty box becomes the current one. *)
Definition QComboBox_new (items : list string) : QComboBox :=
  Combo items (hd "" items).

Fixpoint index_from (i : Z) (text : string) (l : list string) : Z :=
  match l with
  | [] => -1
  | x :: rest => if bool_decide (x = text) then i else index_from (i + 1) text rest
  end.

(** [combo.findText(text)]: the index of the first item equal to [text], or
    [-1]. *)
Definition findText (combo : QComboBox) (text : string) : Z :=
  index_from 0 text (items combo).

(** [combo.setCurrentText(text)] on a non-editable box selects the matching
    item and does nothing when there is none. *)
Definition setCurrentText (text : string) (combo : QComboBox) : QComboBox :=
  if bool_decide (findText combo text > -1) then Combo (items combo) text else combo.

(** A [QSpinBox]: its range and its value. *)
Record QSpinBox := Spin { minimum : Z; maximum : Z; value : Z }.

(** The box with [v] as its value, bounded by the range. *)
Definition bounded (v : Z) (spin : QSpinBox) : QSpinBox :=
  Spin (minimum spin) (maximum spin) (Z.max (minimum spin) (Z.min (maximum spin) v)).

(** [spin.setValue(v)] for a Python [int]: the binding takes a C [int] and
    raises [OverflowError] for a value that does not fit; [text] is the
    text of that error.  A value that fits is bounded by the range. *)
Definition setValue (text : string) (v : Z) (spin : QSpinBox) : outcome QSpinBox :=
  if bool_decide (fits_c_int v) then Ok (bounded v spin)
  else Exc (Raise OverflowError text).

Inductive dialog :=
| QMessageBox_information (title text : string)
| QMessageBox_warning (title text : string)
| QMessageBox_critical (title text : string).

Inductive display :=
| setText (text : string)
| setPixmap (pixmap : QPixmap).

(** ** Project documents *)

(** The [settings] object of a project file.  Each recognised key is
    either absent ([None]) or carries a value of the type [save_project]
    writes for it: a string or an integer.  A string-valued key holding
    JSON [null] behaves like an absent one and is [None] as well. *)
Record settings_doc := SettingsDoc {
  d_font_primary : option string;
  d_font_secondary : option string;
  d_font_size_primary : option Z;
  d_font_size_secondary : option Z;
  d_color_primary : option string;
  d_color_secondary : option string;
  d_outline_color : option string;
  d_outline_width : option Z;
  d_ffmpeg_path : option string;
  d_background_anim : option string;
  d_text_anim : option string;
  d_cover_anim : option string;
  d_hw_accel : option string
}.

(** [{}] *)
Definition no_settings : settings_doc :=
  SettingsDoc None None None None None None None None None None None None None.

(** [s.get(key)] for the colour keys, which the code reads in a loop. *)
Definition get_color (s : settings_doc) (key : string) : option string :=
  if bool_decide (key = "color_primary") then d_color_primary s
  else if bool_decide (key = "color_secondary") then d_color_secondary s
  else if bool_decide (key = "outline_color") then d_outline_color s
  else None.

(** A parsed project file: [version], [file_paths] and [settings], the
    latter two possibly absent. *)
Record project_data := Project {
  d_version : string;
  d_file_paths : option (gmap string string);
  d_settings : option settings_doc
}.

(** ** The environment of the main window

    What the window obtains from modules and programs outside this file. *)
Record Env := {
  (** the keys of [BACKGROUND_ANIMATIONS], [TEXT_ANIMATIONS] and
      [COVER_ANIMATIONS] of the module [animations] *)
  BACKGROUND_ANIMATIONS : list string;
  TEXT_ANIMATIONS : list string;
  COVER_ANIMATIONS : list string;
  (** the names of the font files in the font directory; [None] when the
      directory does not exist *)
  font_files : option (list string);
  (** Python's [int] on a [str]; [None] stands for [ValueError] *)
  int_of_str : string → option Z;
  (** [str(directory / name)] of [pathlib] *)
  path_join : string → string → string;
  (** reading a lyric file and parsing its metadata with [lrc_parser] *)
  read_lrc_metadata : string → outcome (gmap string string);
  (** [str] of a metadata dict, as an f-string prints it *)
  str_of_dict : gmap string string → string;
  (** locating the probe tool for an engine path with
      [video_processor.get_ffmpeg_probe_path] and running it with
      [-version] *)
  probe_version : string → outcome unit;
  (** the C [int] a slot connected to a [Signal(int)] receives when the
      signal is emitted with a Python number *)
  signal_int : number → Z;
  (** the text of the [OverflowError] Qt's binding raises for a Python
      [int] that does not fit a C [int] *)
  overflow_text : Z → string
}.

(** The attributes of the window the methods below read or write.  A
    [QLineEdit] is the text it shows; [log_box], a [QTextEdit], is the
    texts handed to its [append] since the last [clear], oldest first (how
    the widget renders a text is Qt's business and not part of the state);
    [dialogs] is the message boxes shown so far. *)
Record MainWindow := Window {
  file_paths : gmap string string;
  line_edits : gmap string string;
  ffmpeg_path : string;
  ffmpeg_path_edit : string;
  settings : gmap string string;
  bg_anim_combo : QComboBox;
  text_anim_combo : QComboBox;
  cover_anim_combo : QComboBox;
  hw_accel_combo : QComboBox;
  font_combo_primary : QComboBox;
  font_combo_secondary : QComboBox;
  font_size_spin_primary : QSpinBox;
  font_size_spin_secondary : QSpinBox;
  outline_width_spin : QSpinBox;
  font_dir : string;
  temp_dir : string;
  preview_image_path : option string;
  lrc_metadata : gmap string string;
  audio_worker : option (string * string);
  preview_slider : Z;
  buttons_enabled : bool;
  log_box : list string;
  dialogs : list dialog;
  preview_display : display;
  progress_bar : Z
}.

(** Attribute assignment, one function per attribute that is written. *)
Definition set_file_paths (v : gmap string string) (w : MainWindow) : MainWindow :=
  Window v (line_edits w) (ffmpeg_path w) (ffmpeg_path_edit w) (settings w)
    (bg_anim_combo w) (text_anim_combo w) (cover_anim_combo w) (hw_accel_combo w)
    (font_combo_primary w) (font_combo_secondary w) (font_size_spin_primary w)
    (font_size_spin_secondary w) (outline_width_spin w) (font_dir w) (temp_dir w)
    (preview_image_path w) (lrc_metadata w) (audio_worker w) (preview_slider w)
    (buttons_enabled w) (log_box w) (dialogs w) (preview_display w) (progress_bar w).

Definition set_line_edits (v : gmap string string) (w : MainWindow) : MainWindow :=
  Window (file_paths w) v (ffmpeg_path w) (ffmpeg_path_edit w) (settings w)
    (bg_anim_combo w) (text_anim_combo w) (cover_anim_combo w) (hw_accel_combo w)
    (font_combo_primary w) (font_combo_secondary w) (font_size_spin_primary w)
    (font_size_spin_secondary w) (outline_width_spin w) (font_dir w) (temp_dir w)
    (preview_image_path w) (lrc_metadata w) (audio_worker w) (preview_slider w)
    (buttons_enabled w) (log_box w) (dialogs w) (preview_display w) (progress_bar w).

Definition set_ffmpeg_path (v : string) (w : MainWindow) : MainWindow :=
  Window (file_paths w) (line_edits w) v (ffmpeg_path_edit w) (settings w)
    (bg_anim_combo w) (text_anim_combo w) (cover_anim_combo w) (hw_accel_combo w)
    (font_combo_primary w) (font_combo_secondary w) (font_size_spin_primary w)
    (font_size_spin_secondary w) (outline_width_spin w) (font_dir w) (temp_dir w)
    (preview_image_path w) (lrc_metadata w) (audio_worker w) (preview_slider w)
    (buttons_enabled w) (log_box w) (dialogs w) (preview_display w) (progress_bar w).

Definition set_ffmpeg_path_edit (v : string) (w : MainWindow) : MainWindow :=
  Window (file_paths w) (line_edits w) (ffmpeg_path w) v (settings w) (bg_anim_combo w)
    (text_anim_combo w) (cover_anim_combo w) (hw_accel_combo w) (font_combo_primary w)
    (font_combo_secondary w) (font_size_spin_primary w) (font_size_spin_secondary w)
    (outline_width_spin w) (font_dir w) (temp_dir w) (preview_image_path w) (lrc_metadata
    w) (audio_worker w) (preview_slider w) (buttons_enabled w) (log_box w) (dialogs w)
    (preview_display w) (progress_bar w).

Definition set_settings (v : gmap string string) (w : MainWindow) : MainWindow :=
  Window (file_paths w) (line_edits w) (ffmpeg_path w) (ffmpeg_path_edit w) v
    (bg_anim_combo w) (text_anim_combo w) (cover_anim_combo w) (hw_accel_combo w)
    (font_combo_primary w) (font_combo_secondary w) (font_size_spin_primary w)
    (font_size_spin_secondary w) (outline_width_spin w) (font_dir w) (temp_dir w)
    (preview_image_path w) (lrc_metadata w) (audio_worker w) (preview_slider w)
    (buttons_enabled w) (log_box w) (dialogs w) (preview_display w) (progress_bar w).

Definition set_bg_anim_combo (v : QComboBox) (w : MainWindow) : MainWindow :=
  Window (file_paths w) (line_edits w) (ffmpeg_path w) (ffmpeg_path_edit w) (settings w)
    v (text_anim_combo w) (cover_anim_combo w) (hw_accel_combo w) (font_combo_primary w)
    (font_combo_secondary w) (font_size_spin_primary w) (font_size_spin_secondary w)
    (outline_width_spin w) (font_dir w) (temp_dir w) (preview_image_path w) (lrc_metadata
    w) (audio_worker w) (preview_slider w) (buttons_enabled w) (log_box w) (dialogs w)
    (preview_display w) (progress_bar w).

Definition set_text_anim_combo (v : QComboBox) (w : MainWindow) : MainWindow :=
  Window (file_paths w) (line_edits w) (ffmpeg_path w) (ffmpeg_path_edit w) (settings w)
    (bg_anim_combo w) v (cover_anim_combo w) (hw_accel_combo w) (font_combo_primary w)
    (font_combo_secondary w) (font_size_spin_primary w) (font_size_spin_secondary w)
    (outline_width_spin w) (font_dir w) (temp_dir w) (preview_image_path w) (lrc_metadata
    w) (audio_worker w) (preview_slider w) (buttons_enabled w) (log_box w) (dialogs w)
    (preview_display w) (progress_bar w).

Definition set_cover_anim_combo (v : QComboBox) (w : MainWindow) : MainWindow :=
  Window (file_paths w) (line_edits w) (ffmpeg_path w) (ffmpeg_path_edit w) (settings w)
    (bg_anim_combo w) (text_anim_combo w) v (hw_accel_combo w) (font_combo_primary w)
    (font_combo_secondary w) (font_size_spin_primary w) (font_size_spin_secondary w)
    (outline_width_spin w) (font_dir w) (temp_dir w) (preview_image_path w) (lrc_metadata
    w) (audio_worker w) (preview_slider w) (buttons_enabled w) (log_box w) (dialogs w)
    (preview_display w) (progress_bar w).

Definition set_hw_accel_combo (v : QComboBox) (w : MainWindow) : MainWindow :=
  Window (file_paths w) (line_edits w) (ffmpeg_path w) (ffmpeg_path_edit w) (settings w)
    (bg_anim_combo w) (text_anim_combo w) (cover_anim_combo w) v (font_combo_primary w)
    (font_combo_secondary w) (font_size_spin_primary w) (font_size_spin_secondary w)
    (outline_width_spin w) (font_dir w) (temp_dir w) (preview_image_path w) (lrc_metadata
    w) (audio_worker w) (preview_slider w) (buttons_enabled w) (log_box w) (dialogs w)
    (preview_display w) (progress_bar w).

Definition set_font_combo_primary (v : QComboBox) (w : MainWindow) : MainWindow :=
  Window (file_paths w) (line_edits w) (ffmpeg_path w) (ffmpeg_path_edit w) (settings w)
    (bg_anim_combo w) (text_anim_combo w) (cover_anim_combo w) (hw_accel_combo w) v
    (font_combo_secondary w) (font_size_spin_primary w) (font_size_spin_secondary w)
    (outline_width_spin w) (font_dir w) (temp_dir w) (preview_image_path w) (lrc_metadata
    w) (audio_worker w) (preview_slider w) (buttons_enabled w) (log_box w) (dialogs w)
    (preview_display w) (progress_bar w).

Definition set_font_combo_secondary (v : QComboBox) (w : MainWindow) : MainWindow :=
  Window (file_paths w) (line_edits w) (ffmpeg_path w) (ffmpeg_path_edit w) (settings w)
    (bg_anim_combo w) (text_anim_combo w) (cover_anim_combo w) (hw_accel_combo w)
    (font_combo_primary w) v (font_size_spin_primary w) (font_size_spin_secondary w)
    (outline_width_spin w) (font_dir w) (temp_dir w) (preview_image_path w) (lrc_metadata
    w) (audio_worker w) (preview_slider w) (buttons_enabled w) (log_box w) (dialogs w)
    (preview_display w) (progress_bar w).

Definition set_font_size_spin_primary (v : QSpinBox) (w : MainWindow) : MainWindow :=
  Window (file_paths w) (line_edits w) (ffmpeg_path w) (ffmpeg_path_edit w) (settings w)
    (bg_anim_combo w) (text_anim_combo w) (cover_anim_combo w) (hw_accel_combo w)
    (font_combo_primary w) (font_combo_secondary w) v (font_size_spin_secondary w)
    (outline_width_spin w) (font_dir w) (temp_dir w) (preview_image_path w) (lrc_metadata
    w) (audio_worker w) (preview_slider w) (buttons_enabled w) (log_box w) (dialogs w)
    (preview_display w) (progress_bar w).

Definition set_font_size_spin_secondary (v : QSpinBox) (w : MainWindow) : MainWindow :=
  Window (file_paths w) (line_edits w) (ffmpeg_path w) (ffmpeg_path_edit w) (settings w)
    (bg_anim_combo w) (text_anim_combo w) (cover_anim_combo w) (hw_accel_combo w)
    (font_combo_primary w) (font_combo_secondary w) (font_size_spin_primary w) v
    (outline_width_spin w) (font_dir w) (temp_dir w) (preview_image_path w) (lrc_metadata
    w) (audio_worker w) (preview_slider w) (buttons_enabled w) (log_box w) (dialogs w)
    (preview_display w) (progress_bar w).

Definition set_outline_width_spin (v : QSpinBox) (w : MainWindow) : MainWindow :=
  Window (file_paths w) (line_edits w) (ffmpeg_path w) (ffmpeg_path_edit w) (settings w)
    (bg_anim_combo w) (text_anim_combo w) (cover_anim_combo w) (hw_accel_combo w)
    (font_combo_primary w) (font_combo_secondary w) (font_size_spin_primary w)
    (font_size_spin_secondary w) v (font_dir w) (temp_dir w) (preview_image_path w)
    (lrc_metadata w) (audio_worker w) (preview_slider w) (buttons_enabled w) (log_box w)
    (dialogs w) (preview_display w) (progress_bar w).

Definition set_preview_image_path (v : option string) (w : MainWindow) : MainWindow :=
  Window (file_paths w) (line_edits w) (ffmpeg_path w) (ffmpeg_path_edit w) (settings w)
    (bg_anim_combo w) (text_anim_combo w) (cover_anim_combo w) (hw_accel_combo w)
    (font_combo_primary w) (font_combo_secondary w) (font_size_spin_primary w)
    (font_size_spin_secondary w) (outline_width_spin w) (font_dir w) (temp_dir w) v
    (lrc_metadata w) (audio_worker w) (preview_slider w) (buttons_enabled w) (log_box w)
    (dialogs w) (preview_display w) (progress_bar w).

Definition set_lrc_metadata (v : gmap string string) (w : MainWindow) : MainWindow :=
  Window (file_paths w) (line_edits w) (ffmpeg_path w) (ffmpeg_path_edit w) (settings w)
    (bg_anim_combo w) (text_anim_combo w) (cover_anim_combo w) (hw_accel_combo w)
    (font_combo_primary w) (font_combo_secondary w) (font_size_spin_primary w)
    (font_size_spin_secondary w) (outline_width_spin w) (font_dir w) (temp_dir w)
    (preview_image_path w) v (audio_worker w) (preview_slider w) (buttons_enabled w)
    (log_box w) (dialogs w) (preview_display w) (progress_bar w).

Definition set_audio_worker (v : option (string * string)) (w : MainWindow) : MainWindow :=
  Window (file_paths w) (line_edits w) (ffmpeg_path w) (ffmpeg_path_edit w) (settings w)
    (bg_anim_combo w) (text_anim_combo w) (cover_anim_combo w) (hw_accel_combo w)
    (font_combo_primary w) (font_combo_secondary w) (font_size_spin_primary w)
    (font_size_spin_secondary w) (outline_width_spin w) (font_dir w) (temp_dir w)
    (preview_image_path w) (lrc_metadata w) v (preview_slider w) (buttons_enabled w)
    (log_box w) (dialogs w) (preview_display w) (progress_bar w).

Definition set_buttons_enabled (v : bool) (w : MainWindow) : MainWindow :=
  Window (file_paths w) (line_edits w) (ffmpeg_path w) (ffmpeg_path_edit w) (settings w)
    (bg_anim_combo w) (text_anim_combo w) (cover_anim_combo w) (hw_accel_combo w)
    (font_combo_primary w) (font_combo_secondary w) (font_size_spin_primary w)
    (font_size_spin_secondary w) (outline_width_spin w) (font_dir w) (temp_dir w)
    (preview_image_path w) (lrc_metadata w) (audio_worker w) (preview_slider w) v (log_box
    w) (dialogs w) (preview_display w) (progress_bar w).

Definition set_log_box (v : list string) (w : MainWindow) : MainWindow :=
  Window (file_paths w) (line_edits w) (ffmpeg_path w) (ffmpeg_path_edit w) (settings w)
    (bg_anim_combo w) (text_anim_combo w) (cover_anim_combo w) (hw_accel_combo w)
    (font_combo_primary w) (font_combo_secondary w) (font_size_spin_primary w)
    (font_size_spin_secondary w) (outline_width_spin w) (font_dir w) (temp_dir w)
    (preview_image_path w) (lrc_metadata w) (audio_worker w) (preview_slider w)
    (buttons_enabled w) v (dialogs w) (preview_display w) (progress_bar w).

Definition set_dialogs (v : list dialog) (w : MainWindow) : MainWindow :=
  Window (file_paths w) (line_edits w) (ffmpeg_path w) (ffmpeg_path_edit w) (settings w)
    (bg_anim_combo w) (text_anim_combo w) (cover_anim_combo w) (hw_accel_combo w)
    (font_combo_primary w) (font_combo_secondary w) (font_size_spin_primary w)
    (font_size_spin_secondary w) (outline_width_spin w) (font_dir w) (temp_dir w)
    (preview_image_path w) (lrc_metadata w) (audio_worker w) (preview_slider w)
    (buttons_enabled w) (log_box w) v (preview_display w) (progress_bar w).

Definition set_preview_display (v : display) (w : MainWindow) : MainWindow :=
  Window (file_paths w) (line_edits w) (ffmpeg_path w) (ffmpeg_path_edit w) (settings w)
    (bg_anim_combo w) (text_anim_combo w) (cover_anim_combo w) (hw_accel_combo w)
    (font_combo_primary w) (font_combo_secondary w) (font_size_spin_primary w)
    (font_size_spin_secondary w) (outline_width_spin w) (font_dir w) (temp_dir w)
    (preview_image_path w) (lrc_metadata w) (audio_worker w) (preview_slider w)
    (buttons_enabled w) (log_box w) (dialogs w) v (progress_bar w).

Definition set_progress_bar (v : Z) (w : MainWindow) : MainWindow :=
  Window (file_paths w) (line_edits w) (ffmpeg_path w) (ffmpeg_path_edit w) (settings w)
    (bg_anim_combo w) (text_anim_combo w) (cover_anim_combo w) (hw_accel_combo w)
    (font_combo_primary w) (font_combo_secondary w) (font_size_spin_primary w)
    (font_size_spin_secondary w) (outline_width_spin w) (font_dir w) (temp_dir w)
    (preview_image_path w) (lrc_metadata w) (audio_worker w) (preview_slider w)
    (buttons_enabled w) (log_box w) (dialogs w) (preview_display w) v.

(** The parameters [_gather_parameters] compiles for one job. *)
Record JobParameters := Params {
  audio_path : string;
  cover_path : string;
  lrc_path : string;
  font_primary : string;
  font_size_primary : Z;
  font_secondary : string;
  font_size_secondary : Z;
  color_primary : option string;
  color_secondary : option string;
  outline_color : option string;
  outline_width : Z;
  background_anim : string;
  text_anim : string;
  cover_anim : string;
  p_ffmpeg_path : string
}.

(** A worker the main window has started. *)
Inductive job :=
| RenderJob (params : JobParameters) (output_path hw_accel : string)
| PreviewJob (params : JobParameters) (output_image_path : string) (preview_time : Z).

(** What the main thread can touch: the window, the files on disk and the
    project files, each given by what [json.load] yields for it. *)
Record gui := Gui {
  window : MainWindow;
  files : gmap string file;
  projects : gmap string (outcome project_data)
}.

Definition update (f : MainWindow → MainWindow) : M gui unit :=
  modify (λ g, Gui (f (window g)) (files g) (projects g)).

Definition self : M gui MainWindow :=
  g ← get; mret (window g).

(** ** Methods of the main window

    The state kept is what the methods below read or write.  The colours of
    the colour buttons, the layout and the texts offered by file dialogs
    are left out; the answers of the dialogs are arguments. *)

Section MainWindow.
Context (env : Env).

(** [spin.setValue(v)] on the spin box attribute that [box] reads and
    [set_box] writes. *)
Definition spin_setValue (box : MainWindow → QSpinBox)
    (set_box : QSpinBox → MainWindow → MainWindow) (v : Z) : M gui unit :=
  w ← self;
  spin ← call (setValue (overflow_text env v) v (box w));
  update (set_box spin).

(** [QProgressBar.setValue] with the default range 0..100: a value outside
    the range has no effect. *)
Definition progress_bar_setValue (v : Z) (w : MainWindow) : MainWindow :=
  if bool_decide (0 ≤ v ≤ 100) then set_progress_bar v w else w.

(** [MainWindow.log_message]: one [append] on the log box. *)
Definition log_message (message : string) : M gui unit :=
  update (λ w, set_log_box (log_box w ++ [message]) w).

Definition message_box (d : dialog) : M gui unit :=
  update (λ w, set_dialogs (dialogs w ++ [d]) w).

(** [MainWindow.set_ui_enabled] *)
Definition set_ui_enabled (enabled : bool) : M gui unit :=
  update (set_buttons_enabled enabled).

(** [MainWindow.check_ffmpeg]: the handler names [CalledProcessError] and
    [FileNotFoundError] only. *)
Definition check_ffmpeg : M gui bool :=
  w ← self;
  log_message ("当前 FFmpeg 路径: " +:+ ffmpeg_path w) ;;
  match probe_version env (ffmpeg_path w) with
  | Ok _ => log_message "FFmpeg 环境检测成功。" ;; mret true
  | Exc e =>
      match exn_type e with
      | CalledProcessError | FileNotFoundError =>
          log_message "警告: FFmpeg 未找到或路径无效。请在“高级设置”中指定正确的 ffmpeg 可执行文件路径。" ;;
          message_box (QMessageBox_warning "依赖警告" "未找到有效的 FFmpeg。请在“高级设置”中指定其路径。") ;;
          mret false
      | _ => raise e
      end
  end.

(** The dict literal the first loop of [_gather_parameters] iterates over,
    in insertion order. *)
Definition file_types : list (string * string) :=
  [("audio", "音频"); ("cover", "封面"); ("lrc", "歌词")].

(** The loop [for key, desc in ....items()] of [_gather_parameters];
    [false] stands for its early [return None]. *)
Fixpoint check_file_paths (l : list (string * string)) : M gui bool :=
  match l with
  | [] => mret true
  | (key, desc) :: rest =>
      g ← get;
      let path := file_paths (window g) !! key in
      if negb (truthy_opt path) || negb (os_path_exists (files g) (default "" path)) then
        message_box (QMessageBox_warning "输入错误" ("请先选择一个有效的 " +:+ desc +:+ " 文件！")) ;;
        mret false
      else check_file_paths rest
  end.

(** [self.file_paths[key]] *)
Definition file_path (w : MainWindow) (key : string) : M gui string :=
  match file_paths w !! key with
  | Some path => mret path
  | None => raise (Raise KeyError ("'" +:+ key +:+ "'"))
  end.

(** [MainWindow._gather_parameters] *)
Definition _gather_parameters : M gui (option JobParameters) :=
  valid ← check_file_paths file_types;
  if negb valid then mret None else
  w ← self;
  let font_primary_file := currentText (font_combo_primary w) in
  let font_secondary_file := currentText (font_combo_secondary w) in
  if negb (truthy font_primary_file) || negb (truthy font_secondary_file) then
    message_box (QMessageBox_critical "字体错误"
            ("请在 '" +:+ font_dir w +:+ "' 文件夹中放置字体文件，并在此处选择它们。")) ;;
    mret None
  else
    audio ← file_path w "audio";
    cover ← file_path w "cover";
    lrc ← file_path w "lrc";
    mret (Some {|
      audio_path := audio;
      cover_path := cover;
      lrc_path := lrc;
      font_primary := path_join env (font_dir w) font_primary_file;
      font_size_primary := value (font_size_spin_primary w);
      font_secondary := path_join env (font_dir w) font_secondary_file;
      font_size_secondary := value (font_size_spin_secondary w);
      color_primary := settings w !! "color_primary";
      color_secondary := settings w !! "color_secondary";
      outline_color := settings w !! "outline_color";
      outline_width := value (outline_width_spin w);
      background_anim := currentText (bg_anim_combo w);
      text_anim := currentText (text_anim_combo w);
      cover_anim := currentText (cover_anim_combo w);
      p_ffmpeg_path := ffmpeg_path w
    |}).

(** [MainWindow.save_settings].  Its last loop stores each colour under
    the key it was read from and changes nothing. *)
Definition save_settings : M gui unit :=
  update (λ w, set_settings (<["ffmpeg_path" := ffmpeg_path w]> (settings w)) w) ;;
  update (λ w, set_settings (<["background_anim" := currentText (bg_anim_combo w)]> (settings w)) w) ;;
  update (λ w, set_settings (<["text_anim" := currentText (text_anim_combo w)]> (settings w)) w) ;;
  update (λ w, set_settings (<["cover_anim" := currentText (cover_anim_combo w)]> (settings w)) w) ;;
  update (λ w, set_settings (<["hw_accel" := currentText (hw_accel_combo w)]> (settings w)) w) ;;
  log_message "临时设置已保存。".

(** [MainWindow.start_generation]; [output_path] is the answer of the
    save-file dialog, empty when it was cancelled.  The result is the
    worker that was started, if any. *)
Definition start_generation (output_path : string) : M gui (option job) :=
  ready ← check_ffmpeg;
  if negb ready then mret None else
  params ← _gather_parameters;
  match params with
  | None => mret None
  | Some params =>
      if negb (truthy output_path) then mret None else
      save_settings ;;
      w ← self;
      update (set_log_box []) ;;
      log_message "参数验证通过，准备开始生成..." ;;
      set_ui_enabled false ;;
      update (progress_bar_setValue 0) ;;
      mret (Some (RenderJob params output_path (currentText (hw_accel_combo w))))
  end.

(** [MainWindow.generate_preview]; [suffix] is [os.urandom(8).hex()].
    The preview time is kept as the slider position, in hundredths of a
    second.  The result is the worker that was started, if any.  The
    handler's log line stands for the formatted traceback. *)
Definition generate_preview (suffix : string) : M gui (option job) :=
  ready ← check_ffmpeg;
  if negb ready then mret None else
  params ← _gather_parameters;
  match params with
  | None => mret None
  | Some params =>
      try_except
        (w ← self;
         let path := path_join env (temp_dir w) ("preview_" +:+ suffix +:+ ".png") in
         update (set_preview_image_path (Some path)) ;;
         log_message "--- 开始生成预览 ---" ;;
         set_ui_enabled false ;;
         update (set_preview_display (setText "正在生成...")) ;;
         mret (Some (PreviewJob params path (preview_slider w))))
        (λ e,
         log_message ("准备预览时发生错误: " +:+ exn_str e) ;;
         message_box (QMessageBox_critical "预览失败"
                 ("准备预览时发生错误: " +:+ newline +:+ exn_str e)) ;;
         set_ui_enabled true ;;
         mret None)
  end.

(** [os.remove]: raises an [OSError] when the file is missing or the
    operating system refuses to remove it. *)
Definition os_remove (path : string) : M gui unit :=
  g ← get;
  match files g !! path with
  | None =>
      raise (Raise FileNotFoundError
               ("[Errno 2] No such file or directory: '" +:+ path +:+ "'"))
  | Some f =>
      if locked f
      then raise (Raise PermissionError ("[Errno 13] Permission denied: '" +:+ path +:+ "'"))
      else modify (λ g, Gui (window g) (delete path (files g)) (projects g))
  end.

(** [MainWindow.on_preview_finished], the slot of [PreviewWorker.finished];
    the label shows the pixmap scaled to its size. *)
Definition on_preview_finished (pixmap : QPixmap) (error_message : string) : M gui unit :=
  set_ui_enabled true ;;
  (if truthy error_message then
     log_message ("预览生成失败: " +:+ error_message) ;;
     message_box (QMessageBox_critical "预览失败"
             ("生成预览时发生错误:" +:+ newline +:+ error_message)) ;;
     update (set_preview_display (setText "预览生成失败"))
   else
     update (set_preview_display (setPixmap pixmap)) ;;
     log_message "--- 预览生成成功 ---") ;;
  g ← get;
  match preview_image_path (window g) with
  | Some path =>
      if os_path_exists (files g) path
      then try_except_OSError_pass (os_remove path)
      else mret tt
  | None => mret tt
  end.

(** [MainWindow.generation_finished], the slot of [VideoWorker.finished] *)
Definition generation_finished (message : string) : M gui unit :=
  set_ui_enabled true ;;
  let is_success := contains "成功" message in
  (if is_success then
     message_box (QMessageBox_information "完成" message) ;;
     update (progress_bar_setValue 100)
   else
     message_box (QMessageBox_critical "失败"
             ("生成失败！" +:+ newline +:+ "错误: " +:+ message +:+ newline +:+ newline
              +:+ "请检查日志获取详细信息。")) ;;
     update (progress_bar_setValue 0)) ;;
  log_message ("--- " +:+ message +:+ " ---").

(** Delivery of a worker's signals to the slots connected in
    [start_generation] and [generate_preview]: [progress] to the progress
    bar, which receives the emitted number as a C [int], [status] to the
    log, [finished] to the slot of the job.  No slot is connected to a
    signal of the other worker's shape. *)
Definition deliver (s : signal) : M gui unit :=
  match s with
  | Progress percent => update (progress_bar_setValue (signal_int env percent))
  | Status message => log_message message
  | Finished message => generation_finished message
  | PreviewFinished pixmap message => on_preview_finished pixmap message
  end.

Fixpoint deliver_all (l : list signal) : M gui unit :=
  match l with
  | [] => mret tt
  | s :: rest => deliver s ;; deliver_all rest
  end.

(** [MainWindow.get_audio_duration]: starts an [AudioInfoWorker] for the
    current engine path. *)
Definition get_audio_duration (audio_path : string) : M gui unit :=
  log_message "正在获取音频时长..." ;;
  update (λ w, set_audio_worker (Some (ffmpeg_path w, audio_path)) w).

(** [MainWindow.parse_lrc_file] *)
Definition parse_lrc_file (lrc_path : string) : M gui unit :=
  try_except
    (match read_lrc_metadata env lrc_path with
     | Ok metadata =>
         update (set_lrc_metadata metadata) ;;
         log_message ("LRC元数据解析成功: " +:+ str_of_dict env metadata)
     | Exc e => raise e
     end)
    (λ e,
     log_message ("解析LRC元数据失败: " +:+ exn_str e) ;;
     update (set_lrc_metadata ∅)).

(** The [project_data] dict built by [MainWindow.save_project]. *)
Definition project_of (w : MainWindow) : project_data :=
  {| d_version := "3.0";
     d_file_paths := Some (file_paths w);
     d_settings := Some {|
       d_font_primary := Some (currentText (font_combo_primary w));
       d_font_secondary := Some (currentText (font_combo_secondary w));
       d_font_size_primary := Some (value (font_size_spin_primary w));
       d_font_size_secondary := Some (value (font_size_spin_secondary w));
       d_color_primary := settings w !! "color_primary";
       d_color_secondary := settings w !! "color_secondary";
       d_outline_color := settings w !! "outline_color";
       d_outline_width := Some (value (outline_width_spin w));
       d_ffmpeg_path := Some (ffmpeg_path w);
       d_background_anim := Some (currentText (bg_anim_combo w));
       d_text_anim := Some (currentText (text_anim_combo w));
       d_cover_anim := Some (currentText (cover_anim_combo w));
       d_hw_accel := Some (currentText (hw_accel_combo w))
     |} |}.

(** How the [with open(path, 'w') ...: json.dump(...)] of [save_project]
    ends: the document is written, and what [json.dump] writes is what
    [json.load] reads back; or [open] raises and the file is as it was; or
    [json.dump] or closing the file raises after [open] has truncated the
    file, and [remains] is what a later [json.load] of the file yields. *)
Inductive write_result :=
| Written
| OpenRaises (e : exn)
| DumpRaises (e : exn) (remains : outcome project_data).

(** [MainWindow.save_project]; [path] is the answer of the save-file
    dialog, empty when it was cancelled, and [written] tells how writing
    the file ends. *)
Definition save_project (path : string) (written : write_result) : M gui unit :=
  if negb (truthy path) then log_message "取消保存工程。" else
  w ← self;
  let project_data := project_of w in
  try_except
    (match written with
     | Written =>
         modify (λ g, Gui (window g) (files g) (<[path := Ok project_data]> (projects g))) ;;
         log_message ("工程已成功保存到: " +:+ path)
     | OpenRaises e => raise e
     | DumpRaises e remains =>
         modify (λ g, Gui (window g) (files g) (<[path := remains]> (projects g))) ;;
         raise e
     end)
    (λ e, message_box (QMessageBox_critical "错误" ("保存工程文件失败: " +:+ exn_str e))).

(** [MainWindow._set_combo_text]; [text] is [None] for Python's [None]. *)
Definition _set_combo_text (combo : QComboBox) (text : option string) : QComboBox :=
  match text with
  | Some text =>
      if truthy text && bool_decide (findText combo text > -1)
      then setCurrentText text combo
      else combo
  | None => combo
  end.

(** [json.load] of the file at [path] *)
Definition json_load (path : string) : M gui project_data :=
  g ← get;
  match projects g !! path with
  | Some (Ok project_data) => mret project_data
  | Some (Exc e) => raise e
  | None =>
      raise (Raise FileNotFoundError
               ("[Errno 2] No such file or directory: '" +:+ path +:+ "'"))
  end.

(** The loop over the colour keys in [MainWindow.load_project] *)
Fixpoint load_colors (s : settings_doc) (keys : list string) : M gui unit :=
  match keys with
  | [] => mret tt
  | key :: rest =>
      match get_color s key with
      | Some color_val =>
          if truthy color_val
          then update (λ w, set_settings (<[key := color_val]> (settings w)) w) ;;
               load_colors s rest
          else load_colors s rest
      | None => load_colors s rest
      end
  end.

(** [MainWindow.load_project]; [path] is the answer of the open-file
    dialog, empty when it was cancelled. *)
Definition load_project (path : string) : M gui unit :=
  if negb (truthy path) then log_message "取消加载工程。" else
  try_except
    (project_data ← json_load path;
     update (set_file_paths (default ∅ (d_file_paths project_data))) ;;
     update (λ w, set_line_edits
                    (map_imap (λ key _, Some (default "" (file_paths w !! key)))
                       (line_edits w)) w) ;;
     w ← self;
     (match file_paths w !! "audio" with
      | Some audio_file =>
          if truthy audio_file then get_audio_duration audio_file else mret tt
      | None => mret tt
      end) ;;
     (match file_paths w !! "lrc" with
      | Some lrc_file => if truthy lrc_file then parse_lrc_file lrc_file else mret tt
      | None => mret tt
      end) ;;
     let s := default no_settings (d_settings project_data) in
     update (λ w, set_bg_anim_combo (_set_combo_text (bg_anim_combo w) (d_background_anim s)) w) ;;
     update (λ w, set_text_anim_combo (_set_combo_text (text_anim_combo w) (d_text_anim s)) w) ;;
     update (λ w, set_cover_anim_combo (_set_combo_text (cover_anim_combo w) (d_cover_anim s)) w) ;;
     update (λ w, set_hw_accel_combo (_set_combo_text (hw_accel_combo w) (d_hw_accel s)) w) ;;
     update (λ w, set_font_combo_primary
                    (_set_combo_text (font_combo_primary w) (d_font_primary s)) w) ;;
     update (λ w, set_font_combo_secondary
                    (_set_combo_text (font_combo_secondary w) (d_font_secondary s)) w) ;;
     spin_setValue font_size_spin_primary set_font_size_spin_primary
       (default 56 (d_font_size_primary s)) ;;
     spin_setValue font_size_spin_secondary set_font_size_spin_secondary
       (default 48 (d_font_size_secondary s)) ;;
     spin_setValue outline_width_spin set_outline_width_spin
       (default 3 (d_outline_width s)) ;;
     load_colors s ["color_primary"; "color_secondary"; "outline_color"] ;;
     (match d_ffmpeg_path s with
      | Some ffmpeg_path_val =>
          if truthy ffmpeg_path_val then
            update (set_ffmpeg_path ffmpeg_path_val) ;;
            update (λ w, set_ffmpeg_path_edit (ffmpeg_path w) w)
          else mret tt
      | None => mret tt
      end) ;;
     log_message ("工程文件加载成功: " +:+ path))
    (λ e,
     message_box (QMessageBox_critical "错误"
             ("加载工程文件失败: " +:+ exn_str e +:+ newline
              +:+ "文件可能已损坏或格式不兼容。"))).

(** [int(self.settings.value(key, default))] *)
Definition int_setting (key : string) (default : Z) : M gui Z :=
  w ← self;
  match settings w !! key with
  | None => mret default
  | Some text =>
      match int_of_str env text with
      | Some n => mret n
      | None =>
          raise (Raise ValueError
                   ("invalid literal for int() with base 10: '" +:+ text +:+ "'"))
      end
  end.

(** [MainWindow.load_settings] *)
Definition load_settings : M gui unit :=
  update (λ w, set_ffmpeg_path (default "ffmpeg" (settings w !! "ffmpeg_path")) w) ;;
  update (λ w, set_ffmpeg_path_edit (ffmpeg_path w) w) ;;
  update (λ w, set_bg_anim_combo
                 (_set_combo_text (bg_anim_combo w) (settings w !! "background_anim")) w) ;;
  update (λ w, set_text_anim_combo
                 (_set_combo_text (text_anim_combo w) (settings w !! "text_anim")) w) ;;
  update (λ w, set_cover_anim_combo
                 (_set_combo_text (cover_anim_combo w) (settings w !! "cover_anim")) w) ;;
  update (λ w, set_hw_accel_combo
                 (_set_combo_text (hw_accel_combo w) (settings w !! "hw_accel")) w) ;;
  n ← int_setting "outline_width" 3;
  spin_setValue outline_width_spin set_outline_width_spin n ;;
  update (λ w, set_font_combo_primary
                 (_set_combo_text (font_combo_primary w) (settings w !! "font_primary")) w) ;;
  n ← int_setting "font_size_primary" 56;
  spin_setValue font_size_spin_primary set_font_size_spin_primary n ;;
  update (λ w, set_font_combo_secondary
                 (_set_combo_text (font_combo_secondary w) (settings w !! "font_secondary")) w) ;;
  n ← int_setting "font_size_secondary" 48;
  spin_setValue font_size_spin_secondary set_font_size_spin_secondary n ;;
  log_message "已加载基础设置。".

(** [_create_color_selector] stores the default colour under a key that
    has no (or an empty) value. *)
Definition default_color (key color : string) (store : gmap string string) :
    gmap string string :=
  if truthy_opt (store !! key) then store else <[key := color]> store.

(** The window as [__init__] and [setup_ui] build it from the persisted
    settings [store], before fonts and settings are loaded. *)
Definition setup_ui (store : gmap string string) (font_dir temp_dir : string) : MainWindow :=
  {| file_paths := {["audio" := ""; "cover" := ""; "lrc" := ""]};
     line_edits := {["audio" := ""; "cover" := ""; "lrc" := ""]};
     ffmpeg_path := default "ffmpeg" (store !! "ffmpeg_path");
     ffmpeg_path_edit := default "ffmpeg" (store !! "ffmpeg_path");
     settings :=
       default_color "outline_color" "#000000"
         (default_color "color_secondary" "#DDDDDD"
            (default_color "color_primary" "#FFFFFF" store));
     bg_anim_combo := QComboBox_new (BACKGROUND_ANIMATIONS env);
     text_anim_combo := QComboBox_new (TEXT_ANIMATIONS env);
     cover_anim_combo := QComboBox_new (COVER_ANIMATIONS env);
     hw_accel_combo :=
       QComboBox_new ["无 (软件编码 x264)"; "NVIDIA (h264_nvenc)"; "AMD (h264_amf)";
                      "Intel (h264_qsv)"];
     font_combo_primary := QComboBox_new [];
     font_combo_secondary := QComboBox_new [];
     font_size_spin_primary := Spin 10 300 56;
     font_size_spin_secondary := Spin 10 300 48;
     outline_width_spin := Spin 0 20 0;
     font_dir := font_dir;
     temp_dir := temp_dir;
     preview_image_path := None;
     lrc_metadata := ∅;
     audio_worker := None;
     preview_slider := 0;
     buttons_enabled := true;
     log_box := [];
     dialogs := [];
     preview_display := setText "加载音频文件后可进行预览";
     progress_bar := -1 |}.

(** [combo.addItems(new)] *)
Definition addItems (new : list string) (combo : QComboBox) : QComboBox :=
  match items combo with
  | [] => Combo new (hd "" new)
  | _ :: _ => Combo (items combo ++ new) (currentText combo)
  end.

(** [MainWindow.populate_fonts] *)
Definition populate_fonts : M gui unit :=
  w ← self;
  log_message ("正在从 '" +:+ font_dir w +:+ "' 加载字体...") ;;
  match font_files env with
  | None => log_message "已创建字体文件夹。请将您的 .ttf 或 .otf 字体文件放入其中。"
  | Some [] => log_message "警告: 在 'font' 文件夹中没有找到任何字体文件。"
  | Some names =>
      update (λ w, set_font_combo_primary (addItems names (font_combo_primary w)) w) ;;
      update (λ w, set_font_combo_secondary (addItems names (font_combo_secondary w)) w) ;;
      log_message ("成功加载 " +:+ pretty (Z.of_nat (length names)) +:+ " 个字体。")
  end.

(** The rest of [MainWindow.__init__] after [setup_ui] *)
Definition MainWindow_init : M gui unit :=
  populate_fonts ;;
  load_settings ;;
  _ ← check_ffmpeg;
  mret tt.

End MainWindow.

(** ** The duration probe *)

(** The signals of [AudioInfoWorker]: [status = Signal(str)] and
    [finished = Signal(float, str)].  [F] is the type of floats. *)
Inductive audio_signal (F : Type) :=
| AudioStatus (message : string)
| AudioFinished (duration : F) (error_message : string).
Arguments AudioStatus {F} message.
Arguments AudioFinished {F} duration error_message.

(** What the probe obtains from the platform. *)
Record Platform (F : Type) := {
  (** [sys.platform == 'win32'] *)
  win32 : bool;
  (** [str(Path(path).parent / name)] *)
  sibling : string → string → string;
  (** [subprocess.run(cmd, check=True, capture_output=True, text=True)]:
      the captured standard output, or the exception raised when the
      program cannot be started or exits with a non-zero status *)
  subprocess_run : list string → outcome string;
  (** [float(text.strip())] *)
  float_of_stripped : string → outcome F;
  (** the float the integer [0] becomes in a [float] signal argument *)
  zero : F
}.
Arguments win32 {F} _.
Arguments sibling {F} _ _ _.
Arguments subprocess_run {F} _ _.
Arguments float_of_stripped {F} _ _.
Arguments zero {F} _.

Definition audio_emit {F} (s : audio_signal F) : M (list (audio_signal F)) unit :=
  modify (λ l, l ++ [s]).

(** The first lines of [AudioInfoWorker.run]: the path of the probe tool. *)
Definition ffprobe_path {F} (os : Platform F) (ffmpeg_path_str : string) : string :=
  let ffprobe_exe := if win32 os then "ffprobe.exe" else "ffprobe" in
  if bool_decide (ffmpeg_path_str ≠ "ffmpeg")
  then sibling os ffmpeg_path_str ffprobe_exe
  else ffprobe_exe.

(** The command line [cmd] of [AudioInfoWorker.run] *)
Definition ffprobe_cmd {F} (os : Platform F) (ffmpeg_path_str audio_path_str : string) :
    list string :=
  [ffprobe_path os ffmpeg_path_str; "-v"; "error"; "-show_entries"; "format=duration";
   "-of"; "default=noprint_wrappers=1:nokey=1"; audio_path_str].

(** [AudioInfoWorker.run] *)
Definition AudioInfoWorker_run {F} (os : Platform F) (ffmpeg_path_str audio_path_str : string) :
    M (list (audio_signal F)) unit :=
  try_except
    (let cmd := ffprobe_cmd os ffmpeg_path_str audio_path_str in
     stdout ← call (subprocess_run os cmd);
     duration ← call (float_of_stripped os stdout);
     audio_emit (AudioFinished duration ""))
    (λ e,
     let error_msg := "获取音频时长失败: " +:+ exn_str e in
     audio_emit (AudioStatus error_msg) ;;
     audio_emit (AudioFinished (zero os) error_msg)).

(** ** A whole job, seen from the main thread

    The worker runs on the disk the main thread sees, and its signals
    reach the connected slots in the order they were emitted.  The slots of
    [progress] and [status] neither read nor write the disk, so delivering
    the signals after the worker has ended is the same as delivering them
    while it runs. *)
Definition render_job (env : Env) (eng : engine) (g : gui) : outcome unit * gui :=
  let t := (VideoWorker_run eng (thread_start None (files g))).2 in
  deliver_all env (emitted t) (Gui (window g) (disk t) (projects g)).

Definition preview_job (env : Env) (output_path : string) (eng : engine) (g : gui) :
    outcome unit * gui :=
  let t := (PreviewWorker_run output_path eng (thread_start None (files g))).2 in
  deliver_all env (emitted t) (Gui (window g) (disk t) (projects g)).

(** The disk after [os.remove path] was tried with an [OSError] ignored:
    the file is gone unless the operating system refused to remove it. *)
Definition after_remove (path : string) (fs : gmap string file) : gmap string file :=
  match fs !! path with
  | Some f => if locked f then fs else delete path fs
  | None => fs
  end.

(** ** Reference functions for parameter compilation and loading *)

(** [path and os.path.exists(path)] for [path = self.file_paths.get(key)] *)
Definition valid_path (g : gui) (key : string) : bool :=
  truthy_opt (file_paths (window g) !! key) &&
  os_path_exists (files g) (default "" (file_paths (window g) !! key)).

(** The description of the first asset, in the order audio, cover, lyric,
    whose path is empty or names no existing file. *)
Definition first_invalid (g : gui) : option string :=
  if negb (valid_path g "audio") then Some "音频"
  else if negb (valid_path g "cover") then Some "封面"
  else if negb (valid_path g "lrc") then Some "歌词"
  else None.

(** One round of the colour loop of [load_project] on the settings store. *)
Definition merged_color (s : settings_doc) (key : string) (store : gmap string string) :
    gmap string string :=
  if truthy_opt (get_color s key) then <[key := default "" (get_color s key)]> store
  else store.

(** ** Sequences of loads *)

(** The six catalog-backed selections of the window. *)
Definition combos (w : MainWindow) : list QComboBox :=
  [bg_anim_combo w; text_anim_combo w; cover_anim_combo w; hw_accel_combo w;
   font_combo_primary w; font_combo_secondary w].

(** A load: [load_project] on a file that holds [content] when it is read,
    or [load_settings] on the persisted settings [store]. *)
Inductive load :=
| LoadProject (path : string) (content : outcome project_data)
| LoadSettings (store : gmap string string).

Definition run_load (env : Env) (g : gui) (l : load) : gui :=
  match l with
  | LoadProject path content =>
      (load_project env path
         (Gui (window g) (files g) (<[path := content]> (projects g)))).2
  | LoadSettings store =>
      (load_settings env (Gui (set_settings store (window g)) (files g) (projects g))).2
  end.

(** The selection of [c] is one of its items. *)
Definition selected (c : QComboBox) : Prop := currentText c ∈ items c.

(** [c'] has the catalog of [c], and a selection from it if [c] has one. *)
Definition catalog_kept (c c' : QComboBox) : Prop :=
  items c' = items c ∧ (selected c → selected c').

(** [c'] is [c] after a call of [_set_combo_text]. *)
Definition reselected (c c' : QComboBox) : Prop :=
  ∃ text, c' = _set_combo_text c text.

(** [c'] is [c] if [c] has no items. *)
Definition empty_kept (c c' : QComboBox) : Prop :=
  items c = [] → c' = c.

(** ** Merging a project document into the window *)

(** The three spin boxes of the window. *)
Definition spins (w : MainWindow) : list QSpinBox :=
  [font_size_spin_primary w; font_size_spin_secondary w; outline_width_spin w].

(** How a catalog-backed selection [c] becomes [c'] under a document value
    [text]: an absent, empty or unknown value keeps the box, a known one is
    selected. *)
Definition choice_merged (c c' : QComboBox) (text : option string) : Prop :=
  items c' = items c ∧
  (text = None ∨ text = Some "" ∨ (∃ v, text = Some v ∧ v ∉ items c) → c' = c) ∧
  (∀ v, text = Some v → v ≠ "" → v ∈ items c → currentText c' = v).

(** How a spin box [s] becomes [s'] under a document value [v] with the
    fallback [fallback]: the range stays, the value is the document's, or
    the fallback when the key is absent, bounded by the range. *)
Definition size_merged (s s' : QSpinBox) (v : option Z) (fallback : Z) : Prop :=
  minimum s' = minimum s ∧ maximum s' = maximum s ∧
  value s' = Z.max (minimum s) (Z.min (maximum s) (default fallback v)).

(** The three sizes [load_project] hands to [setValue], in the order of the
    calls: the document's values, or 56, 48 and 3 for an absent key. *)
Definition sizes (s : settings_doc) : list Z :=
  [default 56 (d_font_size_primary s); default 48 (d_font_size_secondary s);
   default 3 (d_outline_width s)].

(** The first of [l] that does not fit a C [int]. *)
Fixpoint first_overflow (l : list Z) : option Z :=
  match l with
  | [] => None
  | v :: rest => if bool_decide (fits_c_int v) then first_overflow rest else Some v
  end.

(** The dialog [load_project] shows when its handler catches [e]. *)
Definition load_failed (e : exn) : dialog :=
  QMessageBox_critical "错误"
    ("加载工程文件失败: " +:+ exn_str e +:+ newline +:+ "文件可能已损坏或格式不兼容。").

(** How a text field [old] becomes [new] under a document value [v]: an
    absent or empty value keeps it, any other replaces it. *)
Definition text_merged {A} (old new : A) (v : option string) (inject : string → A) : Prop :=
  (v = None ∨ v = Some "" → new = old) ∧
  (∀ text, v = Some text → text ≠ "" → new = inject text).

(** Every selection, colour and the engine path of [w] is non-empty. *)
Definition populated (w : MainWindow) : Prop :=
  Forall (λ c, currentText c ≠ "") (combos w) ∧
  Forall (λ key, truthy_opt (settings w !! key) = true)
    ["color_primary"; "color_secondary"; "outline_color"] ∧
  ffmpeg_path w ≠ "".

(** The invariants Qt keeps for the widgets of [w]: a box with a selection
    selects one of its items, a spin box holds a value within its range,
    and the range, being a pair of C [int]s, lies within the C [int]s. *)
Definition consistent (w : MainWindow) : Prop :=
  Forall selected (combos w) ∧
  Forall (λ s, minimum s ≤ value s ≤ maximum s) (spins w) ∧
  Forall (λ s, fits_c_int (minimum s) ∧ fits_c_int (maximum s)) (spins w).

(** [w] and [w'] are windows of the same program on the same machine: the
    boxes have the same catalogs and the spin boxes the same ranges. *)
Definition same_widgets (w w' : MainWindow) : Prop :=
  Forall2 (λ c c', items c' = items c) (combos w) (combos w') ∧
  Forall2 (λ s s', minimum s' = minimum s ∧ maximum s' = maximum s) (spins w) (spins w').

(** ** Concrete environments for running the model on examples *)

(** A conversion to a C [int] to run examples with: an [int] keeps its low
    32 bits, read as a signed number; a [float] is cut off at the decimal
    point first. *)
Definition wrap32 (n : Z) : Z := (n + 2147483648) `mod` 4294967296 - 2147483648.

Definition truncate (x : Qc) : Z := Z.quot (Qnum x) (Zpos (Qden x)).

Definition qt_int (v : number) : Z :=
  match v with
  | Int n => wrap32 n
  | Float x => wrap32 (truncate x)
  end.

Definition sample_env : Env :=
  {| BACKGROUND_ANIMATIONS := ["fade"; "zoom"];
     TEXT_ANIMATIONS := ["slide"];
     COVER_ANIMATIONS := ["spin"];
     font_files := Some ["NotoSans.ttf"];
     int_of_str := λ _, None;
     path_join := λ directory name, directory +:+ "/" +:+ name;
     read_lrc_metadata := λ _, Ok ∅;
     str_of_dict := λ _, "{}";
     probe_version := λ _, Ok tt;
     signal_int := qt_int;
     overflow_text := λ _, "Python int too large to convert to C int" |}.

(** The same machine with an empty font directory. *)
Definition fontless_env : Env :=
  {| BACKGROUND_ANIMATIONS := ["fade"; "zoom"];
     TEXT_ANIMATIONS := ["slide"];
     COVER_ANIMATIONS := ["spin"];
     font_files := Some [];
     int_of_str := λ _, None;
     path_join := λ directory name, directory +:+ "/" +:+ name;
     read_lrc_metadata := λ _, Ok ∅;
     str_of_dict := λ _, "{}";
     probe_version := λ _, Ok tt;
     signal_int := qt_int;
     overflow_text := λ _, "Python int too large to convert to C int" |}.

(** The window right after start-up on [env] with nothing persisted. *)
Definition started (env : Env) : gui :=
  (MainWindow_init env (Gui (setup_ui env ∅ "font" "tmp") ∅ ∅)).2.

(** ** Choosing files and the engine binary *)

Section Selection.
Context (env : Env).

(** [MainWindow.select_file]; [path] is the answer of the open-file
    dialog, empty when it was cancelled. *)
Definition select_file (key path : string) : M gui unit :=
  if negb (truthy path) then mret tt else
  update (λ w, set_file_paths (<[key := path]> (file_paths w)) w) ;;
  w ← self;
  (match line_edits w !! key with
   | Some _ => update (λ w, set_line_edits (<[key := path]> (line_edits w)) w)
   | None => raise (Raise KeyError ("'" +:+ key +:+ "'"))
   end) ;;
  if bool_decide (key = "audio") then get_audio_duration path
  else if bool_decide (key = "lrc") then parse_lrc_file env path
  else mret tt.

(** [MainWindow.select_ffmpeg_path]; [path] is the answer of the open-file
    dialog, empty when it was cancelled. *)
Definition select_ffmpeg_path (path : string) : M gui unit :=
  if truthy path then
    update (set_ffmpeg_path path) ;;
    update (set_ffmpeg_path_edit path) ;;
    update (λ w, set_settings (<["ffmpeg_path" := path]> (settings w)) w) ;;
    log_message ("FFmpeg 路径已更新为: " +:+ path) ;;
    _ ← check_ffmpeg env;
    mret tt
  else mret tt.

End Selection.

(** The file name [save_project] offers in its save-file dialog. *)
Definition save_project_default_filename (w : MainWindow) : string :=
  match lrc_metadata w !! "ti" with
  | Some title =>
      if truthy title then
        match lrc_metadata w !! "ar" with
        | Some artist =>
            if truthy artist then artist +:+ " - " +:+ title +:+ ".kproj"
            else title +:+ ".kproj"
        | None => title +:+ ".kproj"
        end
      else "untitled.kproj"
  | None => "untitled.kproj"
  end.

(** The file name [start_generation] offers in its save-file dialog. *)
Definition start_generation_default_filename (w : MainWindow) : string :=
  match lrc_metadata w !! "ti" with
  | Some title =>
      if truthy title then
        match lrc_metadata w !! "ar" with
        | Some artist =>
            if truthy artist then artist +:+ " - " +:+ title +:+ ".mp4"
            else title +:+ ".mp4"
        | None => title +:+ ".mp4"
        end
      else "lyric_video.mp4"
  | None => "lyric_video.mp4"
  end.

(** ** Reference functions for the relay and the log *)

(** The messages of the [status] signals among the emitted ones. *)
Fixpoint statuses (l : list signal) : list string :=
  match l with
  | [] => []
  | Status message :: rest => message :: statuses rest
  | _ :: rest => statuses rest
  end.

(** The status messages an engine sends, in order. *)
Fixpoint status_calls (l : list engine_step) : list string :=
  match l with
  | [] => []
  | LogStatus message :: rest => message :: status_calls rest
  | _ :: rest => status_calls rest
  end.

(** The keys [save_settings] writes. *)
Definition saved_keys : list string :=
  ["ffmpeg_path"; "background_anim"; "text_anim"; "cover_anim"; "hw_accel"].

(** The three line edits show the asset paths: each holds the path stored
    under its key, or the empty text when there is none. *)
Definition mirrored (w : MainWindow) : Prop :=
  ∀ key,
    line_edits w !! key =
      if bool_decide (key ∈ ["audio"; "cover"; "lrc"])
      then Some (default "" (file_paths w !! key))
      else None.

(** Both font boxes are empty. *)
Definition fontless (w : MainWindow) : Prop :=
  font_combo_primary w = Combo [] "" ∧ font_combo_secondary w = Combo [] "".

(* ================================================================== *)
(** * Theorems *)

(** ** Reasoning about the monad *)

Ltac unfold_monad :=
  unfold mbind, mret, M_bind, M_ret, raise, get, modify, try_except,
    try_except_OSError_pass in *.

Ltac run :=
  repeat (first
    [ progress unfold_monad
    | progress simpl in * ]).

(** Symbolic execution of main-window code: unfold the monad, the
    setters and the projections, nothing else. *)
Ltac exec :=
  cbv beta iota zeta delta
    [ fst snd mbind mret M_bind M_ret raise get modify try_except try_except_OSError_pass
      call
      emit set_logger set_disk print_exc params_logger emitted logger disk printed
      audio_emit update self log_message message_box set_ui_enabled window files projects
      spin_setValue setValue progress_bar_setValue set_file_paths set_line_edits set_ffmpeg_path
      set_ffmpeg_path_edit set_settings set_bg_anim_combo set_text_anim_combo
      set_cover_anim_combo set_hw_accel_combo set_font_combo_primary
      set_font_combo_secondary set_font_size_spin_primary set_font_size_spin_secondary
      set_outline_width_spin set_preview_image_path set_lrc_metadata set_audio_worker
      set_buttons_enabled set_log_box set_dialogs set_preview_display set_progress_bar
      file_paths line_edits ffmpeg_path ffmpeg_path_edit settings bg_anim_combo
      text_anim_combo cover_anim_combo hw_accel_combo font_combo_primary
      font_combo_secondary font_size_spin_primary font_size_spin_secondary
      outline_width_spin font_dir temp_dir preview_image_path lrc_metadata audio_worker
      preview_slider buttons_enabled log_box dialogs preview_display progress_bar ] in *.

Lemma gt_Int (a b : Z) : gt (Int a) (Int b) = bool_decide (b < a).
Proof. unfold gt. simpl. apply bool_decide_ext. symmetry. apply Z2Qc_inj_lt. Qed.

Lemma gt_trans (a b c : number) : gt a b = true → gt b c = true → gt a c = true.
Proof.
  unfold gt. rewrite !bool_decide_eq_true. intros Hab Hbc. by eapply Qclt_trans.
Qed.

Lemma forwarded_lower_bound (l : list number) :
  ∀ last, Forall (λ p, gt p last = true) (forwarded last l).
Proof.
  induction l as [|p l IH]; intros last; simpl; [constructor|].
  destruct (gt p last) eqn:Hp; [|apply IH].
  constructor; [done|].
  eapply Forall_impl; [apply IH|]. simpl. intros q Hq. by eapply gt_trans.
Qed.


Lemma forwarded_Forall (P : number → Prop) (l : list number) :
  ∀ last, Forall P l → Forall P (forwarded last l).
Proof.
  induction l as [|p l IH]; intros last Hl; simpl; [constructor|].
  inversion Hl; subst. destruct (gt p last); [constructor|]; auto.
Qed.

Lemma forwarded_sublist (l : list number) :
  ∀ last, sublist (forwarded last l) l.
Proof.
  induction l as [|p l IH]; intros last; simpl; [constructor|].
  destruct (gt p last); [apply sublist_skip | apply sublist_cons]; apply IH.
Qed.





Lemma progress_args_app (l1 l2 : list signal) :
  progress_args (l1 ++ l2) = progress_args l1 ++ progress_args l2.
Proof.
  induction l1 as [|s l1 IH]; simpl; [done|].
  destruct s; simpl; by rewrite ?IH.
Qed.

Lemma terminal_app (l1 l2 : list signal) :
  terminal (l1 ++ l2) = terminal l1 ++ terminal l2.
Proof.
  induction l1 as [|s l1 IH]; simpl; [done|].
  destruct (is_finished s); simpl; by rewrite IH.
Qed.

Lemma video_signals_progress (l : list engine_step) :
  ∀ last, progress_args (video_signals last l) = forwarded last (reported l).
Proof.
  induction l as [|s l IH]; intros last; simpl; [done|].
  destruct s as [message|p|path f]; simpl; rewrite ?IH; try done.
  destruct (gt p last); simpl; by rewrite IH.
Qed.

Lemma video_signals_terminal (l : list engine_step) :
  ∀ last, terminal (video_signals last l) = [].
Proof.
  induction l as [|s l IH]; intros last; simpl; [done|].
  destruct s as [message|p|path f]; simpl; rewrite ?IH; try done.
  destruct (gt p last); simpl; by rewrite IH.
Qed.

(** The logger calls of a render job never raise: every step of the engine
    goes through and leaves exactly [video_signals] behind. *)
Lemma engine_steps_run_video (l : list engine_step) :
  ∀ t last,
    logger t = Some (Logger VideoWorker last) →
    ∃ d' last',
      engine_steps_run l t =
        (Ok tt, Thread (emitted t ++ video_signals last l)
                       (Some (Logger VideoWorker last')) d' (printed t)).
Proof.
  induction l as [|s l IH]; intros [ev lg d pr] last Hlg; simpl in Hlg; subst lg.
  - exists d, last. run. by rewrite app_nil_r.
  - destruct s as [message|p|path f].
    + destruct (IH (Thread (ev ++ [Status message]) (Some (Logger VideoWorker last)) d pr) last eq_refl) as (d' & last' & Hrun).
      exists d', last'. simpl in *.
      unfold status_update, params_logger, emit. run.
      rewrite Hrun. by rewrite <- app_assoc.
    + simpl. unfold progress_update, params_logger. run.
      destruct (gt p last) eqn:Hp.
      * destruct (IH (Thread (ev ++ [Progress p]) (Some (Logger VideoWorker p)) d pr) p eq_refl) as (d' & last' & Hrun).
        exists d', last'. unfold qt_emitter_progress_emit, emit, set_logger. run.
        simpl in Hrun. rewrite Hrun. by rewrite <- app_assoc.
      * destruct (IH (Thread ev (Some (Logger VideoWorker last)) d pr) last eq_refl) as (d' & last' & Hrun).
        exists d', last'. simpl in Hrun. by rewrite Hrun.
    + destruct (IH (Thread ev (Some (Logger VideoWorker last)) (<[path:=f]> d) pr) last eq_refl) as (d' & last' & Hrun).
      exists d', last'. simpl in *. unfold set_disk. run. by rewrite Hrun.
Qed.

Lemma VideoWorker_run_spec (eng : engine) (l : option QtProglogLogger) (d : gmap string file) :
  ∃ t',
    VideoWorker_run eng (thread_start l d) = (Ok tt, t') ∧
    emitted t' =
      video_signals (Int (-1)) (steps eng) ++
      [Finished match raises eng with
                | None => "成功！视频已生成。"
                | Some e => "发生错误: " +:+ exn_str e
                end].
Proof.
  destruct eng as [l0 r].
  destruct (engine_steps_run_video l0 (job_entry VideoWorker d) (Int (-1)) eq_refl)
    as (d' & last' & Hrun).
  unfold VideoWorker_run, engine_call, thread_start, set_logger, emit, print_exc.
  unfold job_entry, QtProglogLogger_init in *. run.
  rewrite Hrun. destruct r as [x|]; run; eexists; split; reflexivity.
Qed.

(** A preview worker has no [progress] signal: its engine's logger calls
    emit [status] signals only, and the relay's state never changes. *)
Lemma engine_steps_run_preview (l : list engine_step) :
  ∀ t last,
    logger t = Some (Logger PreviewWorker last) →
    ∃ r evs d',
      engine_steps_run l t =
        (r, Thread (emitted t ++ evs) (Some (Logger PreviewWorker last)) d' (printed t)) ∧
      progress_args evs = [] ∧ terminal evs = [].
Proof.
  induction l as [|s l IH]; intros [ev lg d pr] last Hlg; simpl in Hlg; subst lg.
  - exists (Ok tt), [], d. run. by rewrite app_nil_r.
  - destruct s as [message|p|path f].
    + destruct (IH (Thread (ev ++ [Status message]) (Some (Logger PreviewWorker last)) d pr) last eq_refl)
        as (r & evs & d' & Hrun & Hd & Ht).
      exists r, (Status message :: evs), d'. simpl in *.
      unfold status_update, params_logger, emit. run.
      rewrite Hrun. rewrite <- app_assoc. simpl.
      split; [by destruct r|done].
    + simpl. unfold progress_update, params_logger. run.
      destruct (gt p last) eqn:Hp.
      * eexists _, [], d. unfold qt_emitter_progress_emit. run.
        rewrite app_nil_r. done.
      * destruct (IH (Thread ev (Some (Logger PreviewWorker last)) d pr) last eq_refl)
          as (r & evs & d' & Hrun & Hd & Ht).
        exists r, evs, d'. simpl in Hrun. rewrite Hrun. by destruct r.
    + destruct (IH (Thread ev (Some (Logger PreviewWorker last)) (<[path:=f]> d) pr) last eq_refl)
        as (r & evs & d' & Hrun & Hd & Ht).
      exists r, evs, d'. simpl in *. unfold set_disk. run. rewrite Hrun. by destruct r.
Qed.

Lemma engine_call_preview (eng : engine) (d : gmap string file) :
  ∃ r t1,
    engine_call eng (job_entry PreviewWorker d) = (r, t1) ∧
    progress_args (emitted t1) = [] ∧ terminal (emitted t1) = [] ∧ printed t1 = [].
Proof.
  destruct eng as [l0 x].
  destruct (engine_steps_run_preview l0 (job_entry PreviewWorker d) (Int (-1)) eq_refl)
    as (r & evs & d' & Hrun & Hd & Ht).
  unfold engine_call. run. rewrite Hrun.
  destruct r as [[]|e]; [destruct x as [x|]|]; run; eexists _, _; (split; [reflexivity|done]).
Qed.

Lemma PreviewWorker_run_raised (path : string) (eng : engine) l d x t1 :
  engine_call eng (job_entry PreviewWorker d) = (Exc x, t1) →
  PreviewWorker_run path eng (thread_start l d) =
    (Ok tt, Thread (emitted t1 ++ [PreviewFinished None ("生成预览时发生错误: " +:+ exn_str x)])
                   (logger t1) (disk t1) (printed t1 ++ [x])).
Proof.
  intros Hcall. unfold PreviewWorker_run, thread_start, set_logger, print_exc, emit.
  unfold job_entry, QtProglogLogger_init in *. run. by rewrite Hcall.
Qed.

Lemma PreviewWorker_run_returned (path : string) (eng : engine) l d t1 :
  engine_call eng (job_entry PreviewWorker d) = (Ok tt, t1) →
  ∃ t',
    PreviewWorker_run path eng (thread_start l d) = (Ok tt, t') ∧
    emitted t' = emitted t1 ++ [preview_verdict (disk t1) path] ∧
    disk t' = disk t1.
Proof.
  intros Hcall. unfold PreviewWorker_run, thread_start, set_logger, print_exc, emit,
    os_path_getsize, os_path_exists, QPixmap_load, preview_verdict.
  unfold job_entry, QtProglogLogger_init in *. run. rewrite Hcall.
  destruct t1 as [ev lg d1 pr]. simpl.
  destruct (d1 !! path) as [f|] eqn:Hf; simpl; rewrite ?Hf; simpl.
  - case_bool_decide; simpl; [by eexists|].
    destruct (picture f); simpl; by eexists.
  - by eexists.
Qed.

Lemma engine_call_video (eng : engine) (d : gmap string file) :
  ∃ t1,
    engine_call eng (job_entry VideoWorker d) =
      (match raises eng with None => Ok tt | Some x => Exc x end, t1).
Proof.
  destruct eng as [l0 x].
  destruct (engine_steps_run_video l0 (job_entry VideoWorker d) (Int (-1)) eq_refl)
    as (d' & last' & Hrun).
  unfold engine_call. run. rewrite Hrun. destruct x; run; by eexists.
Qed.

Lemma VideoWorker_run_progress (eng : engine) l d :
  progress_args (emitted (VideoWorker_run eng (thread_start l d)).2) =
    forwarded (Int (-1)) (reported (steps eng)).
Proof.
  destruct (VideoWorker_run_spec eng l d) as (t' & Hrun & Hem).
  rewrite Hrun. simpl. rewrite Hem.
  rewrite progress_args_app, video_signals_progress. simpl. by rewrite app_nil_r.
Qed.

Lemma VideoWorker_run_delivered (signal_int : number → Z) (eng : engine) l d :
  delivered signal_int (emitted (VideoWorker_run eng (thread_start l d)).2) =
    signal_int <$> forwarded (Int (-1)) (reported (steps eng)).
Proof. unfold delivered. by rewrite VideoWorker_run_progress. Qed.

Lemma PreviewWorker_run_spec (path : string) (eng : engine) l d :
  ∃ t' evs pixmap message,
    PreviewWorker_run path eng (thread_start l d) = (Ok tt, t') ∧
    emitted t' = evs ++ [PreviewFinished pixmap message] ∧
    progress_args evs = [] ∧ terminal evs = [] ∧
    ∀ x t1, engine_call eng (job_entry PreviewWorker d) = (Exc x, t1) →
            pixmap = None ∧ message = "生成预览时发生错误: " +:+ exn_str x.
Proof.
  destruct (engine_call_preview eng d) as (r & t1 & Hcall & Hd & Ht & Hp).
  destruct r as [[]|x].
  - destruct (PreviewWorker_run_returned path eng l d t1 Hcall) as (t' & Hrun & Hem & _).
    unfold preview_verdict in Hem.
    destruct (disk t1 !! path) as [f|];
      [destruct (bool_decide (size f = 0)); [|destruct (picture f)]|];
      eexists t', (emitted t1), _, _; (split_and!; [done|exact Hem|done|done|]);
      intros x t1' Hx; rewrite Hcall in Hx; discriminate.
  - eexists _, (emitted t1), None, _. split_and!.
    + by apply PreviewWorker_run_raised.
    + done.
    + done.
    + done.
    + intros x' t1' Hx. rewrite Hcall in Hx. by simplify_eq.
Qed.

(** ** The progress relay *)




(** Nor are the delivered values always strictly increasing or at least 0:
    two floats between the same integers arrive as the same value, and an
    integer beyond the C [int]s arrives as another one. *)
Example converted_reports_leave_the_order :
  delivered qt_int
    (emitted (VideoWorker_run
                (Engine [LogProgress (Float (Q2Qc (81 # 2))); LogProgress (Float (Q2Qc (163 # 4)))]
                   None)
                (thread_start None ∅)).2) = [40; 40] ∧
  delivered qt_int
    (emitted (VideoWorker_run (Engine [LogProgress (Int 2147483648); LogProgress (Int 50)] None)
                (thread_start None ∅)).2) = [-2147483648].
Proof. split; vm_compute; reflexivity. Qed.



(** A relay kept from a job that ended at 100 would swallow the next job's
    first reports; the workers never do this. *)
Example reused_relay_would_swallow : forwarded (Int 100) [Int 0; Int 50; Int 100] = [].
Proof. reflexivity. Qed.

(** ** Exceptions at the job boundary *)

(** C3: a render or preview worker's [run] always returns normally and
    emits exactly one [finished] signal, as its last signal; when the
    engine call raises an exception, that signal carries the failure text
    built from the exception (and, for a preview, the null pixmap). *)
Theorem engine_exception_becomes_terminal_message :
  ∀ (eng : engine) (path : string) (l : option QtProglogLogger) (d : gmap string file),
    (∃ t' message,
       VideoWorker_run eng (thread_start l d) = (Ok tt, t') ∧
       terminal (emitted t') = [Finished message] ∧
       last (emitted t') = Some (Finished message) ∧
       ∀ x t1, engine_call eng (job_entry VideoWorker d) = (Exc x, t1) →
               message = "发生错误: " +:+ exn_str x) ∧
    (∃ t' pixmap message,
       PreviewWorker_run path eng (thread_start l d) = (Ok tt, t') ∧
       terminal (emitted t') = [PreviewFinished pixmap message] ∧
       last (emitted t') = Some (PreviewFinished pixmap message) ∧
       ∀ x t1, engine_call eng (job_entry PreviewWorker d) = (Exc x, t1) →
               pixmap = None ∧ message = "生成预览时发生错误: " +:+ exn_str x).
Proof.
  intros eng path l d. split.
  - destruct (VideoWorker_run_spec eng l d) as (t' & Hrun & Hem).
    eexists t', _. split_and!; [exact Hrun| | |].
    + rewrite Hem, terminal_app, video_signals_terminal. reflexivity.
    + rewrite Hem. apply last_snoc.
    + intros x t1 Hx. destruct (engine_call_video eng d) as (t1' & Hcall).
      rewrite Hcall in Hx. destruct (raises eng); by simplify_eq.
  - destruct (PreviewWorker_run_spec path eng l d)
      as (t' & evs & pixmap & message & Hrun & Hem & Hd & Ht & Hx).
    exists t', pixmap, message. split_and!; [exact Hrun| | |exact Hx].
    + rewrite Hem, terminal_app, Ht. reflexivity.
    + rewrite Hem. apply last_snoc.
Qed.

Lemma engine_exception_becomes_terminal_message_witness :
  ∃ t' message,
    VideoWorker_run (Engine [LogProgress (Int 10)] (Some (Raise Exception "ffmpeg exited with code 1")))
      (thread_start None ∅) = (Ok tt, t') ∧
    terminal (emitted t') = [Finished message] ∧
    message = "发生错误: " +:+ "ffmpeg exited with code 1".
Proof.
  destruct (engine_exception_becomes_terminal_message
              (Engine [LogProgress (Int 10)] (Some (Raise Exception "ffmpeg exited with code 1")))
              "" None ∅) as [(t' & message & Hrun & Hterm & _ & Hx) _].
  exists t', message. split_and!; [exact Hrun|exact Hterm|].
  eapply (Hx (Raise Exception "ffmpeg exited with code 1")). reflexivity.
Defined.

(** ** Classifying a finished render job *)

Lemma generation_finished_spec (message : string) (g : gui) :
  generation_finished message g =
    (Ok tt,
     Gui (set_log_box
            (log_box (window g) ++ ["--- " +:+ message +:+ " ---"])
            (if contains "成功" message
             then progress_bar_setValue 100
                    (set_dialogs (dialogs (window g) ++ [QMessageBox_information "完成" message])
                       (set_buttons_enabled true (window g)))
             else progress_bar_setValue 0
                    (set_dialogs
                       (dialogs (window g) ++
                        [QMessageBox_critical "失败"
                           ("生成失败！" +:+ newline +:+ "错误: " +:+ message +:+ newline
                            +:+ newline +:+ "请检查日志获取详细信息。")])
                       (set_buttons_enabled true (window g)))))
         (files g) (projects g)).
Proof.
  destruct g as [w fs pj]. destruct w.
  unfold generation_finished.
  exec. destruct (contains "成功" message); reflexivity.
Qed.

(** C9: whether a finished render job counts as a success is decided by
    the text of its terminal message alone: the success dialog is shown and
    the bar set to 100 exactly when the message contains the marker, and
    the failure dialog is shown otherwise.  So a job whose engine raised an
    exception whose text contains the marker is reported as a success. *)
Theorem success_is_decided_by_marker_substring :
  (∀ (message : string) (g : gui),
     ∃ g',
       generation_finished message g = (Ok tt, g') ∧
       if contains "成功" message
       then dialogs (window g') =
              dialogs (window g) ++ [QMessageBox_information "完成" message] ∧
            progress_bar (window g') = 100
       else dialogs (window g') =
              dialogs (window g) ++
              [QMessageBox_critical "失败"
                 ("生成失败！" +:+ newline +:+ "错误: " +:+ message +:+ newline
                  +:+ newline +:+ "请检查日志获取详细信息。")] ∧
            progress_bar (window g') = 0) ∧
  (∀ (env : Env) (g : gui),
     raises (Engine [] (Some (Raise Exception "FFmpeg未能成功创建视频。"))) ≠ None ∧
     ∃ g',
       render_job env (Engine [] (Some (Raise Exception "FFmpeg未能成功创建视频。"))) g
         = (Ok tt, g') ∧
       dialogs (window g') =
         dialogs (window g) ++
         [QMessageBox_information "完成" "发生错误: FFmpeg未能成功创建视频。"] ∧
       progress_bar (window g') = 100).
Proof.
  split.
  - intros message g. eexists. split; [apply generation_finished_spec|].
    destruct g as [w fs pj]. destruct w. simpl.
    destruct (contains "成功" message); done.
  - intros env g. split; [done|].
    destruct g as [w fs pj]. destruct w.
    eexists. split; [reflexivity|]. split; reflexivity.
Qed.

(** ** The duration probe *)

(** C8: [AudioInfoWorker.run] always returns normally.  When the probe
    tool cannot be run, exits with a non-zero status or prints something
    that is not a float, it emits the pair of the float zero and a
    non-empty message (after sending the same message as a status);
    otherwise it emits the parsed duration with the empty error string.
    The tool is the platform's executable name, looked up next to the
    engine binary unless the engine path is the bare name [ffmpeg]. *)
Theorem duration_probe_never_raises :
  ∀ (F : Type) (os : Platform F) (ffmpeg_path_str audio_path_str : string),
    (∃ sigs,
       AudioInfoWorker_run os ffmpeg_path_str audio_path_str [] = (Ok tt, sigs) ∧
       match subprocess_run os (ffprobe_cmd os ffmpeg_path_str audio_path_str) with
       | Exc e =>
           sigs = [AudioStatus ("获取音频时长失败: " +:+ exn_str e);
                   AudioFinished (zero os) ("获取音频时长失败: " +:+ exn_str e)]
       | Ok stdout =>
           match float_of_stripped os stdout with
           | Exc e =>
               sigs = [AudioStatus ("获取音频时长失败: " +:+ exn_str e);
                       AudioFinished (zero os) ("获取音频时长失败: " +:+ exn_str e)]
           | Ok duration => sigs = [AudioFinished duration ""]
           end
       end) ∧
    (∀ e : exn, "获取音频时长失败: " +:+ exn_str e ≠ "") ∧
    head (ffprobe_cmd os ffmpeg_path_str audio_path_str) =
      Some (ffprobe_path os ffmpeg_path_str) ∧
    (ffmpeg_path_str ≠ "ffmpeg" →
     ffprobe_path os ffmpeg_path_str =
       sibling os ffmpeg_path_str (if win32 os then "ffprobe.exe" else "ffprobe")) ∧
    (ffmpeg_path_str = "ffmpeg" →
     ffprobe_path os ffmpeg_path_str = if win32 os then "ffprobe.exe" else "ffprobe").
Proof.
  intros F os ffmpeg_path_str audio_path_str. split_and!.
  - unfold AudioInfoWorker_run, call, audio_emit. exec.
    destruct (subprocess_run os _) as [stdout|e]; exec.
    + destruct (float_of_stripped os stdout) as [duration|e]; exec; by eexists.
    + by eexists.
  - intros e. discriminate.
  - reflexivity.
  - intros Hne. unfold ffprobe_path. by rewrite bool_decide_true.
  - intros ->. reflexivity.
Qed.

Lemma duration_probe_never_raises_witness :
  ffprobe_path
    {| win32 := true;
       sibling := λ _ name, "C:/tools/" +:+ name;
       subprocess_run := λ _, Exc (Raise FileNotFoundError "[WinError 2]");
       float_of_stripped := λ _, Exc (Raise ValueError "could not convert string to float");
       zero := 0%nat |}
    "C:/tools/ffmpeg.exe" = "C:/tools/ffprobe.exe" ∧
  ffprobe_path
    {| win32 := false;
       sibling := λ _ name, "/opt/" +:+ name;
       subprocess_run := λ _, Ok "12.5";
       float_of_stripped := λ _, Ok 12%nat;
       zero := 0%nat |}
    "ffmpeg" = "ffprobe".
Proof.
  split.
  - refine (proj1 (proj2 (proj2 (proj2 (duration_probe_never_raises nat _ _ "a.mp3")))) _).
    discriminate.
  - refine (proj2 (proj2 (proj2 (proj2 (duration_probe_never_raises nat _ _ "a.mp3")))) _).
    reflexivity.
Defined.

(** ** Preview jobs and their scratch file *)

Lemma deliver_all_app (env : Env) (l1 l2 : list signal) :
  ∀ g,
    deliver_all env (l1 ++ l2) g =
      match deliver_all env l1 g with
      | (Ok _, g') => deliver_all env l2 g'
      | (Exc e, g') => (Exc e, g')
      end.
Proof.
  induction l1 as [|s l1 IH]; intros g; simpl; [done|].
  exec. destruct (deliver env s g) as [[[]|e] g']; [apply IH|done].
Qed.

(** Signals that are neither [progress] nor [finished] only reach the log. *)
Lemma deliver_all_status (env : Env) (evs : list signal) :
  ∀ w fs pj,
    progress_args evs = [] → terminal evs = [] →
    ∃ lg, deliver_all env evs (Gui w fs pj) = (Ok tt, Gui (set_log_box lg w) fs pj).
Proof.
  induction evs as [|s evs IH]; intros w fs pj Hd Ht.
  - exists (log_box w). by destruct w.
  - destruct s as [p|message|m|px m]; simpl in Hd, Ht; try discriminate.
    destruct (IH (set_log_box (log_box w ++ [message]) w) fs pj Hd Ht) as (lg & Hrun).
    exists lg. simpl. unfold log_message, update. exec.
    rewrite Hrun. by destruct w.
Qed.

Lemma on_preview_finished_spec (pixmap : QPixmap) (message path : string) w fs pj :
  preview_image_path w = Some path →
  ∃ w',
    on_preview_finished pixmap message (Gui w fs pj) = (Ok tt, Gui w' (after_remove path fs) pj) ∧
    if truthy message
    then dialogs w' =
           dialogs w ++ [QMessageBox_critical "预览失败"
                           ("生成预览时发生错误:" +:+ newline +:+ message)] ∧
         preview_display w' = setText "预览生成失败"
    else dialogs w' = dialogs w ∧ preview_display w' = setPixmap pixmap.
Proof.
  intros Hpath. destruct w. simpl in Hpath. subst.
  unfold on_preview_finished, os_remove, os_path_exists, after_remove. exec.
  destruct (truthy message) eqn:Hm;
    (destruct (fs !! path) as [f|] eqn:Hf; [destruct (locked f) eqn:Hl|]);
    exec; rewrite ?Hf; simpl; rewrite ?Hf; exec; rewrite ?Hl; simpl;
    eexists; (split; [reflexivity|]); done.
Qed.

Lemma preview_job_spec (env : Env) (path : string) (eng : engine) (g : gui) :
  preview_image_path (window g) = Some path →
  ∃ t evs pixmap message w',
    PreviewWorker_run path eng (thread_start None (files g)) = (Ok tt, t) ∧
    emitted t = evs ++ [PreviewFinished pixmap message] ∧
    preview_job env path eng g = (Ok tt, Gui w' (after_remove path (disk t)) (projects g)) ∧
    if truthy message
    then dialogs w' =
           dialogs (window g) ++ [QMessageBox_critical "预览失败"
                                    ("生成预览时发生错误:" +:+ newline +:+ message)] ∧
         preview_display w' = setText "预览生成失败"
    else dialogs w' = dialogs (window g) ∧ preview_display w' = setPixmap pixmap.
Proof.
  intros Hpath. destruct g as [w fs pj]. simpl in *.
  destruct (PreviewWorker_run_spec path eng None fs)
    as (t & evs & pixmap & message & Hrun & Hem & Hd & Ht & _).
  destruct (deliver_all_status env evs w (disk t) pj Hd Ht) as (lg & Hlog).
  destruct (on_preview_finished_spec pixmap message path (set_log_box lg w) (disk t) pj)
    as (w' & Hslot & Hw'); [by destruct w|].
  exists t, evs, pixmap, message, w'. split_and!; [done|done| |].
  - unfold preview_job. simpl. rewrite Hrun. simpl. rewrite Hem, deliver_all_app, Hlog.
    simpl. exec. by rewrite Hslot.
  - by destruct w.
Qed.

(** C2 (as amended): a preview job always ends normally and its slot
    always tries to remove the scratch file, whether the job succeeded or
    failed: afterwards the path is gone unless the operating system refused
    the removal, which is ignored.  When the engine call returns without
    raising but the output file is missing or has size zero, the terminal
    result is the failure text with the null pixmap, and the slot reports
    the preview as failed. *)
Theorem empty_preview_is_a_failure :
  ∀ (env : Env) (path : string) (eng : engine) (g : gui),
    preview_image_path (window g) = Some path →
    ∃ t g',
      PreviewWorker_run path eng (thread_start None (files g)) = (Ok tt, t) ∧
      preview_job env path eng g = (Ok tt, g') ∧
      files g' = after_remove path (disk t) ∧
      (∀ f, files g' !! path = Some f → locked f = true) ∧
      (∀ f, disk t !! path = Some f → locked f = false → files g' !! path = None) ∧
      (∀ t1,
         engine_call eng (job_entry PreviewWorker (files g)) = (Ok tt, t1) →
         (disk t1 !! path = None ∨ ∃ f, disk t1 !! path = Some f ∧ size f = 0) →
         last (emitted t) =
           Some (PreviewFinished None "生成预览时发生错误: FFmpeg未能成功创建预览图片。") ∧
         dialogs (window g') =
           dialogs (window g) ++
           [QMessageBox_critical "预览失败"
              ("生成预览时发生错误:" +:+ newline
               +:+ "生成预览时发生错误: FFmpeg未能成功创建预览图片。")] ∧
         preview_display (window g') = setText "预览生成失败").
Proof.
  intros env path eng g Hpath.
  destruct (preview_job_spec env path eng g Hpath)
    as (t & evs & pixmap & message & w' & Hrun & Hem & Hjob & Hw').
  exists t, (Gui w' (after_remove path (disk t)) (projects g)).
  split_and!; [done|done|done| | |]; simpl.
  - intros f. unfold after_remove.
    destruct (disk t !! path) as [f0|] eqn:Hf0; [|by rewrite Hf0].
    destruct (locked f0) eqn:Hl; [rewrite Hf0; by intros [= <-]|].
    by rewrite lookup_delete_eq.
  - intros f Hf Hl. unfold after_remove. rewrite Hf, Hl. apply lookup_delete_eq.
  - intros t1 Hcall Hbad.
    destruct (PreviewWorker_run_returned path eng None (files g) t1 Hcall)
      as (t' & Hrun' & Hem' & _).
    rewrite Hrun in Hrun'. injection Hrun' as <-.
    assert (preview_verdict (disk t1) path =
              PreviewFinished None "生成预览时发生错误: FFmpeg未能成功创建预览图片。") as Hv.
    { unfold preview_verdict. destruct Hbad as [->|(f & -> & Hsz)]; [done|].
      by rewrite bool_decide_true. }
    rewrite Hv in Hem'. rewrite Hem' in Hem.
    apply app_inj_tail in Hem as [_ Heq]. injection Heq as <- <-.
    split; [rewrite Hem'; apply last_snoc|]. exact Hw'.
Qed.

Lemma empty_preview_is_a_failure_witness :
  ∃ t g',
    PreviewWorker_run "tmp/preview_00.png"
      (Engine [WriteFile "tmp/preview_00.png" (File 0 None false)] None)
      (thread_start None ∅) = (Ok tt, t) ∧
    preview_job sample_env "tmp/preview_00.png"
      (Engine [WriteFile "tmp/preview_00.png" (File 0 None false)] None)
      (Gui (set_preview_image_path (Some "tmp/preview_00.png")
              (setup_ui sample_env ∅ "font" "tmp")) ∅ ∅) = (Ok tt, g') ∧
    files g' !! "tmp/preview_00.png" = None ∧
    preview_display (window g') = setText "预览生成失败".
Proof.
  destruct (empty_preview_is_a_failure sample_env "tmp/preview_00.png"
              (Engine [WriteFile "tmp/preview_00.png" (File 0 None false)] None)
              (Gui (set_preview_image_path (Some "tmp/preview_00.png")
                      (setup_ui sample_env ∅ "font" "tmp")) ∅ ∅) eq_refl)
    as (t & g' & Hrun & Hjob & _ & _ & Hgone & Hfail).
  exists t, g'. split_and!; [exact Hrun|exact Hjob| |].
  - apply (Hgone (File 0 None false)); [|reflexivity].
    vm_compute in Hrun. injection Hrun as <-. reflexivity.
  - eapply Hfail; [reflexivity|]. right. eexists. split; reflexivity.
Defined.

(** C2, as stated, fails: when the operating system refuses to remove the
    empty output file, the failure is reported but the file stays. *)
Lemma locked_scratch_file_survives :
  ∃ g',
    preview_job sample_env "tmp/preview_00.png"
      (Engine [WriteFile "tmp/preview_00.png" (File 0 None true)] None)
      (Gui (set_preview_image_path (Some "tmp/preview_00.png")
              (setup_ui sample_env ∅ "font" "tmp")) ∅ ∅) = (Ok tt, g') ∧
    preview_display (window g') = setText "预览生成失败" ∧
    files g' !! "tmp/preview_00.png" = Some (File 0 None true).
Proof.
  eexists. split; [vm_compute; reflexivity|]. split; reflexivity.
Qed.

(** ** Parameter compilation *)

Lemma set_dialogs_nil (w : MainWindow) : set_dialogs (dialogs w ++ []) w = w.
Proof. destruct w. unfold set_dialogs. simpl. by rewrite app_nil_r. Qed.

Lemma gather_parameters_spec (env : Env) (g : gui) :
  ∃ r reports,
    _gather_parameters env g =
      (Ok r, Gui (set_dialogs (dialogs (window g) ++ reports) (window g)) (files g) (projects g)) ∧
    match first_invalid g with
    | Some desc =>
        r = None ∧
        reports = [QMessageBox_warning "输入错误" ("请先选择一个有效的 " +:+ desc +:+ " 文件！")]
    | None =>
        if negb (truthy (currentText (font_combo_primary (window g)))) ||
           negb (truthy (currentText (font_combo_secondary (window g))))
        then
          r = None ∧
          reports = [QMessageBox_critical "字体错误"
                       ("请在 '" +:+ font_dir (window g)
                        +:+ "' 文件夹中放置字体文件，并在此处选择它们。")]
        else
          reports = [] ∧
          ∃ audio cover lrc,
            file_paths (window g) !! "audio" = Some audio ∧
            file_paths (window g) !! "cover" = Some cover ∧
            file_paths (window g) !! "lrc" = Some lrc ∧
            r = Some {|
              audio_path := audio;
              cover_path := cover;
              lrc_path := lrc;
              font_primary :=
                path_join env (font_dir (window g)) (currentText (font_combo_primary (window g)));
              font_size_primary := value (font_size_spin_primary (window g));
              font_secondary :=
                path_join env (font_dir (window g)) (currentText (font_combo_secondary (window g)));
              font_size_secondary := value (font_size_spin_secondary (window g));
              color_primary := settings (window g) !! "color_primary";
              color_secondary := settings (window g) !! "color_secondary";
              outline_color := settings (window g) !! "outline_color";
              outline_width := value (outline_width_spin (window g));
              background_anim := currentText (bg_anim_combo (window g));
              text_anim := currentText (text_anim_combo (window g));
              cover_anim := currentText (cover_anim_combo (window g));
              p_ffmpeg_path := ffmpeg_path (window g)
            |}
    end.
Proof.
  destruct g as [w fs pj].
  unfold first_invalid, valid_path, _gather_parameters, self, file_path, message_box, update.
  run. rewrite <- !negb_andb.
  destruct (truthy_opt (file_paths w !! "audio") &&
            os_path_exists fs (default "" (file_paths w !! "audio"))) eqn:Ha; run;
    [|by eexists _, [_]].
  rewrite <- !negb_andb.
  destruct (truthy_opt (file_paths w !! "cover") &&
            os_path_exists fs (default "" (file_paths w !! "cover"))) eqn:Hc; run;
    [|by eexists _, [_]].
  rewrite <- !negb_andb.
  destruct (truthy_opt (file_paths w !! "lrc") &&
            os_path_exists fs (default "" (file_paths w !! "lrc"))) eqn:Hl; run;
    [|by eexists _, [_]].
  destruct (truthy (currentText (font_combo_primary w))) eqn:Hfp;
    destruct (truthy (currentText (font_combo_secondary w))) eqn:Hfs; run;
    try (by eexists _, [_]).
  destruct (file_paths w !! "audio") as [audio|]; [|done].
  destruct (file_paths w !! "cover") as [cover|]; [|done].
  destruct (file_paths w !! "lrc") as [lrc|]; [|done].
  run. eexists _, []. rewrite set_dialogs_nil. split; [reflexivity|].
  split; [done|]. by eexists _, _, _.
Qed.

Lemma check_ffmpeg_frame (env : Env) (w : MainWindow) fs pj :
  ∃ r lg ds, check_ffmpeg env (Gui w fs pj) = (r, Gui (set_dialogs ds (set_log_box lg w)) fs pj).
Proof.
  destruct w.
  unfold check_ffmpeg, self, log_message, message_box, update. exec.
  destruct (probe_version env _) as [[]|e]; exec.
  - by eexists _, _, _.
  - destruct (exn_type e); exec; by eexists _, _, _.
Qed.

Lemma first_invalid_frame (w : MainWindow) fs pj lg ds :
  first_invalid (Gui (set_dialogs ds (set_log_box lg w)) fs pj) = first_invalid (Gui w fs pj).
Proof. by destruct w. Qed.

Lemma first_invalid_audio (g : gui) :
  valid_path g "audio" = false → first_invalid g = Some "音频".
Proof. intros H. unfold first_invalid. by rewrite H. Qed.

Lemma start_generation_without_audio (env : Env) (output_path : string) (g : gui) :
  valid_path g "audio" = false →
  ∀ j, (start_generation env output_path g).1 ≠ Ok (Some j).
Proof.
  intros Ha j. destruct g as [w fs pj].
  destruct (check_ffmpeg_frame env w fs pj) as (r & lg & ds & Hchk).
  unfold start_generation. run. rewrite Hchk.
  destruct r as [[]|e]; run; try done.
  destruct (gather_parameters_spec env (Gui (set_dialogs ds (set_log_box lg w)) fs pj))
    as (r & reports & Hg & Hr).
  rewrite first_invalid_frame, (first_invalid_audio _ Ha) in Hr. destruct Hr as [-> _].
  simpl in Hg. rewrite Hg. done.
Qed.

Lemma generate_preview_without_audio (env : Env) (suffix : string) (g : gui) :
  valid_path g "audio" = false →
  ∀ j, (generate_preview env suffix g).1 ≠ Ok (Some j).
Proof.
  intros Ha j. destruct g as [w fs pj].
  destruct (check_ffmpeg_frame env w fs pj) as (r & lg & ds & Hchk).
  unfold generate_preview. run. rewrite Hchk.
  destruct r as [[]|e]; run; try done.
  destruct (gather_parameters_spec env (Gui (set_dialogs ds (set_log_box lg w)) fs pj))
    as (r & reports & Hg & Hr).
  rewrite first_invalid_frame, (first_invalid_audio _ Ha) in Hr. destruct Hr as [-> _].
  simpl in Hg. rewrite Hg. done.
Qed.

(** The scratch file of a preview: the worker that [generate_preview]
    starts writes to the path the window remembers for the later removal. *)
Lemma generate_preview_scratch_path (env : Env) (suffix : string) (g g' : gui)
    (params : JobParameters) (path : string) (time : Z) :
  generate_preview env suffix g = (Ok (Some (PreviewJob params path time)), g') →
  preview_image_path (window g') = Some path ∧ files g' = files g.
Proof.
  destruct g as [w fs pj].
  destruct (check_ffmpeg_frame env w fs pj) as (r & lg & ds & Hchk).
  unfold generate_preview. run. rewrite Hchk.
  destruct r as [[]|e]; run; try done.
  destruct (gather_parameters_spec env (Gui (set_dialogs ds (set_log_box lg w)) fs pj))
    as (r & reports & Hg & _).
  simpl in Hg. rewrite Hg. destruct r as [p|]; [|done].
  destruct w. unfold log_message, set_ui_enabled, update, self. exec.
  intros [= <- <- <- <-]. done.
Qed.

(** C4: [_gather_parameters] never raises and changes nothing but the
    list of dialogs shown.  It either returns the full parameter record,
    showing no dialog, or returns nothing after showing exactly one: the
    warning that names the first of audio, cover and lyric file whose path
    is empty or does not exist, or, when all three are fine, the error that
    names the font directory because a font selection is empty.  With an
    invalid audio path the warning names the audio file, and neither
    [start_generation] nor [generate_preview] starts a worker. *)
Theorem parameter_compilation_reports_first_missing_field :
  ∀ (env : Env) (g : gui),
    (∃ r reports,
       _gather_parameters env g =
         (Ok r, Gui (set_dialogs (dialogs (window g) ++ reports) (window g))
                    (files g) (projects g)) ∧
       match first_invalid g with
       | Some desc =>
           r = None ∧
           reports = [QMessageBox_warning "输入错误"
                        ("请先选择一个有效的 " +:+ desc +:+ " 文件！")]
       | None =>
           if negb (truthy (currentText (font_combo_primary (window g)))) ||
              negb (truthy (currentText (font_combo_secondary (window g))))
           then
             r = None ∧
             reports = [QMessageBox_critical "字体错误"
                          ("请在 '" +:+ font_dir (window g)
                           +:+ "' 文件夹中放置字体文件，并在此处选择它们。")]
           else
             reports = [] ∧
             ∃ audio cover lrc,
               file_paths (window g) !! "audio" = Some audio ∧
               file_paths (window g) !! "cover" = Some cover ∧
               file_paths (window g) !! "lrc" = Some lrc ∧
               r = Some {|
                 audio_path := audio;
                 cover_path := cover;
                 lrc_path := lrc;
                 font_primary :=
                   path_join env (font_dir (window g))
                     (currentText (font_combo_primary (window g)));
                 font_size_primary := value (font_size_spin_primary (window g));
                 font_secondary :=
                   path_join env (font_dir (window g))
                     (currentText (font_combo_secondary (window g)));
                 font_size_secondary := value (font_size_spin_secondary (window g));
                 color_primary := settings (window g) !! "color_primary";
                 color_secondary := settings (window g) !! "color_secondary";
                 outline_color := settings (window g) !! "outline_color";
                 outline_width := value (outline_width_spin (window g));
                 background_anim := currentText (bg_anim_combo (window g));
                 text_anim := currentText (text_anim_combo (window g));
                 cover_anim := currentText (cover_anim_combo (window g));
                 p_ffmpeg_path := ffmpeg_path (window g)
               |}
       end) ∧
    (valid_path g "audio" = false →
     _gather_parameters env g =
       (Ok None,
        Gui (set_dialogs
               (dialogs (window g) ++
                [QMessageBox_warning "输入错误" "请先选择一个有效的 音频 文件！"])
               (window g))
            (files g) (projects g)) ∧
     (∀ output_path j, (start_generation env output_path g).1 ≠ Ok (Some j)) ∧
     (∀ suffix j, (generate_preview env suffix g).1 ≠ Ok (Some j))).
Proof.
  intros env g. split; [apply gather_parameters_spec|].
  intros Ha. split_and!.
  - destruct (gather_parameters_spec env g) as (r & reports & Hg & Hr).
    rewrite (first_invalid_audio _ Ha) in Hr. by destruct Hr as [-> ->].
  - intros output_path. by apply start_generation_without_audio.
  - intros suffix. by apply generate_preview_without_audio.
Qed.

Lemma parameter_compilation_reports_first_missing_field_witness :
  (_gather_parameters sample_env (started sample_env)).1 = Ok None ∧
  dialogs (window (_gather_parameters sample_env (started sample_env)).2) =
    [QMessageBox_warning "输入错误" "请先选择一个有效的 音频 文件！"] ∧
  (start_generation sample_env "out.mp4" (started sample_env)).1 = Ok None.
Proof.
  destruct (parameter_compilation_reports_first_missing_field sample_env (started sample_env))
    as [_ H].
  destruct (H eq_refl) as (Hg & Hs & _).
  rewrite Hg. split_and!; [reflexivity|reflexivity|].
  specialize (Hs "out.mp4").
  destruct (start_generation sample_env "out.mp4" (started sample_env)).1 as [[j|]|e] eqn:E;
    [by destruct (Hs j)|reflexivity|vm_compute in E; discriminate].
Defined.

(** ** Saving and loading projects *)

Lemma load_colors_spec (s : settings_doc) (keys : list string) :
  ∀ w fs pj,
    load_colors s keys (Gui w fs pj) =
      (Ok tt, Gui (set_settings (foldl (λ store key, merged_color s key store) (settings w) keys) w)
                  fs pj).
Proof.
  induction keys as [|key keys IH]; intros w fs pj; simpl.
  - by destruct w.
  - unfold merged_color at 2. unfold update.
    destruct (get_color s key) as [c|]; simpl; [destruct (truthy c); simpl|].
    + exec. rewrite IH. by destruct w.
    + rewrite IH. by destruct w.
    + rewrite IH. by destruct w.
Qed.

Local Arguments load_colors : simpl never.

(** What [load_project] does with a readable project file, field by
    field.  The sizes are set one after the other, and the first that does
    not fit a C [int] ends the [try] block: the sizes from it on, the
    colours and the engine path are then not reached. *)
Lemma load_project_spec (env : Env) (path : string) (doc : project_data) w fs pj :
  truthy path = true →
  pj !! path = Some (Ok doc) →
  ∃ w',
    load_project env path (Gui w fs pj) = (Ok tt, Gui w' fs pj) ∧
    file_paths w' = default ∅ (d_file_paths doc) ∧
    bg_anim_combo w' =
      _set_combo_text (bg_anim_combo w) (d_background_anim (default no_settings (d_settings doc))) ∧
    text_anim_combo w' =
      _set_combo_text (text_anim_combo w) (d_text_anim (default no_settings (d_settings doc))) ∧
    cover_anim_combo w' =
      _set_combo_text (cover_anim_combo w) (d_cover_anim (default no_settings (d_settings doc))) ∧
    hw_accel_combo w' =
      _set_combo_text (hw_accel_combo w) (d_hw_accel (default no_settings (d_settings doc))) ∧
    font_combo_primary w' =
      _set_combo_text (font_combo_primary w)
        (d_font_primary (default no_settings (d_settings doc))) ∧
    font_combo_secondary w' =
      _set_combo_text (font_combo_secondary w)
        (d_font_secondary (default no_settings (d_settings doc))) ∧
    font_size_spin_primary w' =
      (if bool_decide
            (fits_c_int (default 56 (d_font_size_primary (default no_settings (d_settings doc)))))
       then bounded (default 56 (d_font_size_primary (default no_settings (d_settings doc))))
              (font_size_spin_primary w)
       else font_size_spin_primary w) ∧
    font_size_spin_secondary w' =
      (if bool_decide
            (fits_c_int (default 56 (d_font_size_primary (default no_settings (d_settings doc)))))
          && bool_decide
               (fits_c_int
                  (default 48 (d_font_size_secondary (default no_settings (d_settings doc)))))
       then bounded (default 48 (d_font_size_secondary (default no_settings (d_settings doc))))
              (font_size_spin_secondary w)
       else font_size_spin_secondary w) ∧
    outline_width_spin w' =
      (if bool_decide
            (fits_c_int (default 56 (d_font_size_primary (default no_settings (d_settings doc)))))
          && bool_decide
               (fits_c_int
                  (default 48 (d_font_size_secondary (default no_settings (d_settings doc)))))
          && bool_decide
               (fits_c_int (default 3 (d_outline_width (default no_settings (d_settings doc)))))
       then bounded (default 3 (d_outline_width (default no_settings (d_settings doc))))
              (outline_width_spin w)
       else outline_width_spin w) ∧
    match first_overflow (sizes (default no_settings (d_settings doc))) with
    | None =>
        settings w' =
          foldl (λ store key, merged_color (default no_settings (d_settings doc)) key store)
            (settings w) ["color_primary"; "color_secondary"; "outline_color"] ∧
        ffmpeg_path w' =
          (if truthy_opt (d_ffmpeg_path (default no_settings (d_settings doc)))
           then default "" (d_ffmpeg_path (default no_settings (d_settings doc)))
           else ffmpeg_path w) ∧
        dialogs w' = dialogs w
    | Some v =>
        settings w' = settings w ∧
        ffmpeg_path w' = ffmpeg_path w ∧
        dialogs w' = dialogs w ++ [load_failed (Raise OverflowError (overflow_text env v))]
    end.
Proof.
  intros Hpath Hdoc. destruct w.
  unfold load_project, json_load, get_audio_duration, parse_lrc_file, sizes.
  rewrite Hpath. cbv beta iota delta [negb first_overflow]. exec. rewrite Hdoc. exec.
  set (s := default no_settings (d_settings doc)).
  set (fp := default ∅ (d_file_paths doc)).
  set (b1 := bool_decide (fits_c_int (default 56 (d_font_size_primary s)))).
  set (b2 := bool_decide (fits_c_int (default 48 (d_font_size_secondary s)))).
  set (b3 := bool_decide (fits_c_int (default 3 (d_outline_width s)))).
  destruct (fp !! "audio") as [audio|]; [destruct (truthy audio)|];
    (destruct (fp !! "lrc") as [lrc|];
       [destruct (truthy lrc); [destruct (read_lrc_metadata env lrc)|]|]);
    exec;
    (destruct b1; exec; [destruct b2; exec; [destruct b3; exec|]|]);
    rewrite ?load_colors_spec; exec;
    try (destruct (d_ffmpeg_path s) as [v|]; [destruct (truthy v) eqn:Hv|]; exec);
    eexists; (split; [reflexivity|]); exec;
    cbv beta iota delta [truthy_opt from_option id andb];
    rewrite ?Hv; by split_and!.
Qed.

(** The same for a document whose sizes all fit a C [int]. *)
Lemma load_project_fits (env : Env) (path : string) (doc : project_data) w fs pj :
  truthy path = true →
  pj !! path = Some (Ok doc) →
  Forall fits_c_int (sizes (default no_settings (d_settings doc))) →
  ∃ w',
    load_project env path (Gui w fs pj) = (Ok tt, Gui w' fs pj) ∧
    file_paths w' = default ∅ (d_file_paths doc) ∧
    bg_anim_combo w' =
      _set_combo_text (bg_anim_combo w) (d_background_anim (default no_settings (d_settings doc))) ∧
    text_anim_combo w' =
      _set_combo_text (text_anim_combo w) (d_text_anim (default no_settings (d_settings doc))) ∧
    cover_anim_combo w' =
      _set_combo_text (cover_anim_combo w) (d_cover_anim (default no_settings (d_settings doc))) ∧
    hw_accel_combo w' =
      _set_combo_text (hw_accel_combo w) (d_hw_accel (default no_settings (d_settings doc))) ∧
    font_combo_primary w' =
      _set_combo_text (font_combo_primary w)
        (d_font_primary (default no_settings (d_settings doc))) ∧
    font_combo_secondary w' =
      _set_combo_text (font_combo_secondary w)
        (d_font_secondary (default no_settings (d_settings doc))) ∧
    font_size_spin_primary w' =
      bounded (default 56 (d_font_size_primary (default no_settings (d_settings doc))))
        (font_size_spin_primary w) ∧
    font_size_spin_secondary w' =
      bounded (default 48 (d_font_size_secondary (default no_settings (d_settings doc))))
        (font_size_spin_secondary w) ∧
    outline_width_spin w' =
      bounded (default 3 (d_outline_width (default no_settings (d_settings doc))))
        (outline_width_spin w) ∧
    settings w' =
      foldl (λ store key, merged_color (default no_settings (d_settings doc)) key store)
        (settings w) ["color_primary"; "color_secondary"; "outline_color"] ∧
    ffmpeg_path w' =
      (if truthy_opt (d_ffmpeg_path (default no_settings (d_settings doc)))
       then default "" (d_ffmpeg_path (default no_settings (d_settings doc)))
       else ffmpeg_path w) ∧
    dialogs w' = dialogs w.
Proof.
  intros Hpath Hdoc Hfit.
  destruct (load_project_spec env path doc w fs pj Hpath Hdoc)
    as (w' & Hrun & Hfp & Hbg & Htx & Hcv & Hhw & Hf1 & Hf2 & Hs1 & Hs2 & Hs3 & Hrest).
  unfold sizes in Hfit, Hrest.
  apply Forall_cons in Hfit as [H1 Hfit]. apply Forall_cons in Hfit as [H2 Hfit].
  apply Forall_cons in Hfit as [H3 _].
  cbv beta iota delta [first_overflow] in Hrest.
  rewrite (bool_decide_true _ H1) in Hs1, Hs2, Hs3, Hrest.
  rewrite (bool_decide_true _ H2) in Hs2, Hs3, Hrest.
  rewrite (bool_decide_true _ H3) in Hs3, Hrest.
  cbv beta iota delta [andb] in Hs2, Hs3, Hrest. destruct Hrest as (Hst & Hff & Hdl).
  exists w'. by split_and!.
Qed.

(** ** Catalog-backed selections *)

Lemma index_from_found (text : string) (l : list string) :
  ∀ i, index_from i text l > -1 → 0 ≤ i → text ∈ l.
Proof.
  induction l as [|x l IH]; intros i H Hi; simpl in H; [lia|].
  case_bool_decide as Hx; [subst; by left|].
  right. apply (IH (i + 1)); [done|lia].
Qed.

Lemma index_from_missing (text : string) (l : list string) :
  ∀ i, text ∉ l → index_from i text l = -1.
Proof.
  induction l as [|x l IH]; intros i H; simpl; [done|].
  apply not_elem_of_cons in H as [Hx Hl].
  rewrite bool_decide_false by done. by apply IH.
Qed.

Lemma set_combo_text_skips (combo : QComboBox) (text : option string) :
  text = None ∨ text = Some "" ∨ (∃ v, text = Some v ∧ v ∉ items combo) →
  _set_combo_text combo text = combo.
Proof.
  intros [->|[->|(v & -> & Hv)]]; [done|done|].
  unfold _set_combo_text, findText. rewrite (index_from_missing v _ 0 Hv).
  rewrite bool_decide_false by lia. by rewrite andb_false_r.
Qed.

Lemma index_from_present (text : string) (l : list string) :
  ∀ i, text ∈ l → i ≤ index_from i text l.
Proof.
  induction l as [|x l IH]; intros i H; [by apply elem_of_nil in H|].
  simpl. case_bool_decide as Hx; [lia|].
  apply elem_of_cons in H as [->|H]; [done|].
  specialize (IH (i + 1) H). lia.
Qed.

Lemma set_combo_text_takes (combo : QComboBox) (v : string) :
  v ≠ "" → v ∈ items combo →
  _set_combo_text combo (Some v) = Combo (items combo) v.
Proof.
  intros Hne Hin. unfold _set_combo_text, setCurrentText.
  assert (findText combo v > -1) as Hfound.
  { unfold findText. pose proof (index_from_present v (items combo) 0 Hin). lia. }
  destruct v; [done|]. simpl. by rewrite !bool_decide_true.
Qed.

Lemma catalog_kept_refl (c : QComboBox) : catalog_kept c c.
Proof. by split. Qed.


Lemma set_combo_text_kept (combo : QComboBox) (text : option string) :
  catalog_kept combo (_set_combo_text combo text).
Proof.
  destruct text as [v|]; [|apply catalog_kept_refl].
  unfold _set_combo_text, setCurrentText.
  destruct (truthy v); simpl; [|apply catalog_kept_refl].
  case_bool_decide as Hfound; simpl; [|apply catalog_kept_refl].
  rewrite ?bool_decide_true by done. split; [done|].
  intros _. unfold selected. simpl. by apply (index_from_found v _ 0).
Qed.


Lemma combos_reselected_refl (w : MainWindow) : Forall2 reselected (combos w) (combos w).
Proof. unfold combos. repeat constructor; by exists None. Qed.

Lemma load_project_reselects (env : Env) (path : string) w fs pj :
  Forall2 reselected (combos w) (combos (window (load_project env path (Gui w fs pj)).2)).
Proof.
  destruct (truthy path) eqn:Hpath.
  - destruct (pj !! path) as [[doc|e]|] eqn:Hdoc.
    + destruct (load_project_spec env path doc w fs pj Hpath Hdoc)
        as (w' & Hrun & _ & Hbg & Htx & Hcv & Hhw & Hfp & Hfs & _).
      rewrite Hrun. simpl. unfold combos.
      rewrite Hbg, Htx, Hcv, Hhw, Hfp, Hfs.
      repeat constructor; by eexists.
    + destruct w. unfold load_project, json_load. rewrite Hpath.
      cbv beta iota delta [negb]. exec. rewrite Hdoc. exec.
      unfold combos; exec; repeat constructor; by exists None.
    + destruct w. unfold load_project, json_load. rewrite Hpath.
      cbv beta iota delta [negb]. exec. rewrite Hdoc. exec.
      unfold combos; exec; repeat constructor; by exists None.
  - destruct w. unfold load_project. rewrite Hpath.
    cbv beta iota delta [negb]. exec.
      unfold combos; exec; repeat constructor; by exists None.
Qed.

(** Symbolic execution of [load_settings]: a case for every lookup in the
    store, every [int] and every [setValue]. *)
Ltac load_settings_cases env :=
  unfold load_settings, int_setting; exec;
  repeat match goal with
         | |- context [match ?m !! ?k with _ => _ end] =>
             destruct (m !! k) as [?|]; exec
         | |- context [match int_of_str env ?t with _ => _ end] =>
             destruct (int_of_str env t) as [?|]; exec
         | |- context [if bool_decide (fits_c_int ?n) then _ else _] =>
             destruct (bool_decide (fits_c_int n)) eqn:?; exec
         end.

Lemma load_settings_reselects (env : Env) w fs pj :
  Forall2 reselected (combos w) (combos (window (load_settings env (Gui w fs pj)).2)).
Proof.
  destruct w. load_settings_cases env;
    unfold combos; exec; cbv beta iota delta [snd];
    repeat constructor;
    first [by exists None | by eexists].
Qed.

Lemma run_load_reselects (env : Env) (l : load) (g : gui) :
  Forall2 reselected (combos (window g)) (combos (window (run_load env g l))).
Proof.
  destruct g as [w fs pj]. destruct l as [path content|store]; simpl.
  - apply load_project_reselects.
  - assert (combos w = combos (set_settings store w)) as -> by (by destruct w).
    apply load_settings_reselects.
Qed.

Lemma reselected_kept (c c' : QComboBox) : reselected c c' → catalog_kept c c'.
Proof. intros [text ->]. apply set_combo_text_kept. Qed.

Lemma reselected_empty (c c' : QComboBox) : reselected c c' → empty_kept c c'.
Proof.
  intros [text ->] Hitems. apply set_combo_text_skips.
  destruct text as [v|]; [|by left]. right; right. exists v. split; [done|].
  rewrite Hitems. apply not_elem_of_nil.
Qed.

Lemma load_project_combos (env : Env) (path : string) w fs pj :
  Forall2 catalog_kept (combos w) (combos (window (load_project env path (Gui w fs pj)).2)).
Proof.
  eapply Forall2_impl; [apply load_project_reselects|apply reselected_kept].
Qed.

Lemma load_settings_combos (env : Env) w fs pj :
  Forall2 catalog_kept (combos w) (combos (window (load_settings env (Gui w fs pj)).2)).
Proof.
  eapply Forall2_impl; [apply load_settings_reselects|apply reselected_kept].
Qed.



Lemma empty_kept_trans (c1 c2 c3 : QComboBox) :
  empty_kept c1 c2 → empty_kept c2 c3 → empty_kept c1 c3.
Proof.
  unfold empty_kept. intros H12 H23 Hitems. specialize (H12 Hitems). subst c2. auto.
Qed.

Lemma run_load_empty (env : Env) (l : load) (g : gui) :
  Forall2 empty_kept (combos (window g)) (combos (window (run_load env g l))).
Proof.
  eapply Forall2_impl; [apply run_load_reselects|apply reselected_empty].
Qed.

Lemma run_loads_empty (env : Env) (loads : list load) :
  ∀ g, Forall2 empty_kept (combos (window g)) (combos (window (foldl (run_load env) g loads))).
Proof.
  induction loads as [|l loads IH]; intros g; simpl.
  - unfold combos. repeat constructor; by intros _.
  - eapply Forall2_trans; [|apply run_load_empty|apply IH].
    apply empty_kept_trans.
Qed.



Lemma fontless_empty_kept (w w' : MainWindow) :
  Forall2 empty_kept (combos w) (combos w') → fontless w → fontless w'.
Proof.
  unfold combos. intros H [Hp Hs].
  repeat match goal with
         | H : Forall2 _ (_ :: _) (_ :: _) |- _ => apply Forall2_cons in H as [? H]
         end.
  unfold empty_kept in *. split.
  - rewrite <- Hp. rewrite Hp in *. auto.
  - rewrite <- Hs. rewrite Hs in *. auto.
Qed.

Lemma fontless_frame (w : MainWindow) lg ds :
  fontless w → fontless (set_dialogs ds (set_log_box lg w)).
Proof. by destruct w. Qed.

Lemma fontless_load_settings (env : Env) w fs pj :
  fontless w → fontless (window (load_settings env (Gui w fs pj)).2).
Proof.
  apply fontless_empty_kept.
  eapply Forall2_impl; [apply load_settings_reselects|apply reselected_empty].
Qed.

Lemma fontless_run_loads (env : Env) (loads : list load) (g : gui) :
  fontless (window g) → fontless (window (foldl (run_load env) g loads)).
Proof. apply fontless_empty_kept, run_loads_empty. Qed.

Lemma fontless_started (env : Env) :
  font_files env = None ∨ font_files env = Some [] →
  fontless (window (started env)).
Proof.
  intros Hfiles. unfold started, MainWindow_init, populate_fonts.
  destruct Hfiles as [Hfiles | Hfiles]; rewrite Hfiles; unfold setup_ui; exec;
  match goal with
       | |- context [load_settings env ?g] =>
           let H := fresh in
           assert (fontless (window (load_settings env g).2)) as H
             by (apply fontless_load_settings; by split);
           destruct (load_settings env g) as [[[]|e] [w' fs' pj']]; exec;
           [|exact H];
           destruct (check_ffmpeg_frame env w' fs' pj') as (r & lg & ds & ->);
           destruct r as [?|?]; exec; by apply fontless_frame
       end.
Qed.




(** ** Loading merges a document into the window *)

Lemma truthy_nonempty (s : string) : truthy s = true ↔ s ≠ "".
Proof. destruct s; simpl; split; done. Qed.

Lemma set_combo_text_merged (c : QComboBox) (text : option string) :
  choice_merged c (_set_combo_text c text) text.
Proof.
  split_and!.
  - apply set_combo_text_kept.
  - apply set_combo_text_skips.
  - intros v -> Hne Hin. by rewrite set_combo_text_takes.
Qed.

Lemma bounded_merged (s : QSpinBox) (v : option Z) (fallback : Z) :
  size_merged s (bounded (default fallback v) s) v fallback.
Proof. done. Qed.

Lemma merged_colors_lookup (s : settings_doc) (store : gmap string string) :
  ∀ key,
    foldl (λ store key, merged_color s key store) store
      ["color_primary"; "color_secondary"; "outline_color"] !! key =
    if bool_decide (key ∈ ["color_primary"; "color_secondary"; "outline_color"])
       && truthy_opt (get_color s key)
    then get_color s key
    else store !! key.
Proof.
  intros key. simpl. unfold merged_color.
  assert (get_color s "color_primary" = d_color_primary s) as -> by done.
  assert (get_color s "color_secondary" = d_color_secondary s) as -> by done.
  assert (get_color s "outline_color" = d_outline_color s) as -> by done.
  destruct (decide (key ∈ ["color_primary"; "color_secondary"; "outline_color"])) as [Hin|Hout].
  - rewrite bool_decide_true by done.
    assert (key = "color_primary" ∨ key = "color_secondary" ∨ key = "outline_color")
      as [-> | [-> | ->]] by set_solver;
      [assert (get_color s "color_primary" = d_color_primary s) as -> by done
      |assert (get_color s "color_secondary" = d_color_secondary s) as -> by done
      |assert (get_color s "outline_color" = d_outline_color s) as -> by done];
      destruct (d_color_primary s) as [c1|]; destruct (d_color_secondary s) as [c2|];
      destruct (d_outline_color s) as [c3|]; simpl;
      repeat match goal with
             | |- context [truthy ?c] => destruct (truthy c)
             end; simpl; by simplify_map_eq.
  - rewrite bool_decide_false by done. simpl.
    assert (key ≠ "color_primary" ∧ key ≠ "color_secondary" ∧ key ≠ "outline_color")
      as (H1 & H2 & H3) by set_solver.
    destruct (truthy_opt (d_color_primary s)); destruct (truthy_opt (d_color_secondary s));
      destruct (truthy_opt (d_outline_color s)); by simplify_map_eq.
Qed.

(** C7 (as amended): loading a readable project file ends normally and
    merges the document into the window field by field.  The asset paths
    are replaced as a whole by the document's mapping, the empty mapping
    when that key is absent.  A selection whose key is absent (or empty)
    keeps its value from before the load, and a present value replaces it
    when it is an item of the catalog.  When the document's sizes fit a C
    [int], a font size or the outline width takes the document's value, or
    56, 48 and 3 when its key is absent, bounded by the range of its spin
    box; a colour or the engine path whose key is absent (or empty) keeps
    its value and a present value replaces it; and no dialog is shown.
    When a size does not fit, [setValue] raises inside the [try] block: the
    error dialog is shown, the sizes before it are set, and that size, the
    sizes after it, the colours and the engine path keep their values. *)
Theorem load_project_merges_by_field :
  ∀ (env : Env) (path : string) (doc : project_data) (s : settings_doc) (g : gui),
    truthy path = true →
    projects g !! path = Some (Ok doc) →
    s = default no_settings (d_settings doc) →
    ∃ w',
      load_project env path g = (Ok tt, Gui w' (files g) (projects g)) ∧
      file_paths w' = default ∅ (d_file_paths doc) ∧
      choice_merged (bg_anim_combo (window g)) (bg_anim_combo w') (d_background_anim s) ∧
      choice_merged (text_anim_combo (window g)) (text_anim_combo w') (d_text_anim s) ∧
      choice_merged (cover_anim_combo (window g)) (cover_anim_combo w') (d_cover_anim s) ∧
      choice_merged (hw_accel_combo (window g)) (hw_accel_combo w') (d_hw_accel s) ∧
      choice_merged (font_combo_primary (window g)) (font_combo_primary w') (d_font_primary s) ∧
      choice_merged (font_combo_secondary (window g)) (font_combo_secondary w')
        (d_font_secondary s) ∧
      (Forall fits_c_int (sizes s) →
       size_merged (font_size_spin_primary (window g)) (font_size_spin_primary w')
         (d_font_size_primary s) 56 ∧
       size_merged (font_size_spin_secondary (window g)) (font_size_spin_secondary w')
         (d_font_size_secondary s) 48 ∧
       size_merged (outline_width_spin (window g)) (outline_width_spin w')
         (d_outline_width s) 3 ∧
       text_merged (settings (window g) !! "color_primary") (settings w' !! "color_primary")
         (d_color_primary s) Some ∧
       text_merged (settings (window g) !! "color_secondary") (settings w' !! "color_secondary")
         (d_color_secondary s) Some ∧
       text_merged (settings (window g) !! "outline_color") (settings w' !! "outline_color")
         (d_outline_color s) Some ∧
       text_merged (ffmpeg_path (window g)) (ffmpeg_path w') (d_ffmpeg_path s) id ∧
       dialogs w' = dialogs (window g)) ∧
      (∀ v, first_overflow (sizes s) = Some v →
       dialogs w' =
         dialogs (window g) ++ [load_failed (Raise OverflowError (overflow_text env v))] ∧
       font_size_spin_primary w' =
         (if bool_decide (fits_c_int (default 56 (d_font_size_primary s)))
          then bounded (default 56 (d_font_size_primary s)) (font_size_spin_primary (window g))
          else font_size_spin_primary (window g)) ∧
       font_size_spin_secondary w' =
         (if bool_decide (fits_c_int (default 56 (d_font_size_primary s)))
             && bool_decide (fits_c_int (default 48 (d_font_size_secondary s)))
          then bounded (default 48 (d_font_size_secondary s))
                 (font_size_spin_secondary (window g))
          else font_size_spin_secondary (window g)) ∧
       outline_width_spin w' = outline_width_spin (window g) ∧
       settings w' = settings (window g) ∧
       ffmpeg_path w' = ffmpeg_path (window g)).
Proof.
  intros env path doc s [w fs pj] Hpath Hdoc ->. cbn [window files projects] in *.
  destruct (load_project_spec env path doc w fs pj Hpath Hdoc)
    as (w' & Hrun & Hfp & Hbg & Htx & Hcv & Hhw & Hf1 & Hf2 & Hs1 & Hs2 & Hs3 & Hrest).
  exists w'. rewrite Hbg, Htx, Hcv, Hhw, Hf1, Hf2.
  split_and!; try done; try apply set_combo_text_merged.
  - intros Hfit.
    destruct (load_project_fits env path doc w fs pj Hpath Hdoc Hfit)
      as (w2 & Hrun2 & _ & _ & _ & _ & _ & _ & _ & Hz1 & Hz2 & Hz3 & Hst & Hff & Hdl).
    rewrite Hrun in Hrun2. injection Hrun2 as <-.
    rewrite Hz1, Hz2, Hz3, Hst, Hff, !merged_colors_lookup.
    assert (∀ (v : option string) (old : option string),
              text_merged old (if truthy_opt v then v else old) v Some) as Hcolor.
    { intros v old. split.
      - by intros [->| ->].
      - intros text -> Hne. simpl. by rewrite (proj2 (truthy_nonempty text) Hne). }
    split_and!; try done; try apply bounded_merged; try apply Hcolor.
    set (v := d_ffmpeg_path (default no_settings (d_settings doc))). split.
    + by intros [->| ->].
    + intros text -> Hne. simpl. by rewrite (proj2 (truthy_nonempty text) Hne).
  - intros v Hv. rewrite Hv in Hrest. destruct Hrest as (Hst & Hff & Hdl).
    split_and!; try done.
    rewrite Hs3. unfold sizes in Hv. cbv beta iota delta [first_overflow] in Hv.
    repeat case_bool_decide; done.
Qed.

Lemma load_project_merges_by_field_witness :
  ∃ w',
    load_project sample_env "song.kproj"
      (Gui (window (started sample_env)) ∅
         {["song.kproj" :=
             Ok (Project "3.0" (Some {["audio" := ""]})
                   (Some (SettingsDoc None None (Some 500) None (Some "#112233") None None
                            None None (Some "zoom") None None None)))]})
      = (Ok tt, w') ∧
    currentText (bg_anim_combo (window w')) = "zoom" ∧
    value (font_size_spin_primary (window w')) = 300 ∧
    value (font_size_spin_secondary (window w')) = 48 ∧
    settings (window w') !! "color_primary" = Some "#112233" ∧
    settings (window w') !! "color_secondary" = Some "#DDDDDD".
Proof.
  destruct (load_project_merges_by_field sample_env "song.kproj"
              (Project "3.0" (Some {["audio" := ""]})
                 (Some (SettingsDoc None None (Some 500) None (Some "#112233") None None
                          None None (Some "zoom") None None None)))
              (SettingsDoc None None (Some 500) None (Some "#112233") None None
                 None None (Some "zoom") None None None)
              (Gui (window (started sample_env)) ∅
                 {["song.kproj" :=
                     Ok (Project "3.0" (Some {["audio" := ""]})
                           (Some (SettingsDoc None None (Some 500) None (Some "#112233") None
                                    None None None (Some "zoom") None None None)))]})
              eq_refl (lookup_singleton_eq _ _) eq_refl)
    as (w' & Hrun & _ & Hbg & _ & _ & _ & _ & _ & Hfit & _).
  destruct Hfit as (Hs1 & Hs2 & _ & Hc1 & Hc2 & _);
    [repeat constructor; unfold fits_c_int; simpl; lia|].
  exists (Gui w' ∅
            {["song.kproj" :=
                Ok (Project "3.0" (Some {["audio" := ""]})
                      (Some (SettingsDoc None None (Some 500) None (Some "#112233") None
                               None None None (Some "zoom") None None None)))]}).
  split; [exact Hrun|]. cbn [window]. split_and!.
  - apply (proj2 (proj2 Hbg) "zoom"); [reflexivity|discriminate|].
    vm_compute. repeat constructor.
  - rewrite (proj2 (proj2 Hs1)). vm_compute. reflexivity.
  - rewrite (proj2 (proj2 Hs2)). vm_compute. reflexivity.
  - apply (proj2 Hc1 "#112233"); [reflexivity|discriminate].
  - rewrite (proj1 Hc2); [vm_compute; reflexivity|by left].
Defined.

(** C7, as stated, fails: a document without the keys [font_size_primary]
    and [file_paths] does not leave these fields as they were; the size is
    set to 56 and the asset paths are emptied. *)
Lemma absent_size_and_paths_are_reset :
  value (font_size_spin_primary
           (set_font_size_spin_primary (Spin 10 300 100)
              (set_file_paths {["audio" := "/music/a.mp3"]} (window (started sample_env)))))
    = 100 ∧
  value (font_size_spin_primary
           (window (load_project sample_env "empty.kproj"
              (Gui (set_font_size_spin_primary (Spin 10 300 100)
                      (set_file_paths {["audio" := "/music/a.mp3"]}
                         (window (started sample_env))))
                 ∅ {["empty.kproj" := Ok (Project "3.0" None None)]})).2))
    = 56 ∧
  file_paths
    (window (load_project sample_env "empty.kproj"
       (Gui (set_font_size_spin_primary (Spin 10 300 100)
               (set_file_paths {["audio" := "/music/a.mp3"]}
                  (window (started sample_env))))
          ∅ {["empty.kproj" := Ok (Project "3.0" None None)]})).2) !! "audio"
    = None.
Proof. split_and!; vm_compute; reflexivity. Qed.

(** ** Saving then loading *)

Lemma save_project_spec (path : string) w fs pj :
  truthy path = true →
  projects (save_project path Written (Gui w fs pj)).2 = <[path := Ok (project_of w)]> pj.
Proof.
  intros Hpath. unfold save_project, self, log_message, update. rewrite Hpath. by exec.
Qed.

Lemma restored_choice (c c' : QComboBox) :
  items c' = items c → selected c → currentText c ≠ "" →
  currentText (_set_combo_text c' (Some (currentText c))) = currentText c.
Proof.
  intros Hitems Hsel Hne. rewrite set_combo_text_takes; [done|done|].
  by rewrite Hitems.
Qed.

Lemma restored_size (s s' : QSpinBox) :
  minimum s' = minimum s → maximum s' = maximum s →
  minimum s ≤ value s ≤ maximum s →
  value (bounded (value s) s') = value s.
Proof. intros Hmin Hmax Hv. simpl. lia. Qed.

(** C6: a project saved from a state whose selections, colours and engine
    path are all populated restores that state when it is loaded: whatever
    the window holds by then, as long as it is a window of the same program
    (same catalogs, same spin-box ranges), the load ends normally, shows no
    dialog, and afterwards every field of the settings and asset-path
    model equals the saved one: the asset paths, the six selections, the
    two font sizes and the outline width, the three colours and the engine
    path. *)
Theorem load_after_save_restores_state :
  ∀ (env : Env) (path : string) (w w' : MainWindow) (fs fs' : gmap string file)
    (pj : gmap string (outcome project_data)),
    truthy path = true →
    populated w →
    consistent w →
    same_widgets w w' →
    ∃ w'',
      load_project env path
        (Gui w' fs' (projects (save_project path Written (Gui w fs pj)).2))
        = (Ok tt, Gui w'' fs' (projects (save_project path Written (Gui w fs pj)).2)) ∧
      file_paths w'' = file_paths w ∧
      currentText <$> combos w'' = currentText <$> combos w ∧
      value <$> spins w'' = value <$> spins w ∧
      settings w'' !! "color_primary" = settings w !! "color_primary" ∧
      settings w'' !! "color_secondary" = settings w !! "color_secondary" ∧
      settings w'' !! "outline_color" = settings w !! "outline_color" ∧
      ffmpeg_path w'' = ffmpeg_path w ∧
      dialogs w'' = dialogs w'.
Proof.
  intros env path w w' fs fs' pj Hpath (Hpop & Hcol & Hff) (Hsel & Hrange & Hint)
    (Hitems & Hranges).
  rewrite (save_project_spec path w fs pj Hpath).
  unfold combos, spins in Hpop, Hsel, Hrange, Hint, Hitems, Hranges.
  repeat match goal with
         | H : Forall _ (_ :: _) |- _ => apply Forall_cons in H as [? H]
         | H : Forall2 _ (_ :: _) (_ :: _) |- _ => apply Forall2_cons in H as [? H]
         | H : _ ∧ _ |- _ => destruct H
         end.
  destruct (load_project_fits env path (project_of w) w' fs' (<[path := Ok (project_of w)]> pj)
              Hpath (lookup_insert_eq _ _ _))
    as (w'' & Hrun & Hfp & Hbg & Htx & Hcv & Hhw & Hf1 & Hf2 & Hs1 & Hs2 & Hs3 & Hst & Hpath'
        & Hdl).
  { unfold sizes, project_of, fits_c_int in *. simpl. repeat constructor; lia. }
  exists w''. split; [exact Hrun|].
  cbv beta iota delta
    [ project_of from_option id d_settings d_file_paths d_font_primary d_font_secondary
      d_font_size_primary d_font_size_secondary d_color_primary d_color_secondary
      d_outline_color d_outline_width d_ffmpeg_path d_background_anim d_text_anim
      d_cover_anim d_hw_accel truthy_opt ]
    in Hfp, Hbg, Htx, Hcv, Hhw, Hf1, Hf2, Hs1, Hs2, Hs3, Hpath'.
  assert (∀ key, key ∈ ["color_primary"; "color_secondary"; "outline_color"] →
                 truthy_opt (settings w !! key) = true →
                 settings w'' !! key = settings w !! key) as Hkeep.
  { intros key Hkey Htruthy. rewrite Hst, merged_colors_lookup.
    rewrite bool_decide_true by done.
    assert (get_color (default no_settings (d_settings (project_of w))) key = settings w !! key)
      as ->; [|by rewrite Htruthy].
    assert (key = "color_primary" ∨ key = "color_secondary" ∨ key = "outline_color")
      as [-> | [-> | ->]] by set_solver; reflexivity. }
  unfold combos, spins. cbn [fmap list_fmap].
  rewrite Hfp, Hbg, Htx, Hcv, Hhw, Hf1, Hf2, Hs1, Hs2, Hs3, Hpath'.
  rewrite !Hkeep by (done || set_solver).
  rewrite !restored_choice by done.
  rewrite !restored_size by done.
  rewrite (proj2 (truthy_nonempty (ffmpeg_path w)) Hff). done.
Qed.

Lemma load_after_save_restores_state_witness :
  ∃ w'',
    load_project sample_env "song.kproj"
      (Gui (set_ffmpeg_path "/opt/ffmpeg"
              (set_font_size_spin_primary (Spin 10 300 200)
                 (set_settings ∅ (window (started sample_env)))))
         ∅
         (projects (save_project "song.kproj" Written
                      (Gui (window (started sample_env)) ∅ ∅)).2))
      = (Ok tt,
         Gui w'' ∅
           (projects (save_project "song.kproj" Written
                        (Gui (window (started sample_env)) ∅ ∅)).2)) ∧
    file_paths w'' = file_paths (window (started sample_env)) ∧
    currentText <$> combos w'' = currentText <$> combos (window (started sample_env)) ∧
    value <$> spins w'' = value <$> spins (window (started sample_env)) ∧
    settings w'' !! "color_primary" = settings (window (started sample_env)) !! "color_primary" ∧
    settings w'' !! "color_secondary" =
      settings (window (started sample_env)) !! "color_secondary" ∧
    settings w'' !! "outline_color" = settings (window (started sample_env)) !! "outline_color" ∧
    ffmpeg_path w'' = ffmpeg_path (window (started sample_env)) ∧
    dialogs w'' =
      dialogs (set_ffmpeg_path "/opt/ffmpeg"
                 (set_font_size_spin_primary (Spin 10 300 200)
                    (set_settings ∅ (window (started sample_env))))).
Proof.
  apply (load_after_save_restores_state sample_env "song.kproj"
           (window (started sample_env))
           (set_ffmpeg_path "/opt/ffmpeg"
              (set_font_size_spin_primary (Spin 10 300 200)
                 (set_settings ∅ (window (started sample_env)))))
           ∅ ∅ ∅).
  - reflexivity.
  - split_and!; vm_compute; repeat constructor; discriminate.
  - split_and!; [vm_compute; repeat constructor|vm_compute; repeat constructor; discriminate|].
    assert (spins (window (started sample_env)) =
              [Spin 10 300 56; Spin 10 300 48; Spin 0 20 3]) as ->
      by (vm_compute; reflexivity).
    repeat constructor; unfold fits_c_int; simpl; lia.
  - split; vm_compute; repeat constructor.
Defined.

(** The state comes back because the document holds it: a document that
    was saved from another state restores that other state. *)
Example loading_restores_what_was_saved :
  ffmpeg_path
    (window (load_project sample_env "song.kproj"
               (Gui (window (started sample_env)) ∅
                  (projects (save_project "song.kproj" Written
                               (Gui (set_ffmpeg_path "/opt/ffmpeg" (window (started sample_env)))
                                  ∅ ∅)).2))).2)
    = "/opt/ffmpeg" ∧
  ffmpeg_path (window (started sample_env)) = "ffmpeg".
Proof. split; vm_compute; reflexivity. Qed.

(* ================================================================== *)
(** * Further properties of the code *)

(** ** The relay: status lines and the highest report *)

Lemma statuses_app (l1 l2 : list signal) :
  statuses (l1 ++ l2) = statuses l1 ++ statuses l2.
Proof.
  induction l1 as [|s l1 IH]; simpl; [done|].
  destruct s; simpl; by rewrite ?IH.
Qed.

Lemma video_signals_statuses (l : list engine_step) :
  ∀ last, statuses (video_signals last l) = status_calls l.
Proof.
  induction l as [|s l IH]; intros last; simpl; [done|].
  destruct s as [message|p|path f]; simpl; rewrite ?IH; try done.
  destruct (gt p last); simpl; by rewrite IH.
Qed.

Lemma gt_false (a b : number) : gt a b = false ↔ (rational a ≤ rational b)%Qc.
Proof. unfold gt. rewrite bool_decide_eq_false. symmetry. apply Qcle_ngt. Qed.

Lemma gt_true (a b : number) : gt a b = true ↔ (rational b < rational a)%Qc.
Proof. unfold gt. by rewrite bool_decide_eq_true. Qed.

Lemma last_cons_default {A} (a p : A) (l : list A) :
  default a (last (p :: l)) = default p (last l).
Proof. rewrite last_cons. by destruct (last l). Qed.

(** The last number a relay forwards, or its starting value when it
    forwards none, is not exceeded by any report. *)
Lemma forwarded_last_highest (l : list number) :
  ∀ a,
    Forall (λ p, gt p (default a (last (forwarded a l))) = false) l ∧
    (rational a ≤ rational (default a (last (forwarded a l))))%Qc.
Proof.
  induction l as [|p l IH]; intros a; simpl; [split; [constructor|apply Qcle_refl]|].
  destruct (gt p a) eqn:Hp.
  - rewrite last_cons_default. destruct (IH p) as [Hall Hle]. split.
    + constructor; [by apply gt_false|done].
    + apply gt_true in Hp. eapply Qcle_trans; [apply Qclt_le_weak, Hp|done].
  - destruct (IH a) as [Hall Hle]. split; [|done].
    constructor; [|done]. apply gt_false. apply gt_false in Hp. by eapply Qcle_trans.
Qed.

Lemma forwarded_nil (l : list number) :
  ∀ a, forwarded a l = [] ↔ Forall (λ p, gt p a = false) l.
Proof.
  induction l as [|p l IH]; intros a; simpl; [by split|].
  destruct (gt p a) eqn:Hp.
  - split; [discriminate|]. intros H. inversion H; subst. congruence.
  - rewrite IH. split; [by constructor|]. intros H. by inversion H.
Qed.

Lemma foldl_max_ge (l : list Z) : ∀ a, a ≤ foldl Z.max a l.
Proof.
  induction l as [|p l IH]; intros a; simpl; [lia|].
  specialize (IH (Z.max a p)). lia.
Qed.

Lemma forwarded_last (signal_int : number → Z) (l : list Z) :
  faithful signal_int → Forall fits_c_int l →
  ∀ a,
    last (signal_int <$> forwarded (Int a) (Int <$> l)) =
      if bool_decide (foldl Z.max a l > a) then Some (foldl Z.max a l) else None.
Proof.
  intros Hf. induction 1 as [|p l Hp _ IH]; intros a.
  - simpl. by rewrite bool_decide_false by lia.
  - rewrite fmap_cons. cbn [forwarded foldl]. rewrite gt_Int. case_bool_decide as Hpa.
    + replace (Z.max a p) with p by lia.
      pose proof (foldl_max_ge l p) as Hge.
      rewrite bool_decide_true by lia.
      specialize (IH p). rewrite fmap_cons, (Hf p Hp).
      destruct (signal_int <$> forwarded (Int p) (Int <$> l)) as [|q rest] eqn:Hfw.
      * simpl in *. case_bool_decide as Hm; [done|]. f_equal. lia.
      * change (last (p :: q :: rest)) with (last (q :: rest)).
        destruct (decide (foldl Z.max p l > p)) as [Hm|Hm].
        -- by rewrite bool_decide_true in IH by done.
        -- rewrite bool_decide_false in IH by done. by apply last_None in IH.
    + replace (Z.max a p) with a by lia. apply IH.
Qed.

Lemma deliver_all_video (env : Env) (l : list engine_step) :
  ∀ last w fs pj,
    ∃ pb,
      deliver_all env (video_signals last l) (Gui w fs pj) =
        (Ok tt, Gui (set_progress_bar pb (set_log_box (log_box w ++ status_calls l) w)) fs pj).
Proof.
  induction l as [|s l IH]; intros last w fs pj.
  - exists (progress_bar w). destruct w. simpl. exec. by rewrite app_nil_r.
  - destruct s as [message|p|path f]; simpl.
    + destruct (IH last (set_log_box (log_box w ++ [message]) w) fs pj) as (pb & Hrun).
      exists pb. unfold log_message, update. run. rewrite Hrun.
      destruct w. exec. by rewrite <- app_assoc.
    + destruct (gt p last) eqn:Hp; [|apply IH].
      destruct (IH p (progress_bar_setValue (signal_int env p) w) fs pj) as (pb & Hrun).
      exists pb. simpl. unfold update. run. rewrite Hrun.
      destruct w. unfold progress_bar_setValue. case_bool_decide; by exec.
    + apply IH.
Qed.

Lemma render_job_spec (env : Env) (eng : engine) (g : gui) :
  ∃ t pb,
    VideoWorker_run eng (thread_start None (files g)) = (Ok tt, t) ∧
    render_job env eng g =
      generation_finished
        match raises eng with
        | None => "成功！视频已生成。"
        | Some e => "发生错误: " +:+ exn_str e
        end
        (Gui (set_progress_bar pb
                (set_log_box (log_box (window g) ++ status_calls (steps eng)) (window g)))
             (disk t) (projects g)).
Proof.
  destruct g as [w fs pj]. simpl.
  destruct (VideoWorker_run_spec eng None fs) as (t & Hrun & Hem).
  destruct (deliver_all_video env (steps eng) (Int (-1)) w (disk t) pj) as (pb & Hdel).
  exists t, pb. split; [done|].
  unfold render_job. simpl. rewrite Hrun. simpl. rewrite Hem, deliver_all_app, Hdel.
  simpl. unfold mbind, mret, M_bind, M_ret.
  by destruct (generation_finished _ _) as [[[]|e] g'].
Qed.

(** X1: the relay passes every status line on: the [status] signals a
    render worker emits are exactly the engine's status calls, in order,
    and the main window hands each of them unchanged to the [append] of
    its log box, in that order, followed by the line for the terminal
    message. *)
Theorem status_lines_pass_through :
  ∀ (env : Env) (eng : engine) (l : option QtProglogLogger) (g : gui),
    statuses (emitted (VideoWorker_run eng (thread_start l (files g))).2) =
      status_calls (steps eng) ∧
    ∃ g' message,
      render_job env eng g = (Ok tt, g') ∧
      terminal (emitted (VideoWorker_run eng (thread_start None (files g))).2) =
        [Finished message] ∧
      log_box (window g') =
        log_box (window g) ++ status_calls (steps eng) ++ ["--- " +:+ message +:+ " ---"].
Proof.
  intros env eng l g. split.
  - destruct (VideoWorker_run_spec eng l (files g)) as (t & Hrun & Hem).
    rewrite Hrun. simpl. rewrite Hem, statuses_app, video_signals_statuses.
    simpl. by rewrite app_nil_r.
  - destruct (render_job_spec env eng g) as (t & pb & Hrun & Hjob).
    destruct (VideoWorker_run_spec eng None (files g)) as (t' & Hrun' & Hem).
    eexists _, _. split_and!.
    + rewrite Hjob, generation_finished_spec. reflexivity.
    + rewrite Hrun'. simpl. rewrite Hem, terminal_app, video_signals_terminal. reflexivity.
    + destruct g as [w fs pj]. destruct w.
      match goal with |- context [contains ?a ?b] => destruct (contains a b) end;
        exec; by rewrite <- app_assoc.
Qed.

(** X2 (as amended): the last number a render job's [progress] signal is
    emitted with is one of the engine's reports, it is above -1 and no
    report exceeds it; nothing is emitted exactly when no report exceeds
    -1.  The slot receives that number converted to a C [int]: when the
    conversion leaves integers that fit a C [int] as they are and the
    engine reports only such integers, the last value delivered is the
    highest value reported. *)
Theorem last_delivered_is_highest_report :
  ∀ (signal_int : number → Z) (eng : engine) (l : option QtProglogLogger)
    (d : gmap string file),
    (∀ m,
       last (progress_args (emitted (VideoWorker_run eng (thread_start l d)).2)) = Some m →
       m ∈ reported (steps eng) ∧
       gt m (Int (-1)) = true ∧
       Forall (λ p, gt p m = false) (reported (steps eng))) ∧
    (progress_args (emitted (VideoWorker_run eng (thread_start l d)).2) = [] ↔
     Forall (λ p, gt p (Int (-1)) = false) (reported (steps eng))) ∧
    last (delivered signal_int (emitted (VideoWorker_run eng (thread_start l d)).2)) =
      signal_int <$> last (progress_args (emitted (VideoWorker_run eng (thread_start l d)).2)) ∧
    (faithful signal_int →
     ∀ ns,
       reported (steps eng) = Int <$> ns →
       Forall fits_c_int ns →
       last (delivered signal_int (emitted (VideoWorker_run eng (thread_start l d)).2)) =
         if bool_decide (foldl Z.max (-1) ns > -1)
         then Some (foldl Z.max (-1) ns)
         else None).
Proof.
  intros signal_int eng l d.
  rewrite VideoWorker_run_delivered, VideoWorker_run_progress. split_and!.
  - intros m Hm.
    destruct (forwarded_last_highest (reported (steps eng)) (Int (-1))) as [Hall _].
    rewrite Hm in Hall. simpl in Hall.
    pose proof (last_Some_elem_of _ _ Hm) as Hin. split_and!.
    + assert (Forall (λ p, p ∈ reported (steps eng)) (reported (steps eng))) as Hself
        by (by apply Forall_forall).
      pose proof (forwarded_Forall _ _ (Int (-1)) Hself) as Hsub.
      rewrite Forall_forall in Hsub. by apply Hsub.
    + pose proof (forwarded_lower_bound (reported (steps eng)) (Int (-1))) as Hlow.
      rewrite Forall_forall in Hlow. by apply Hlow.
    + done.
  - apply forwarded_nil.
  - apply fmap_last.
  - intros Hf ns -> Hfit. by apply forwarded_last.
Qed.

Lemma last_delivered_is_highest_report_witness :
  last (delivered qt_int
          (emitted (VideoWorker_run
                      (Engine [LogProgress (Int 10); LogProgress (Int 70); LogProgress (Int 30)]
                         None)
                      (thread_start None ∅)).2)) = Some 70.
Proof.
  refine (proj2 (proj2 (proj2
            (last_delivered_is_highest_report qt_int
               (Engine [LogProgress (Int 10); LogProgress (Int 70); LogProgress (Int 30)] None)
               None ∅))) _ [10; 70; 30] eq_refl _).
  - intros n Hn. unfold fits_c_int in Hn. unfold qt_int, wrap32.
    rewrite Z.mod_small; lia.
  - repeat constructor; unfold fits_c_int; lia.
Defined.

(** ** Preview workers and progress reports *)

Lemma engine_steps_run_preview_reports (l : list engine_step) :
  ∀ ev d pr,
    (Forall (λ p, gt p (Int (-1)) = false) (reported l) →
     ∃ t1,
       engine_steps_run l (Thread ev (Some (Logger PreviewWorker (Int (-1)))) d pr) =
         (Ok tt, t1)) ∧
    (Exists (λ p, gt p (Int (-1)) = true) (reported l) →
     ∃ t1,
       engine_steps_run l (Thread ev (Some (Logger PreviewWorker (Int (-1)))) d pr) =
         (Exc (Raise AttributeError "'PreviewWorker' object has no attribute 'progress'"), t1)).
Proof.
  induction l as [|s l IH]; intros ev d pr.
  - split; [by eexists|]. intros H. by apply Exists_nil in H.
  - destruct s as [message|p|path f]; simpl.
    + unfold status_update, params_logger, emit. run. apply IH.
    + unfold progress_update, params_logger. run. destruct (gt p (Int (-1))) eqn:Hp.
      * unfold qt_emitter_progress_emit. run. split.
        -- intros H. inversion H; subst. congruence.
        -- intros _. by eexists.
      * split.
        -- intros H. inversion H; subst. by apply IH.
        -- intros H. apply Exists_cons in H as [H|H]; [congruence|]. by apply IH.
    + unfold set_disk. run. apply IH.
Qed.

(** X3: a preview worker declares no [progress] signal.  When the engine
    of a preview job reports a percent above -1, the relay's attempt to
    forward it raises [AttributeError]; the job then ends with the null
    pixmap and the failure text built from that error, whatever the engine
    wrote. *)
Theorem preview_progress_report_fails_the_job :
  ∀ (signal_int : number → Z) (eng : engine) (path : string) (l : option QtProglogLogger)
    (d : gmap string file),
    Exists (λ p, gt p (Int (-1)) = true) (reported (steps eng)) →
    ∃ t,
      PreviewWorker_run path eng (thread_start l d) = (Ok tt, t) ∧
      last (emitted t) =
        Some (PreviewFinished None
                "生成预览时发生错误: 'PreviewWorker' object has no attribute 'progress'") ∧
      delivered signal_int (emitted t) = [].
Proof.
  intros signal_int eng path l d Hrep.
  destruct (engine_steps_run_preview_reports (steps eng) [] d []) as [_ H].
  destruct (H Hrep) as (t1 & Hsteps).
  assert (engine_call eng (job_entry PreviewWorker d) =
            (Exc (Raise AttributeError "'PreviewWorker' object has no attribute 'progress'"), t1))
    as Hcall.
  { unfold engine_call, job_entry, QtProglogLogger_init. run. by rewrite Hsteps. }
  destruct (engine_call_preview eng d) as (r & t1' & Hcall' & Hd & _).
  rewrite Hcall in Hcall'. injection Hcall' as <- <-.
  eexists. split; [by apply PreviewWorker_run_raised|].
  simpl. split; [apply last_snoc|]. unfold delivered. rewrite progress_args_app, Hd. done.
Qed.

Lemma preview_progress_report_fails_the_job_witness :
  ∃ t,
    PreviewWorker_run "tmp/preview_00.png"
      (Engine [LogStatus "frame"; LogProgress (Int (-5)); LogProgress (Int 0);
               WriteFile "tmp/preview_00.png" (File 2048 (Some 7%nat) false)] None)
      (thread_start None ∅) = (Ok tt, t) ∧
    last (emitted t) =
      Some (PreviewFinished None
              "生成预览时发生错误: 'PreviewWorker' object has no attribute 'progress'") ∧
    delivered qt_int (emitted t) = [].
Proof.
  apply (preview_progress_report_fails_the_job qt_int
           (Engine [LogStatus "frame"; LogProgress (Int (-5)); LogProgress (Int 0);
                    WriteFile "tmp/preview_00.png" (File 2048 (Some 7%nat) false)] None)).
  simpl. apply Exists_cons_tl, Exists_cons_hd. reflexivity.
Defined.

(** ** A render job from start to end *)

Lemma failure_prefix_has_no_marker (text : string) :
  contains "成功" ("发生错误: " +:+ text) = contains "成功" text.
Proof. reflexivity. Qed.

(** X4: a render job always ends normally with the two buttons enabled
    again and the disk as the engine left it.  When the engine returned,
    the success dialog is shown and the bar is set to 100; when it raised
    an exception whose text does not contain the success marker, the
    failure dialog with that text is shown and the bar is set to 0. *)
Theorem render_job_ends_with_one_verdict :
  ∀ (env : Env) (eng : engine) (g : gui),
    ∃ t g',
      VideoWorker_run eng (thread_start None (files g)) = (Ok tt, t) ∧
      render_job env eng g = (Ok tt, g') ∧
      buttons_enabled (window g') = true ∧
      files g' = disk t ∧
      projects g' = projects g ∧
      (raises eng = None →
       dialogs (window g') =
         dialogs (window g) ++ [QMessageBox_information "完成" "成功！视频已生成。"] ∧
       progress_bar (window g') = 100) ∧
      (∀ x, raises eng = Some x →
            contains "成功" (exn_str x) = false →
            dialogs (window g') =
              dialogs (window g) ++
              [QMessageBox_critical "失败"
                 ("生成失败！" +:+ newline +:+ "错误: " +:+ ("发生错误: " +:+ exn_str x)
                  +:+ newline +:+ newline +:+ "请检查日志获取详细信息。")] ∧
            progress_bar (window g') = 0).
Proof.
  intros env eng g. destruct (render_job_spec env eng g) as (t & pb & Hrun & Hjob).
  rewrite Hjob, generation_finished_spec. exists t. eexists. split; [done|].
  split; [reflexivity|].
  destruct g as [w fs pj]. destruct w. destruct (raises eng) as [x|].
  - rewrite failure_prefix_has_no_marker.
    destruct (contains "成功" (exn_str x)) eqn:Hc; exec; split_and!; try done;
      intros x' [= <-] Hx; first [congruence | by split].
  - change (contains "成功" "成功！视频已生成。") with true. exec. by split_and!.
Qed.

Lemma render_job_ends_with_one_verdict_witness :
  ∃ g',
    render_job sample_env
      (Engine [LogProgress (Int 10)] (Some (Raise Exception "ffmpeg exited with code 1")))
      (Gui (setup_ui sample_env ∅ "font" "tmp") ∅ ∅) = (Ok tt, g') ∧
    progress_bar (window g') = 0 ∧
    buttons_enabled (window g') = true.
Proof.
  destruct (render_job_ends_with_one_verdict sample_env
              (Engine [LogProgress (Int 10)] (Some (Raise Exception "ffmpeg exited with code 1")))
              (Gui (setup_ui sample_env ∅ "font" "tmp") ∅ ∅))
    as (t & g' & _ & Hjob & Hbuttons & _ & _ & _ & Hfail).
  exists g'. split_and!; [exact Hjob| |exact Hbuttons].
  by destruct (Hfail (Raise Exception "ffmpeg exited with code 1") eq_refl eq_refl).
Defined.

(** ** The verdict of a preview job *)

(** X5: a preview worker reports success, the empty error text, exactly
    when the engine call returned and left at the output path a file that
    is not empty and loads as an image; the pixmap it sends is then that
    image.  In every other case it sends the null pixmap. *)
Theorem preview_succeeds_only_with_a_loadable_image :
  ∀ (path : string) (eng : engine) (l : option QtProglogLogger) (d : gmap string file),
    ∃ t pixmap message,
      PreviewWorker_run path eng (thread_start l d) = (Ok tt, t) ∧
      last (emitted t) = Some (PreviewFinished pixmap message) ∧
      (message = "" ↔
       ∃ t1 f img,
         engine_call eng (job_entry PreviewWorker d) = (Ok tt, t1) ∧
         disk t1 !! path = Some f ∧ size f ≠ 0 ∧ picture f = Some img ∧
         pixmap = Some img) ∧
      (message ≠ "" → pixmap = None).
Proof.
  intros path eng l d.
  destruct (engine_call_preview eng d) as ([[]|x] & t1 & Hcall & _).
  - destruct (PreviewWorker_run_returned path eng l d t1 Hcall) as (t & Hrun & Hem & _).
    assert (∀ P : nat → Prop,
              (∃ t1' f img,
                 engine_call eng (job_entry PreviewWorker d) = (Ok tt, t1') ∧
                 disk t1' !! path = Some f ∧ size f ≠ 0 ∧ picture f = Some img ∧ P img) →
              ∃ f img, disk t1 !! path = Some f ∧ size f ≠ 0 ∧ picture f = Some img ∧ P img)
      as Hsame.
    { intros P (t1' & f & img & Hcall' & H). rewrite Hcall in Hcall'.
      injection Hcall' as <-. by exists f, img. }
    unfold preview_verdict in Hem.
    destruct (disk t1 !! path) as [f|] eqn:Hf.
    + destruct (decide (size f = 0)) as [Hz|Hz].
      * rewrite bool_decide_true in Hem by done.
        eexists t, None, _. split_and!; [exact Hrun|rewrite Hem; apply last_snoc| |done].
        split; [discriminate|]. intros H.
        apply (Hsame (λ img, _ = Some img)) in H as (f' & img & Hf' & Hsz & _). by simplify_eq.
      * rewrite bool_decide_false in Hem by done.
        destruct (picture f) as [img|] eqn:Hp.
        -- eexists t, (Some img), "".
           split_and!; [exact Hrun|rewrite Hem; apply last_snoc| |done].
           split; [|done]. intros _. by exists t1, f, img.
        -- eexists t, None, _. split_and!; [exact Hrun|rewrite Hem; apply last_snoc| |done].
           split; [discriminate|]. intros H.
           apply (Hsame (λ img, _ = Some img)) in H as (f' & img & Hf' & _ & Hp' & _). simplify_eq.
    + eexists t, None, _. split_and!; [exact Hrun|rewrite Hem; apply last_snoc| |done].
      split; [discriminate|]. intros H.
      apply (Hsame (λ img, _ = Some img)) in H as (f' & img & Hf' & _). discriminate.
  - eexists _, None, _. split; [by apply PreviewWorker_run_raised|].
    split; [apply last_snoc|]. split; [|done]. split; [discriminate|].
    intros (t1' & f' & img & Hcall' & _). rewrite Hcall in Hcall'. discriminate.
Qed.

(** X6: the slot of a finished preview always returns normally, enables
    the buttons again and touches no file other than the scratch path the
    window remembers; when no preview was ever requested it removes
    nothing.  A success shows the pixmap and no dialog. *)
Theorem preview_slot_touches_only_the_scratch_file :
  ∀ (pixmap : QPixmap) (message : string) (g : gui),
    ∃ g',
      on_preview_finished pixmap message g = (Ok tt, g') ∧
      buttons_enabled (window g') = true ∧
      projects g' = projects g ∧
      (∀ p, preview_image_path (window g) ≠ Some p → files g' !! p = files g !! p) ∧
      (preview_image_path (window g) = None → files g' = files g) ∧
      (message = "" →
       dialogs (window g') = dialogs (window g) ∧
       preview_display (window g') = setPixmap pixmap).
Proof.
  intros pixmap message [w fs pj]. destruct w.
  unfold on_preview_finished, os_remove, os_path_exists. exec.
  destruct (truthy message) eqn:Hm;
    (destruct preview_image_path0 as [path|];
     [destruct (fs !! path) as [f|] eqn:Hf; [destruct (locked f) eqn:Hl|]|]);
    exec; rewrite ?Hf; simpl; rewrite ?Hf; exec; rewrite ?Hl; simpl;
    eexists; (split; [reflexivity|]); exec;
    (split_and!; [done|done| |done|]);
    try (intros p Hp; apply lookup_delete_ne; congruence);
    try done;
    intros ->; discriminate.
Qed.

(** ** Starting a render job *)

Lemma gather_parameters_some (env : Env) (g : gui) (params : JobParameters) :
  (_gather_parameters env g).1 = Ok (Some params) →
  _gather_parameters env g = (Ok (Some params), g).
Proof.
  destruct (gather_parameters_spec env g) as (r & reports & Hg & Hr).
  rewrite Hg. simpl. intros [= ->].
  destruct (first_invalid g); [by destruct Hr|].
  destruct (negb _ || negb _); [by destruct Hr|].
  destruct Hr as [-> _]. rewrite set_dialogs_nil. by destruct g.
Qed.

Lemma gather_parameters_frame (env : Env) (w : MainWindow) fs pj lg ds :
  (_gather_parameters env (Gui (set_dialogs ds (set_log_box lg w)) fs pj)).1 =
  (_gather_parameters env (Gui w fs pj)).1.
Proof.
  destruct (gather_parameters_spec env (Gui (set_dialogs ds (set_log_box lg w)) fs pj))
    as (r & reports & Hg & Hr).
  destruct (gather_parameters_spec env (Gui w fs pj)) as (r' & reports' & Hg' & Hr').
  rewrite Hg, Hg'. simpl. rewrite first_invalid_frame in Hr.
  destruct w. simpl in *. exec.
  destruct (first_invalid _); [destruct Hr as [-> _], Hr' as [-> _]; done|].
  destruct (negb _ || negb _); [destruct Hr as [-> _], Hr' as [-> _]; done|].
  destruct Hr as (_ & a & c & l & Ha & Hc & Hl & ->).
  destruct Hr' as (_ & a' & c' & l' & Ha' & Hc' & Hl' & ->).
  by simplify_eq.
Qed.

(** X7: with a working engine and parameters that compile,
    [start_generation] starts a render worker on exactly those parameters,
    the chosen output path and the selected acceleration mode, after
    saving the settings, clearing the log, disabling the buttons and
    resetting the bar to 0.  When the save-file dialog is cancelled it
    starts nothing, saves nothing and leaves the buttons as they are. *)
Theorem start_generation_starts_the_compiled_job :
  ∀ (env : Env) (output_path : string) (g : gui) (params : JobParameters),
    probe_version env (ffmpeg_path (window g)) = Ok tt →
    (_gather_parameters env g).1 = Ok (Some params) →
    ∃ g',
      start_generation env output_path g =
        (Ok (if truthy output_path
             then Some (RenderJob params output_path (currentText (hw_accel_combo (window g))))
             else None), g') ∧
      files g' = files g ∧
      if truthy output_path
      then buttons_enabled (window g') = false ∧
           progress_bar (window g') = 0 ∧
           log_box (window g') = ["参数验证通过，准备开始生成..."] ∧
           settings (window g') = settings (window (save_settings g).2)
      else buttons_enabled (window g') = buttons_enabled (window g) ∧
           settings (window g') = settings (window g) ∧
           progress_bar (window g') = progress_bar (window g).
Proof.
  intros env output_path [w fs pj] params Hprobe Hparams.
  pose proof (gather_parameters_frame env w fs pj
                (log_box w ++ ["当前 FFmpeg 路径: " +:+ ffmpeg_path w; "FFmpeg 环境检测成功。"])
                (dialogs w)) as Hframe.
  rewrite Hparams in Hframe. apply gather_parameters_some in Hframe.
  destruct w. simpl in Hprobe.
  unfold start_generation, check_ffmpeg, save_settings. exec. rewrite Hprobe. exec.
  unfold set_dialogs, set_log_box in Hframe. simpl in Hframe.
  rewrite <- app_assoc. simpl. rewrite Hframe.
  destruct (truthy output_path); exec; eexists; (split; [reflexivity|]); by split_and!.
Qed.

Lemma start_generation_starts_the_compiled_job_witness :
  ∃ params g',
    start_generation sample_env "out.mp4"
      (Gui (set_file_paths {["audio" := "a.mp3"; "cover" := "c.png"; "lrc" := "l.lrc"]}
              (window (started sample_env)))
         {["a.mp3" := File 1 None false; "c.png" := File 1 (Some 1%nat) false;
           "l.lrc" := File 1 None false]} ∅)
      = (Ok (Some (RenderJob params "out.mp4" "无 (软件编码 x264)")), g') ∧
    audio_path params = "a.mp3" ∧
    buttons_enabled (window g') = false.
Proof.
  destruct (start_generation_starts_the_compiled_job sample_env "out.mp4"
              (Gui (set_file_paths {["audio" := "a.mp3"; "cover" := "c.png"; "lrc" := "l.lrc"]}
                      (window (started sample_env)))
                 {["a.mp3" := File 1 None false; "c.png" := File 1 (Some 1%nat) false;
                   "l.lrc" := File 1 None false]} ∅)
              (Params "a.mp3" "c.png" "l.lrc" "font/NotoSans.ttf" 56 "font/NotoSans.ttf" 48
                 (Some "#FFFFFF") (Some "#DDDDDD") (Some "#000000") 3 "fade" "slide" "spin"
                 "ffmpeg"))
    as (g' & Hrun & _ & Hbuttons & _).
  - reflexivity.
  - vm_compute. reflexivity.
  - eexists _, g'. split_and!; [exact Hrun|reflexivity|exact Hbuttons].
Defined.

(** ** Persisted settings *)

Lemma save_settings_stored (g : gui) :
  ∃ w',
    save_settings g = (Ok tt, Gui w' (files g) (projects g)) ∧
    settings w' !! "ffmpeg_path" = Some (ffmpeg_path (window g)) ∧
    settings w' !! "background_anim" = Some (currentText (bg_anim_combo (window g))) ∧
    settings w' !! "text_anim" = Some (currentText (text_anim_combo (window g))) ∧
    settings w' !! "cover_anim" = Some (currentText (cover_anim_combo (window g))) ∧
    settings w' !! "hw_accel" = Some (currentText (hw_accel_combo (window g))).
Proof.
  destruct g as [w fs pj]. destruct w. unfold save_settings. exec.
  eexists. split; [reflexivity|]. exec.
  split_and!; by simplify_map_eq.
Qed.

(** X8: [save_settings] always returns normally and writes exactly five
    keys: the engine path and the four selections of background, text and
    cover animation and acceleration mode.  Every other key of the store,
    among them the font choices, the font sizes and the outline width,
    keeps its value, and no selection, size or path of the window changes. *)
Theorem save_settings_writes_five_keys :
  ∀ (g : gui),
    ∃ w',
      save_settings g = (Ok tt, Gui w' (files g) (projects g)) ∧
      settings w' !! "ffmpeg_path" = Some (ffmpeg_path (window g)) ∧
      settings w' !! "background_anim" = Some (currentText (bg_anim_combo (window g))) ∧
      settings w' !! "text_anim" = Some (currentText (text_anim_combo (window g))) ∧
      settings w' !! "cover_anim" = Some (currentText (cover_anim_combo (window g))) ∧
      settings w' !! "hw_accel" = Some (currentText (hw_accel_combo (window g))) ∧
      (∀ key, key ∉ saved_keys → settings w' !! key = settings (window g) !! key) ∧
      combos w' = combos (window g) ∧
      spins w' = spins (window g) ∧
      ffmpeg_path w' = ffmpeg_path (window g) ∧
      file_paths w' = file_paths (window g).
Proof.
  intros [w fs pj]. destruct w. unfold save_settings. exec.
  eexists. split; [reflexivity|]. exec.
  split_and!; try done; try by simplify_map_eq.
  intros key Hkey. unfold saved_keys in Hkey.
  rewrite !lookup_insert_ne; [done|set_solver..].
Qed.

Lemma load_settings_first_fields (env : Env) w fs pj :
  ffmpeg_path (window (load_settings env (Gui w fs pj)).2) =
    default "ffmpeg" (settings w !! "ffmpeg_path") ∧
  bg_anim_combo (window (load_settings env (Gui w fs pj)).2) =
    _set_combo_text (bg_anim_combo w) (settings w !! "background_anim") ∧
  text_anim_combo (window (load_settings env (Gui w fs pj)).2) =
    _set_combo_text (text_anim_combo w) (settings w !! "text_anim") ∧
  cover_anim_combo (window (load_settings env (Gui w fs pj)).2) =
    _set_combo_text (cover_anim_combo w) (settings w !! "cover_anim") ∧
  hw_accel_combo (window (load_settings env (Gui w fs pj)).2) =
    _set_combo_text (hw_accel_combo w) (settings w !! "hw_accel").
Proof. destruct w. load_settings_cases env; by split_and!. Qed.

(** X9: what [save_settings] stores is what [load_settings] restores at
    the next start: loading into a window with the same catalogs whose
    store is the saved one brings back the engine path and the four
    selections that were current when saving, whatever the rest of the
    store holds. *)
Theorem load_settings_restores_saved_selection :
  ∀ (env : Env) (g : gui) (w' : MainWindow) (fs' : gmap string file)
    (pj' : gmap string (outcome project_data)),
    Forall (λ c, selected c ∧ currentText c ≠ "")
      [bg_anim_combo (window g); text_anim_combo (window g); cover_anim_combo (window g);
       hw_accel_combo (window g)] →
    Forall2 (λ c c', items c' = items c)
      [bg_anim_combo (window g); text_anim_combo (window g); cover_anim_combo (window g);
       hw_accel_combo (window g)]
      [bg_anim_combo w'; text_anim_combo w'; cover_anim_combo w'; hw_accel_combo w'] →
    settings w' = settings (window (save_settings g).2) →
    ffmpeg_path (window (load_settings env (Gui w' fs' pj')).2) = ffmpeg_path (window g) ∧
    currentText (bg_anim_combo (window (load_settings env (Gui w' fs' pj')).2)) =
      currentText (bg_anim_combo (window g)) ∧
    currentText (text_anim_combo (window (load_settings env (Gui w' fs' pj')).2)) =
      currentText (text_anim_combo (window g)) ∧
    currentText (cover_anim_combo (window (load_settings env (Gui w' fs' pj')).2)) =
      currentText (cover_anim_combo (window g)) ∧
    currentText (hw_accel_combo (window (load_settings env (Gui w' fs' pj')).2)) =
      currentText (hw_accel_combo (window g)).
Proof.
  intros env g w' fs' pj' Hsel Hitems Hstore.
  destruct (save_settings_stored g)
    as (ws & Hsave & Hff & Hbg & Htx & Hcv & Hhw).
  rewrite Hsave in Hstore. simpl in Hstore.
  destruct (load_settings_first_fields env w' fs' pj') as (Lff & Lbg & Ltx & Lcv & Lhw).
  rewrite Lff, Lbg, Ltx, Lcv, Lhw, Hstore, Hff, Hbg, Htx, Hcv, Hhw.
  repeat match goal with
         | H : Forall _ (_ :: _) |- _ => apply Forall_cons in H as [[? ?] H]
         | H : Forall2 _ (_ :: _) (_ :: _) |- _ => apply Forall2_cons in H as [? H]
         end.
  rewrite !restored_choice by done. done.
Qed.

Lemma load_settings_restores_saved_selection_witness :
  currentText (hw_accel_combo
    (window (load_settings sample_env
       (Gui (set_settings
               (settings (window (save_settings
                  (Gui (set_hw_accel_combo
                          (setCurrentText "AMD (h264_amf)"
                             (hw_accel_combo (setup_ui sample_env ∅ "font" "tmp")))
                          (setup_ui sample_env ∅ "font" "tmp")) ∅ ∅)).2))
               (setup_ui sample_env ∅ "font" "tmp")) ∅ ∅)).2))
  = "AMD (h264_amf)".
Proof.
  refine (proj2 (proj2 (proj2 (proj2
    (load_settings_restores_saved_selection sample_env
       (Gui (set_hw_accel_combo
               (setCurrentText "AMD (h264_amf)"
                  (hw_accel_combo (setup_ui sample_env ∅ "font" "tmp")))
               (setup_ui sample_env ∅ "font" "tmp")) ∅ ∅)
       (set_settings
          (settings (window (save_settings
             (Gui (set_hw_accel_combo
                     (setCurrentText "AMD (h264_amf)"
                        (hw_accel_combo (setup_ui sample_env ∅ "font" "tmp")))
                     (setup_ui sample_env ∅ "font" "tmp")) ∅ ∅)).2))
          (setup_ui sample_env ∅ "font" "tmp"))
       ∅ ∅ _ _ _))))).
  - vm_compute. repeat constructor; discriminate.
  - vm_compute. repeat constructor.
  - vm_compute. reflexivity.
Defined.



(** ** Project files that cannot be read or written *)



(** X12 (as amended): [save_project] always returns normally and changes
    nothing in the window but the log and the dialogs shown.  A cancelled
    dialog only hands one line to the log.  A successful write stores the
    snapshot of the window under the chosen path and logs it.  A failed
    write shows one error dialog with the text of the exception and logs
    nothing; when [open] failed, the project files are as they were, and
    when the failure came after [open] had truncated the file, the chosen
    path is left with what remains of it.  No other project file
    changes. *)
Theorem save_project_reports_and_keeps_state :
  ∀ (path : string) (written : write_result) (g : gui),
    ∃ lg ds pj',
      save_project path written g =
        (Ok tt,
         Gui (set_dialogs (dialogs (window g) ++ ds)
                (set_log_box (log_box (window g) ++ lg) (window g)))
             (files g) pj') ∧
      (∀ other, other ≠ path → pj' !! other = projects g !! other) ∧
      if truthy path
      then match written with
           | Written =>
               pj' = <[path := Ok (project_of (window g))]> (projects g) ∧
               lg = ["工程已成功保存到: " +:+ path] ∧ ds = []
           | OpenRaises e =>
               pj' = projects g ∧ lg = [] ∧
               ds = [QMessageBox_critical "错误" ("保存工程文件失败: " +:+ exn_str e)]
           | DumpRaises e remains =>
               pj' = <[path := remains]> (projects g) ∧ lg = [] ∧
               ds = [QMessageBox_critical "错误" ("保存工程文件失败: " +:+ exn_str e)]
           end
      else pj' = projects g ∧ lg = ["取消保存工程。"] ∧ ds = [].
Proof.
  intros path written [w fs pj]. destruct w. unfold save_project.
  destruct (truthy path); [destruct written as [|e|e remains]|];
    cbv beta iota delta [negb]; exec.
  - eexists [_], [], _. rewrite app_nil_r. split; [reflexivity|].
    split; [|done]. intros other Hne. by rewrite lookup_insert_ne.
  - eexists [], [_], _. rewrite app_nil_r. split; [reflexivity|]. by split.
  - eexists [], [_], _. rewrite app_nil_r. split; [reflexivity|].
    split; [|done]. intros other Hne. by rewrite lookup_insert_ne.
  - eexists [_], [], _. rewrite app_nil_r. split; [reflexivity|]. by split.
Qed.

(** A write that fails after [open] does not leave the project file as it
    was: a project that loaded before is gone. *)
Example failed_dump_truncates_the_file :
  projects
    (save_project "song.kproj"
       (DumpRaises (Raise OSError "[Errno 28] No space left on device")
          (Exc (Raise ValueError "Expecting value: line 1 column 1 (char 0)")))
       (Gui (setup_ui sample_env ∅ "font" "tmp") ∅
          {["song.kproj" := Ok (Project "3.0" None None)]})).2 !! "song.kproj"
  = Some (Exc (Raise ValueError "Expecting value: line 1 column 1 (char 0)")).
Proof. vm_compute. reflexivity. Qed.


(** ** Loading a project twice, and what a load starts *)

Lemma load_project_effects (env : Env) (path : string) (doc : project_data) w fs pj :
  truthy path = true →
  pj !! path = Some (Ok doc) →
  line_edits (window (load_project env path (Gui w fs pj)).2) =
    map_imap (λ key _, Some (default "" (default ∅ (d_file_paths doc) !! key))) (line_edits w) ∧
  audio_worker (window (load_project env path (Gui w fs pj)).2) =
    match default ∅ (d_file_paths doc) !! "audio" with
    | Some audio => if truthy audio then Some (ffmpeg_path w, audio) else audio_worker w
    | None => audio_worker w
    end ∧
  lrc_metadata (window (load_project env path (Gui w fs pj)).2) =
    match default ∅ (d_file_paths doc) !! "lrc" with
    | Some lrc =>
        if truthy lrc
        then match read_lrc_metadata env lrc with Ok metadata => metadata | Exc _ => ∅ end
        else lrc_metadata w
    | None => lrc_metadata w
    end ∧
  buttons_enabled (window (load_project env path (Gui w fs pj)).2) = buttons_enabled w ∧
  preview_image_path (window (load_project env path (Gui w fs pj)).2) = preview_image_path w.
Proof.
  intros Hpath Hdoc. destruct w.
  unfold load_project, json_load, get_audio_duration, parse_lrc_file.
  rewrite Hpath. cbv beta iota delta [negb]. exec. rewrite Hdoc. exec.
  set (s := default no_settings (d_settings doc)).
  set (fp := default ∅ (d_file_paths doc)).
  set (b1 := bool_decide (fits_c_int (default 56 (d_font_size_primary s)))).
  set (b2 := bool_decide (fits_c_int (default 48 (d_font_size_secondary s)))).
  set (b3 := bool_decide (fits_c_int (default 3 (d_outline_width s)))).
  destruct (fp !! "audio") as [audio|]; [destruct (truthy audio)|];
    (destruct (fp !! "lrc") as [lrc|];
       [destruct (truthy lrc); [destruct (read_lrc_metadata env lrc)|]|]);
    exec;
    (destruct b1; exec; [destruct b2; exec; [destruct b3; exec|]|]);
    rewrite ?load_colors_spec; exec;
    try (destruct (d_ffmpeg_path s) as [v|]; [destruct (truthy v) eqn:Hv|]; exec);
    by split_and!.
Qed.

Lemma set_combo_text_idempotent (c : QComboBox) (text : option string) :
  _set_combo_text (_set_combo_text c text) text = _set_combo_text c text.
Proof.
  destruct text as [v|]; [|done].
  destruct (decide (v = "")) as [->|Hne]; [done|].
  destruct (decide (v ∈ items c)) as [Hin|Hout].
  - rewrite (set_combo_text_takes c v Hne Hin).
    by rewrite (set_combo_text_takes (Combo (items c) v) v Hne Hin).
  - rewrite (set_combo_text_skips c (Some v)) by eauto.
    rewrite (set_combo_text_skips c (Some v)) by eauto. done.
Qed.

Lemma merged_colors_idempotent (s : settings_doc) (store : gmap string string) :
  foldl (λ store key, merged_color s key store)
    (foldl (λ store key, merged_color s key store) store
       ["color_primary"; "color_secondary"; "outline_color"])
    ["color_primary"; "color_secondary"; "outline_color"] =
  foldl (λ store key, merged_color s key store) store
    ["color_primary"; "color_secondary"; "outline_color"].
Proof.
  apply map_eq. intros key. rewrite !merged_colors_lookup.
  by destruct (bool_decide _ && truthy_opt _).
Qed.

(** X13: loading the same project file a second time changes no field of
    the settings and asset-path model: after the second load the window
    would save the same document as after the first. *)
Theorem load_project_twice_is_load_once :
  ∀ (env : Env) (path : string) (doc : project_data) (g : gui),
    path ≠ "" →
    projects g !! path = Some (Ok doc) →
    project_of (window (load_project env path (load_project env path g).2).2) =
    project_of (window (load_project env path g).2).
Proof.
  intros env path doc [w fs pj] Hne Hdoc. apply truthy_nonempty in Hne. simpl in Hdoc.
  destruct (load_project_spec env path doc w fs pj Hne Hdoc)
    as (w1 & Hrun1 & Hfp1 & Hbg1 & Htx1 & Hcv1 & Hhw1 & Hp1 & Hq1 & Ha1 & Hb1 & Hc1 & Hrest1).
  rewrite Hrun1. simpl.
  destruct (load_project_spec env path doc w1 fs pj Hne Hdoc)
    as (w2 & Hrun2 & Hfp2 & Hbg2 & Htx2 & Hcv2 & Hhw2 & Hp2 & Hq2 & Ha2 & Hb2 & Hc2 & Hrest2).
  rewrite Hrun2. simpl. unfold project_of.
  rewrite Hfp2, Hbg2, Htx2, Hcv2, Hhw2, Hp2, Hq2, Hfp1.
  rewrite Hbg1, Htx1, Hcv1, Hhw1, Hp1, Hq1.
  rewrite !set_combo_text_idempotent.
  assert (value (font_size_spin_primary w2) = value (font_size_spin_primary w1)) as ->.
  { rewrite Ha2, Ha1. by destruct (bool_decide _). }
  assert (value (font_size_spin_secondary w2) = value (font_size_spin_secondary w1)) as ->.
  { rewrite Hb2, Hb1. by destruct (_ && _). }
  assert (value (outline_width_spin w2) = value (outline_width_spin w1)) as ->.
  { rewrite Hc2, Hc1. by destruct (_ && _ && _). }
  assert (settings w2 = settings w1 ∧ ffmpeg_path w2 = ffmpeg_path w1) as [-> ->]; [|done].
  destruct (first_overflow _) as [v|].
  - destruct Hrest2 as (-> & -> & _). done.
  - destruct Hrest1 as (Hst1 & Hff1 & _), Hrest2 as (-> & -> & _).
    rewrite Hst1, merged_colors_idempotent. split; [done|].
    rewrite Hff1. by destruct (truthy_opt _).
Qed.

Lemma load_project_twice_is_load_once_witness :
  project_of
    (window (load_project sample_env "song.kproj"
       (load_project sample_env "song.kproj"
          (Gui (setup_ui sample_env ∅ "font" "tmp") ∅
             {["song.kproj" :=
                 Ok (Project "3.0" None
                       (Some (SettingsDoc None None (Some 500) None (Some "#112233") None None
                                None (Some "/opt/ffmpeg") (Some "zoom") None None
                                None)))]})).2).2) =
  project_of
    (window (load_project sample_env "song.kproj"
       (Gui (setup_ui sample_env ∅ "font" "tmp") ∅
          {["song.kproj" :=
              Ok (Project "3.0" None
                    (Some (SettingsDoc None None (Some 500) None (Some "#112233") None None
                             None (Some "/opt/ffmpeg") (Some "zoom") None None
                             None)))]})).2).
Proof.
  eapply (load_project_twice_is_load_once sample_env "song.kproj");
    [discriminate|apply lookup_singleton_eq].
Defined.

(** X14 (as amended): [load_project] starts the duration probe for the
    document's audio file before it takes over the document's engine path:
    the probe runs with the engine path the window had before the load,
    also when the document names another one.  That other path is taken
    over when the document's sizes fit a C [int]; when one does not, the
    load stops at it and the window keeps the engine path it had.  A
    document without a (non-empty) audio path starts no probe. *)
Theorem load_project_probes_with_the_old_engine_path :
  ∀ (env : Env) (path : string) (doc : project_data) (g : gui),
    path ≠ "" →
    projects g !! path = Some (Ok doc) →
    (∀ paths audio,
       d_file_paths doc = Some paths →
       paths !! "audio" = Some audio →
       audio ≠ "" →
       audio_worker (window (load_project env path g).2) =
         Some (ffmpeg_path (window g), audio)) ∧
    (∀ engine,
       d_settings doc = Some engine →
       Forall fits_c_int (sizes engine) →
       ∀ ffmpeg, d_ffmpeg_path engine = Some ffmpeg → ffmpeg ≠ "" →
                 ffmpeg_path (window (load_project env path g).2) = ffmpeg) ∧
    (∀ v,
       first_overflow (sizes (default no_settings (d_settings doc))) = Some v →
       ffmpeg_path (window (load_project env path g).2) = ffmpeg_path (window g)) ∧
    (default "" (default ∅ (d_file_paths doc) !! "audio") = "" →
     audio_worker (window (load_project env path g).2) = audio_worker (window g)).
Proof.
  intros env path doc [w fs pj] Hne Hdoc. apply truthy_nonempty in Hne. simpl in Hdoc.
  destruct (load_project_effects env path doc w fs pj Hne Hdoc) as (_ & Haudio & _).
  cbn [window]. split_and!.
  - intros paths audio Hpaths Haud Hnonempty. rewrite Haudio, Hpaths. simpl.
    rewrite Haud. by rewrite (proj2 (truthy_nonempty audio) Hnonempty).
  - intros engine Hengine Hfit ffmpeg Hffmpeg Hnonempty.
    destruct (load_project_fits env path doc w fs pj Hne Hdoc)
      as (w1 & Hrun1 & _ & _ & _ & _ & _ & _ & _ & _ & _ & _ & _ & Hff1 & _);
      [by rewrite Hengine|].
    rewrite Hrun1. simpl.
    rewrite Hff1, Hengine. simpl. rewrite Hffmpeg. simpl.
    by rewrite (proj2 (truthy_nonempty ffmpeg) Hnonempty).
  - intros v Hv.
    destruct (load_project_spec env path doc w fs pj Hne Hdoc)
      as (w1 & Hrun1 & _ & _ & _ & _ & _ & _ & _ & _ & _ & _ & Hrest).
    rewrite Hv in Hrest. rewrite Hrun1. cbn [snd window]. by destruct Hrest as (_ & -> & _).
  - intros Hnone. rewrite Haudio.
    destruct (default ∅ (d_file_paths doc) !! "audio") as [audio|]; [|done].
    simpl in Hnone. by subst.
Qed.

Lemma load_project_probes_with_the_old_engine_path_witness :
  audio_worker
    (window (load_project sample_env "song.kproj"
       (Gui (setup_ui sample_env ∅ "font" "tmp") ∅
          {["song.kproj" :=
              Ok (Project "3.0" (Some {["audio" := "/music/a.mp3"]})
                    (Some (SettingsDoc None None None None None None None None
                             (Some "/opt/ffmpeg") None None None None)))]})).2)
    = Some ("ffmpeg", "/music/a.mp3") ∧
  ffmpeg_path
    (window (load_project sample_env "song.kproj"
       (Gui (setup_ui sample_env ∅ "font" "tmp") ∅
          {["song.kproj" :=
              Ok (Project "3.0" (Some {["audio" := "/music/a.mp3"]})
                    (Some (SettingsDoc None None None None None None None None
                             (Some "/opt/ffmpeg") None None None None)))]})).2)
    = "/opt/ffmpeg".
Proof.
  destruct (load_project_probes_with_the_old_engine_path sample_env "song.kproj"
              (Project "3.0" (Some {["audio" := "/music/a.mp3"]})
                 (Some (SettingsDoc None None None None None None None None
                          (Some "/opt/ffmpeg") None None None None)))
              (Gui (setup_ui sample_env ∅ "font" "tmp") ∅
                 {["song.kproj" :=
                     Ok (Project "3.0" (Some {["audio" := "/music/a.mp3"]})
                           (Some (SettingsDoc None None None None None None None None
                                    (Some "/opt/ffmpeg") None None None None)))]}))
    as (Haudio & Hengine & _); [discriminate|apply lookup_singleton_eq|].
  split.
  - apply (Haudio {["audio" := "/music/a.mp3"]});
      [reflexivity|apply lookup_singleton_eq|discriminate].
  - eapply Hengine; [reflexivity| |reflexivity|discriminate].
    repeat constructor; unfold fits_c_int; simpl; lia.
Defined.

(** A document with a size beyond the C [int]s: the probe is started, the
    error dialog is shown and the engine path of the document is not taken
    over. *)
Example oversized_size_stops_the_load :
  ffmpeg_path
    (window (load_project sample_env "song.kproj"
       (Gui (setup_ui sample_env ∅ "font" "tmp") ∅
          {["song.kproj" :=
              Ok (Project "3.0" (Some {["audio" := "/music/a.mp3"]})
                    (Some (SettingsDoc None None (Some 2147483648) None (Some "#112233") None
                             None None (Some "/opt/ffmpeg") None None None None)))]})).2)
    = "ffmpeg" ∧
  length
    (dialogs
       (window (load_project sample_env "song.kproj"
          (Gui (setup_ui sample_env ∅ "font" "tmp") ∅
             {["song.kproj" :=
                 Ok (Project "3.0" (Some {["audio" := "/music/a.mp3"]})
                       (Some (SettingsDoc None None (Some 2147483648) None (Some "#112233") None
                                None None (Some "/opt/ffmpeg") None None None None)))]})).2))
    = 1%nat.
Proof. split; vm_compute; reflexivity. Qed.

(** ** The line edits mirror the asset paths *)

Lemma mirrored_setup (env : Env) (store : gmap string string) (font_dir temp_dir : string) :
  mirrored (setup_ui env store font_dir temp_dir).
Proof.
  intros key. simpl.
  destruct (decide (key ∈ ["audio"; "cover"; "lrc"])) as [Hin|Hout].
  - rewrite bool_decide_true by done.
    assert (key = "audio" ∨ key = "cover" ∨ key = "lrc") as [-> | [-> | ->]] by set_solver;
      reflexivity.
  - rewrite bool_decide_false by done.
    assert (key ≠ "audio" ∧ key ≠ "cover" ∧ key ≠ "lrc") as (H1 & H2 & H3) by set_solver.
    by simplify_map_eq.
Qed.

Lemma load_project_not_read (env : Env) (path : string) w fs pj :
  truthy path = false ∨ (∀ doc, pj !! path ≠ Some (Ok doc)) →
  ∃ lg ds,
    load_project env path (Gui w fs pj) = (Ok tt, Gui (set_dialogs ds (set_log_box lg w)) fs pj).
Proof.
  intros Hcase. destruct w. unfold load_project, json_load.
  destruct (truthy path) eqn:Hpath; cbv beta iota delta [negb]; exec.
  - destruct Hcase as [?|Hdoc]; [done|].
    destruct (pj !! path) as [[doc|e]|] eqn:Hfile; [by destruct (Hdoc doc)|..];
      exec; by eexists _, _.
  - by eexists _, _.
Qed.

Lemma mirrored_load_project (env : Env) (path : string) (g : gui) :
  mirrored (window g) → mirrored (window (load_project env path g).2).
Proof.
  intros Hm. destruct g as [w fs pj].
  destruct (truthy path) eqn:Hpath.
  - destruct (pj !! path) as [[doc|e]|] eqn:Hfile.
    + destruct (load_project_effects env path doc w fs pj Hpath Hfile) as (Hle & _).
      destruct (load_project_spec env path doc w fs pj Hpath Hfile) as (w1 & Hrun & Hfp & _).
      rewrite Hrun in Hle. rewrite Hrun. simpl in *. intros key.
      rewrite Hle, Hfp, map_lookup_imap, (Hm key).
      by case_bool_decide.
    + destruct (load_project_not_read env path w fs pj) as (lg & ds & Hrun);
        [right; intros doc; congruence|].
      rewrite Hrun. by destruct w.
    + destruct (load_project_not_read env path w fs pj) as (lg & ds & Hrun);
        [right; intros doc; congruence|].
      rewrite Hrun. by destruct w.
  - destruct (load_project_not_read env path w fs pj) as (lg & ds & Hrun); [by left|].
    rewrite Hrun. by destruct w.
Qed.

Lemma mirrored_select_file (env : Env) (key path : string) (g : gui) :
  key ∈ ["audio"; "cover"; "lrc"] →
  mirrored (window g) →
  mirrored (window (select_file env key path g).2) ∧
  (path ≠ "" → file_paths (window (select_file env key path g).2) !! key = Some path).
Proof.
  intros Hkey Hm. destruct g as [w fs pj]. destruct w. unfold mirrored in *. simpl in Hm.
  pose proof (Hm key) as Hk. rewrite bool_decide_true in Hk by done.
  unfold select_file, get_audio_duration, parse_lrc_file.
  destruct (truthy path) eqn:Hpath; cbv beta iota delta [negb]; exec.
  - rewrite Hk. exec.
    assert (∀ k,
              <[key:=path]> line_edits0 !! k =
                if bool_decide (k ∈ ["audio"; "cover"; "lrc"])
                then Some (default "" (<[key:=path]> file_paths0 !! k))
                else None) as Hgoal.
    { intros k. destruct (decide (k = key)) as [->|Hne].
      - rewrite !lookup_insert_eq. by rewrite bool_decide_true.
      - rewrite !lookup_insert_ne by done. apply Hm. }
    destruct (bool_decide (key = "audio")); exec;
      [|destruct (bool_decide (key = "lrc")); exec;
        [destruct (read_lrc_metadata env path); exec|]];
      (split; [exact Hgoal|intros _; apply lookup_insert_eq]).
  - split; [exact Hm|]. intros Hne. apply truthy_nonempty in Hne. congruence.
Qed.

(** X15: the three line edits always show the asset paths.  The window
    starts that way, and the two methods that write the asset paths,
    [select_file] for one of the three keys and [load_project], keep it
    so; a file chosen in the dialog is stored under its key. *)
Theorem line_edits_mirror_the_asset_paths :
  ∀ (env : Env) (g : gui),
    (∀ store font_dir temp_dir, mirrored (setup_ui env store font_dir temp_dir)) ∧
    (mirrored (window g) →
     (∀ path, mirrored (window (load_project env path g).2)) ∧
     (∀ key path,
        key ∈ ["audio"; "cover"; "lrc"] →
        mirrored (window (select_file env key path g).2) ∧
        (path ≠ "" → file_paths (window (select_file env key path g).2) !! key = Some path))).
Proof.
  intros env g. split; [apply mirrored_setup|].
  intros Hm. split.
  - intros path. by apply mirrored_load_project.
  - intros key path Hkey. by apply mirrored_select_file.
Qed.

Lemma line_edits_mirror_the_asset_paths_witness :
  line_edits
    (window (select_file sample_env "cover" "/art/c.png"
               (Gui (setup_ui sample_env ∅ "font" "tmp") ∅ ∅)).2) !! "cover"
  = Some "/art/c.png".
Proof.
  destruct (line_edits_mirror_the_asset_paths sample_env
              (Gui (setup_ui sample_env ∅ "font" "tmp") ∅ ∅)) as [Hsetup Hkeep].
  destruct (Hkeep (Hsetup ∅ "font" "tmp")) as [_ Hselect].
  destruct (Hselect "cover" "/art/c.png") as [Hm Hstored]; [repeat constructor|].
  rewrite (Hm "cover"), Hstored; [reflexivity|discriminate].
Defined.

(** ** Default file names *)

Lemma append_assoc (s1 s2 s3 : string) : (s1 +:+ s2) +:+ s3 = s1 +:+ s2 +:+ s3.
Proof. induction s1 as [|c s1 IH]; [done|]. exact (f_equal (String c) IH). Qed.

(** X16: the two save-file dialogs offer names with the same stem.  When
    the lyric metadata has no (or an empty) title, the names are the fixed
    fallbacks, also when an artist is known; otherwise the stem is the
    title, preceded by the artist and a dash when an artist is known. *)
Theorem default_file_names_share_the_stem :
  ∀ (w : MainWindow),
    (default "" (lrc_metadata w !! "ti") = "" →
     save_project_default_filename w = "untitled.kproj" ∧
     start_generation_default_filename w = "lyric_video.mp4") ∧
    (default "" (lrc_metadata w !! "ti") ≠ "" →
     save_project_default_filename w =
       (if bool_decide (default "" (lrc_metadata w !! "ar") = "")
        then default "" (lrc_metadata w !! "ti")
        else default "" (lrc_metadata w !! "ar") +:+ " - " +:+ default "" (lrc_metadata w !! "ti"))
       +:+ ".kproj" ∧
     start_generation_default_filename w =
       (if bool_decide (default "" (lrc_metadata w !! "ar") = "")
        then default "" (lrc_metadata w !! "ti")
        else default "" (lrc_metadata w !! "ar") +:+ " - " +:+ default "" (lrc_metadata w !! "ti"))
       +:+ ".mp4").
Proof.
  intros w. unfold save_project_default_filename, start_generation_default_filename.
  destruct (lrc_metadata w !! "ti") as [[|c title]|]; simpl; [by split..| |by split].
  split; [done|]. intros _.
  destruct (lrc_metadata w !! "ar") as [[|c' artist]|]; simpl; [by split| |by split].
  change (String c' (artist +:+ String " " (String "-" (String " " (String c title)))))
    with (String c' artist +:+ " - " +:+ String c title).
  by rewrite <- !append_assoc.
Qed.

Lemma default_file_names_share_the_stem_witness :
  save_project_default_filename
    (set_lrc_metadata {["ti" := "Song"; "ar" := "Band"]} (setup_ui sample_env ∅ "font" "tmp"))
    = "Band - Song.kproj" ∧
  start_generation_default_filename
    (set_lrc_metadata {["ar" := "Band"]} (setup_ui sample_env ∅ "font" "tmp"))
    = "lyric_video.mp4".
Proof.
  split.
  - destruct (proj2 (default_file_names_share_the_stem
              (set_lrc_metadata {["ti" := "Song"; "ar" := "Band"]}
                 (setup_ui sample_env ∅ "font" "tmp")))) as [Hsave _].
    + intros H. vm_compute in H. discriminate.
    + rewrite Hsave. vm_compute. reflexivity.
  - apply (proj1 (default_file_names_share_the_stem
              (set_lrc_metadata {["ar" := "Band"]} (setup_ui sample_env ∅ "font" "tmp")))).
    vm_compute. reflexivity.
Defined.

(** ** The engine check before a job *)

(** X17: [check_ffmpeg] catches only [CalledProcessError] and
    [FileNotFoundError].  For these two, [start_generation] and
    [generate_preview] return without a worker after one warning dialog.
    Any other exception of the probe, a [PermissionError] for one, escapes
    both methods: no worker is started and no dialog is shown. *)
Theorem engine_check_failure_starts_no_job :
  ∀ (env : Env) (output_path suffix : string) (g : gui) (e : exn),
    probe_version env (ffmpeg_path (window g)) = Exc e →
    (exn_type e = CalledProcessError ∨ exn_type e = FileNotFoundError →
      (start_generation env output_path g).1 = Ok None ∧
      (generate_preview env suffix g).1 = Ok None ∧
      dialogs (window (start_generation env output_path g).2) =
        dialogs (window g) ++
        [QMessageBox_warning "依赖警告" "未找到有效的 FFmpeg。请在“高级设置”中指定其路径。"] ∧
      dialogs (window (generate_preview env suffix g).2) =
        dialogs (window g) ++
        [QMessageBox_warning "依赖警告" "未找到有效的 FFmpeg。请在“高级设置”中指定其路径。"]) ∧
    (exn_type e ≠ CalledProcessError → exn_type e ≠ FileNotFoundError →
      (start_generation env output_path g).1 = Exc e ∧
      (generate_preview env suffix g).1 = Exc e ∧
      dialogs (window (start_generation env output_path g).2) = dialogs (window g) ∧
      dialogs (window (generate_preview env suffix g).2) = dialogs (window g)).
Proof.
  intros env output_path suffix [w fs pj] e Hprobe. destruct w. simpl in Hprobe.
  unfold start_generation, generate_preview, check_ffmpeg. exec. rewrite Hprobe.
  destruct e as [c text]. split.
  - intros [Hc | Hc]; simpl in Hc; subst c; exec; by split_and!.
  - intros H1 H2; simpl in H1, H2. destruct c; try done; exec; by split_and!.
Qed.

Lemma engine_check_failure_starts_no_job_witness :
  (start_generation
     {| BACKGROUND_ANIMATIONS := []; TEXT_ANIMATIONS := []; COVER_ANIMATIONS := [];
        font_files := None; int_of_str := λ _, None;
        path_join := λ directory name, directory +:+ "/" +:+ name;
        read_lrc_metadata := λ _, Ok ∅; str_of_dict := λ _, "{}";
        probe_version := λ _, Exc (Raise PermissionError "[Errno 13] Permission denied");
        signal_int := qt_int;
        overflow_text := λ _, "Python int too large to convert to C int" |}
     "out.mp4" (Gui (setup_ui sample_env ∅ "font" "tmp") ∅ ∅)).1
  = Exc (Raise PermissionError "[Errno 13] Permission denied").
Proof.
  apply (engine_check_failure_starts_no_job
           {| BACKGROUND_ANIMATIONS := []; TEXT_ANIMATIONS := []; COVER_ANIMATIONS := [];
              font_files := None; int_of_str := λ _, None;
              path_join := λ directory name, directory +:+ "/" +:+ name;
              read_lrc_metadata := λ _, Ok ∅; str_of_dict := λ _, "{}";
              probe_version := λ _, Exc (Raise PermissionError "[Errno 13] Permission denied");
              signal_int := qt_int;
              overflow_text := λ _, "Python int too large to convert to C int" |}
           "out.mp4" "00" (Gui (setup_ui sample_env ∅ "font" "tmp") ∅ ∅)
           (Raise PermissionError "[Errno 13] Permission denied"));
    [reflexivity | discriminate | discriminate].
Defined.

(** X18: choosing an engine binary stores its path in the window, in the
    read-only line edit and in the persisted settings at once, whatever the
    engine check that follows says, so that [load_settings] on that store
    brings it back; a cancelled dialog changes nothing. *)
Theorem select_ffmpeg_path_is_persisted :
  ∀ (env : Env) (path : string) (g : gui),
    (path = "" → select_ffmpeg_path env path g = (Ok tt, g)) ∧
    (path ≠ "" →
     ffmpeg_path (window (select_ffmpeg_path env path g).2) = path ∧
     ffmpeg_path_edit (window (select_ffmpeg_path env path g).2) = path ∧
     settings (window (select_ffmpeg_path env path g).2) !! "ffmpeg_path" = Some path ∧
     ∀ w' fs' pj',
       settings w' = settings (window (select_ffmpeg_path env path g).2) →
       ffmpeg_path (window (load_settings env (Gui w' fs' pj')).2) = path).
Proof.
  intros env path [w fs pj]. split.
  - intros ->. reflexivity.
  - intros Hne. apply truthy_nonempty in Hne.
    assert (ffmpeg_path (window (select_ffmpeg_path env path (Gui w fs pj)).2) = path ∧
            ffmpeg_path_edit (window (select_ffmpeg_path env path (Gui w fs pj)).2) = path ∧
            settings (window (select_ffmpeg_path env path (Gui w fs pj)).2) !! "ffmpeg_path"
              = Some path) as (Hp & He & Hs).
    { destruct w. unfold select_ffmpeg_path, check_ffmpeg. rewrite Hne. exec.
      destruct (probe_version env path) as [[]|e]; exec;
        [|destruct (exn_type e); exec]; split_and!; try done; apply lookup_insert_eq. }
    split_and!; try done.
    intros w' fs' pj' Hstore.
    destruct (load_settings_first_fields env w' fs' pj') as (Lff & _).
    by rewrite Lff, Hstore, Hs.
Qed.

Lemma select_ffmpeg_path_is_persisted_witness :
  settings (window (select_ffmpeg_path sample_env "/opt/ffmpeg"
                      (Gui (setup_ui sample_env ∅ "font" "tmp") ∅ ∅)).2) !! "ffmpeg_path"
  = Some "/opt/ffmpeg".
Proof.
  apply (select_ffmpeg_path_is_persisted sample_env "/opt/ffmpeg"
           (Gui (setup_ui sample_env ∅ "font" "tmp") ∅ ∅)).
  discriminate.
Defined.

(** ** A machine without fonts *)

Lemma start_generation_without_fonts (env : Env) (output_path : string) (g : gui) :
  fontless (window g) →
  ∀ j, (start_generation env output_path g).1 ≠ Ok (Some j).
Proof.
  intros Hf j. destruct g as [w fs pj].
  destruct (check_ffmpeg_frame env w fs pj) as (r & lg & ds & Hchk).
  unfold start_generation. run. rewrite Hchk.
  destruct r as [[]|e]; run; try done.
  destruct (gather_parameters_spec env (Gui (set_dialogs ds (set_log_box lg w)) fs pj))
    as (r & reports & Hg & Hr).
  assert (r = None) as ->.
  { destruct (first_invalid _); [by destruct Hr|].
    destruct (fontless_frame w lg ds Hf) as [Hp _].
    cbv beta iota delta [window] in Hr. rewrite Hp in Hr. by destruct Hr. }
  simpl in Hg. rewrite Hg. done.
Qed.

Lemma generate_preview_without_fonts (env : Env) (suffix : string) (g : gui) :
  fontless (window g) →
  ∀ j, (generate_preview env suffix g).1 ≠ Ok (Some j).
Proof.
  intros Hf j. destruct g as [w fs pj].
  destruct (check_ffmpeg_frame env w fs pj) as (r & lg & ds & Hchk).
  unfold generate_preview. run. rewrite Hchk.
  destruct r as [[]|e]; run; try done.
  destruct (gather_parameters_spec env (Gui (set_dialogs ds (set_log_box lg w)) fs pj))
    as (r & reports & Hg & Hr).
  assert (r = None) as ->.
  { destruct (first_invalid _); [by destruct Hr|].
    destruct (fontless_frame w lg ds Hf) as [Hp _].
    cbv beta iota delta [window] in Hr. rewrite Hp in Hr. by destruct Hr. }
  simpl in Hg. rewrite Hg. done.
Qed.

Lemma gather_parameters_without_fonts (env : Env) (w : MainWindow) fs pj :
  fontless w →
  first_invalid (Gui w fs pj) = None →
  _gather_parameters env (Gui w fs pj) =
    (Ok None,
     Gui (set_dialogs
            (dialogs w ++
             [QMessageBox_critical "字体错误"
                ("请在 '" +:+ font_dir w +:+ "' 文件夹中放置字体文件，并在此处选择它们。")])
            w) fs pj).
Proof.
  intros [Hp _] Hvalid.
  destruct (gather_parameters_spec env (Gui w fs pj)) as (r & reports & Hg & Hr).
  rewrite Hvalid in Hr. cbv beta iota delta [window] in Hr. rewrite Hp in Hr.
  destruct Hr as [-> ->]. exact Hg.
Qed.

(** X19 (as amended): a window whose font boxes are empty stays so under
    every sequence of project and settings loads, whatever font names
    these mention, and neither [start_generation] nor [generate_preview]
    starts a worker from it.  With a working engine and three asset paths
    that name existing files, it is the font check that stops the job:
    both methods return without a worker after exactly one dialog, the
    error that names the font directory.  A machine whose font folder is
    missing or holds no font file starts with such a window. *)
Theorem without_fonts_no_job_starts :
  ∀ (env : Env) (g : gui) (loads : list load) (output_path suffix : string),
    fontless (window g) →
    fontless (window (foldl (run_load env) g loads)) ∧
    (∀ j, (start_generation env output_path g).1 ≠ Ok (Some j)) ∧
    (∀ j, (generate_preview env suffix g).1 ≠ Ok (Some j)) ∧
    (first_invalid g = None →
     probe_version env (ffmpeg_path (window g)) = Ok tt →
     (start_generation env output_path g).1 = Ok None ∧
     dialogs (window (start_generation env output_path g).2) =
       dialogs (window g) ++
       [QMessageBox_critical "字体错误"
          ("请在 '" +:+ font_dir (window g) +:+ "' 文件夹中放置字体文件，并在此处选择它们。")] ∧
     (generate_preview env suffix g).1 = Ok None ∧
     dialogs (window (generate_preview env suffix g).2) =
       dialogs (window g) ++
       [QMessageBox_critical "字体错误"
          ("请在 '" +:+ font_dir (window g) +:+ "' 文件夹中放置字体文件，并在此处选择它们。")]) ∧
    (font_files env = None ∨ font_files env = Some [] → fontless (window (started env))).
Proof.
  intros env g loads output_path suffix Hf. split_and!.
  - by apply fontless_run_loads.
  - by apply start_generation_without_fonts.
  - by apply generate_preview_without_fonts.
  - intros Hvalid Hprobe. destruct g as [w fs pj]. cbn [window] in *.
    pose proof (gather_parameters_without_fonts env
                  (set_dialogs (dialogs w)
                     (set_log_box
                        (log_box w ++
                         ["当前 FFmpeg 路径: " +:+ ffmpeg_path w; "FFmpeg 环境检测成功。"]) w))
                  fs pj) as Hg.
    rewrite first_invalid_frame in Hg. specialize (Hg (fontless_frame _ _ _ Hf) Hvalid).
    destruct w. simpl in Hprobe.
    unfold start_generation, generate_preview, check_ffmpeg. exec. rewrite Hprobe. exec.
    unfold set_dialogs, set_log_box in Hg. simpl in Hg.
    rewrite <- app_assoc. simpl. rewrite Hg. by exec.
  - apply fontless_started.
Qed.

Lemma without_fonts_no_job_starts_witness :
  (start_generation fontless_env "out.mp4"
     (Gui (set_file_paths
             {["audio" := "/music/a.mp3"; "cover" := "/music/a.png"; "lrc" := "/music/a.lrc"]}
             (setup_ui fontless_env ∅ "font" "tmp"))
        {["/music/a.mp3" := File 4096 None false; "/music/a.png" := File 2048 (Some 1%nat) false;
          "/music/a.lrc" := File 512 None false]} ∅)).1 = Ok None ∧
  dialogs
    (window (start_generation fontless_env "out.mp4"
       (Gui (set_file_paths
               {["audio" := "/music/a.mp3"; "cover" := "/music/a.png"; "lrc" := "/music/a.lrc"]}
               (setup_ui fontless_env ∅ "font" "tmp"))
          {["/music/a.mp3" := File 4096 None false; "/music/a.png" := File 2048 (Some 1%nat) false;
            "/music/a.lrc" := File 512 None false]} ∅)).2) =
    [QMessageBox_critical "字体错误" "请在 'font' 文件夹中放置字体文件，并在此处选择它们。"].
Proof.
  destruct (without_fonts_no_job_starts fontless_env
              (Gui (set_file_paths
                      {["audio" := "/music/a.mp3"; "cover" := "/music/a.png";
                        "lrc" := "/music/a.lrc"]}
                      (setup_ui fontless_env ∅ "font" "tmp"))
                 {["/music/a.mp3" := File 4096 None false;
                   "/music/a.png" := File 2048 (Some 1%nat) false;
                   "/music/a.lrc" := File 512 None false]} ∅)
              [] "out.mp4" "00")
    as (_ & _ & _ & Hfont & _); [split; reflexivity|].
  destruct Hfont as (Hstart & Hdialogs & _); [vm_compute; reflexivity|reflexivity|].
  split; [exact Hstart|]. rewrite Hdialogs. reflexivity.
Defined.
